(** * Check-in bot: validation and idempotent disbursement pipeline

    A shallow embedding of [main.py] (the bot that merges beneficiaries from
    three places and attempts its three actions one after the other) and of
    [main_advanced.py] (the variant with simulated actions, which reads
    beneficiaries from the metadata only and attempts transfer and upvote
    only after a successful comment), followed by the properties of the
    pipeline.

    Conventions of the embedding.
    - A post is the dict [monitor_community] builds, so its keys are always
      present; the objects reachable from it form a tree, as decoded JSON
      does.
    - A value decoded from JSON is a [json] tree.  Numbers are kept by their
      exact rational value: Python compares [int], [float] and [bool]
      numerically, and so does [py_eq].  NaN, the infinities and the rounding
      of REAL arithmetic are outside the model.
    - A Python [str] is a [string]; one [ascii] stands for one character.
    - A Python exception is a [Raise] result; the bot catches every exception
      at the per-post boundary, so only the fact of raising matters, but the
      class of the exception is kept for readability.
    - The SQLite file is a [Database] value passed from call to call.  The
      two counter tables are keyed by their PRIMARY KEY; the table of
      processed posts is a list of rows, its UNIQUE constraint being a
      property to establish.  A statement that fails inside SQLite is outside
      the model.
    - The clock, the balance oracle and the broadcast outcomes are inputs
      ([Env]). *)

From stdpp Require Import gmap strings list.
From Stdlib Require Import ZArith QArith Lia Sorted.

Set Default Proof Using "Type".
Set Warnings "-register-all".
Local Open Scope string_scope.
Local Open Scope list_scope.

(** ** JSON values and the Python operations the bot applies to them *)

Inductive json : Type :=
| JNull
| JBool (b : bool)
| JNum (q : Q)
| JStr (s : string)
| JArr (items : list json)
| JObj (fields : list (string * json)).

Inductive exn : Type := AttributeError | TypeError | KeyError.

Inductive result (A : Type) : Type :=
| Ok (a : A)
| Raise (e : exn).
Arguments Ok {A} a.
Arguments Raise {A} e.

Definition bind {A B : Type} (m : result A) (k : A -> result B) : result B :=
  match m with
  | Ok a => k a
  | Raise e => Raise e
  end.

Notation "x <- m ;; k" := (bind m (fun x => k))
  (at level 100, m at next level, right associativity).

(** [d.get(k)] on the fields of a dict: the value of the first binding or
    nothing. *)
Fixpoint dict_get (fields : list (string * json)) (k : string) : option json :=
  match fields with
  | [] => None
  | (k', v) :: rest => if String.eqb k' k then Some v else dict_get rest k
  end.

(** [d[k] = v] for a key that the dict already has. *)
Fixpoint dict_set (fields : list (string * json)) (k : string) (v : json)
  : list (string * json) :=
  match fields with
  | [] => []
  | (k', v') :: rest =>
      if String.eqb k' k then (k', v) :: rest else (k', v') :: dict_set rest k v
  end.

(** [bool(v)] *)
Definition py_truthy (v : json) : bool :=
  match v with
  | JNull => false
  | JBool b => b
  | JNum q => negb (Qeq_bool q 0)
  | JStr s => negb (String.eqb s "")
  | JArr items => match items with [] => false | _ => true end
  | JObj fields => match fields with [] => false | _ => true end
  end.

Definition bool_num (b : bool) : Q := if b then 1%Q else 0%Q.

(** [a == b] *)
Fixpoint py_eq (a b : json) {struct a} : bool :=
  match a, b with
  | JNull, JNull => true
  | JBool x, JBool y => Bool.eqb x y
  | JBool x, JNum q => Qeq_bool (bool_num x) q
  | JNum q, JBool y => Qeq_bool q (bool_num y)
  | JNum p, JNum q => Qeq_bool p q
  | JStr s, JStr t => String.eqb s t
  | JArr xs, JArr ys =>
      (fix items_eq (xs ys : list json) {struct xs} : bool :=
         match xs, ys with
         | [], [] => true
         | x :: xs', y :: ys' => py_eq x y && items_eq xs' ys'
         | _, _ => false
         end) xs ys
  | JObj fs, JObj gs =>
      Nat.eqb (length fs) (length gs) &&
      (fix fields_eq (fs : list (string * json)) {struct fs} : bool :=
         match fs with
         | [] => true
         | (k, v) :: fs' =>
             match dict_get gs k with
             | Some w => py_eq v w && fields_eq fs'
             | None => false
             end
         end) fs
  | _, _ => false
  end.

(** [needle in hay] for two strings *)
Fixpoint str_contains (needle hay : string) : bool :=
  String.prefix needle hay ||
  match hay with
  | EmptyString => false
  | String _ rest => str_contains needle rest
  end.

Fixpoint str_chars (s : string) : list json :=
  match s with
  | EmptyString => []
  | String c rest => JStr (String c EmptyString) :: str_chars rest
  end.

(** [o.get(k, default)]: only a dict has the method. *)
Definition py_get (o : json) (k : string) (default : json) : result json :=
  match o with
  | JObj fields => Ok (match dict_get fields k with Some v => v | None => default end)
  | _ => Raise AttributeError
  end.

(** [for x in o]: the items of a list, the characters of a string, the keys
    of a dict; nothing else can be iterated. *)
Definition py_iter (o : json) : result (list json) :=
  match o with
  | JArr items => Ok items
  | JStr s => Ok (str_chars s)
  | JObj fields => Ok (map (fun kv => JStr (fst kv)) fields)
  | _ => Raise TypeError
  end.

(** [x in o] *)
Definition py_in (x o : json) : result bool :=
  match o with
  | JArr items => Ok (existsb (py_eq x) items)
  | JStr s =>
      match x with
      | JStr t => Ok (str_contains t s)
      | _ => Raise TypeError
      end
  | JObj fields =>
      match x with
      | JStr k => Ok (match dict_get fields k with Some _ => true | None => false end)
      | JArr _ | JObj _ => Raise TypeError
      | _ => Ok false
      end
  | _ => Raise TypeError
  end.

(** [target.extend(arg)]: the list after the call.  Only a list has the
    method, and the argument must be iterable. *)
Definition py_extend (target arg : json) : result json :=
  match target with
  | JArr items => xs <- py_iter arg ;; Ok (JArr (items ++ xs))
  | _ => Raise AttributeError
  end.

(** ** Posts, requirements and validation results *)

(** The dict that [monitor_community] builds for one feed entry.  The three
    fields read with [post.get(key, default)] hold the default when the feed
    entry lacks them. *)
Record Post : Type := {
  post_id : string;
  author : string;
  permlink : string;
  title : string;
  body : string;
  created : string;
  json_metadata : json;
  extensions : json;
  beneficiaries : json
}.

(** One entry of [reasons].  A constructor stands for the f-string of the
    source with the same wording; its arguments are the values formatted into
    it. *)
Inductive reason : Type :=
| InvalidJSONMetadata
| AppMismatch (expected got : json)
| DeveloperMismatch (expected got : json)
| MissingRequiredTags (missing_tags : list json)
| MissingBeneficiary (req_ben : json)
| CountryMismatch (expected got : json)
| MissingRequiredField (field : json)
| BodyTooShort.

Record PostValidation : Type := {
  is_valid : bool;
  reasons : list reason;
  post_data : Post
}.

(** [config.json].  [required_metadata] is the dict under that key. *)
Record Config : Type := {
  required_metadata : list (string * json);
  dry_run : bool;
  max_daily_transfers : Z;
  min_account_balance : Q;
  transfer_amount : Q;
  upvote_percentage : Z
}.

(** [required_metadata.get(k)] and [required_metadata.get(k, [])] *)
Definition required (cfg : Config) (k : string) (default : json) : json :=
  match dict_get (required_metadata cfg) k with
  | Some v => v
  | None => default
  end.

(** ** The checks of [validate_post], one definition per block of the source

    Each returns the reasons its block appends. *)

(** "Check app field", "Check developer field" and "Check country" are the
    same statement on three keys. *)
Definition check_field (mismatch : json -> json -> reason)
    (required_value metadata : json) (k : string) : result (list reason) :=
  if py_truthy required_value then
    got <- py_get metadata k JNull ;;
    if negb (py_eq got required_value)
    then Ok [mismatch required_value got]
    else Ok []
  else Ok [].

Definition check_app (cfg : Config) (metadata : json) : result (list reason) :=
  check_field AppMismatch (required cfg "app" JNull) metadata "app".

Definition check_developer (cfg : Config) (metadata : json) : result (list reason) :=
  check_field DeveloperMismatch (required cfg "developer" JNull) metadata "developer".

Definition check_country (cfg : Config) (metadata : json) : result (list reason) :=
  check_field CountryMismatch (required cfg "country" JNull) metadata "country".

(** [[tag for tag in required_tags if tag not in post_tags]] *)
Fixpoint missing_from (post_tags : json) (required_tags : list json)
  : result (list json) :=
  match required_tags with
  | [] => Ok []
  | tag :: rest =>
      present <- py_in tag post_tags ;;
      others <- missing_from post_tags rest ;;
      Ok (if present then others else tag :: others)
  end.

Definition check_tags (cfg : Config) (metadata : json) : result (list reason) :=
  let required_tags := required cfg "tags" (JArr []) in
  post_tags <- py_get metadata "tags" (JArr []) ;;
  tags <- py_iter required_tags ;;
  missing_tags <- missing_from post_tags tags ;;
  match missing_tags with
  | [] => Ok []
  | _ => Ok [MissingRequiredTags missing_tags]
  end.

(** The condition of the inner loop over the post's beneficiaries. *)
Definition ben_matches (post_ben req_ben : json) : result bool :=
  post_account <- py_get post_ben "account" JNull ;;
  req_account <- py_get req_ben "account" JNull ;;
  post_weight <- py_get post_ben "weight" JNull ;;
  req_weight <- py_get req_ben "weight" JNull ;;
  Ok (py_eq post_account req_account && py_eq post_weight req_weight).

(** The inner loop: [found], with its [break]. *)
Fixpoint find_beneficiary (req_ben : json) (post_beneficiaries : list json)
  : result bool :=
  match post_beneficiaries with
  | [] => Ok false
  | post_ben :: rest =>
      m <- ben_matches post_ben req_ben ;;
      if m then Ok true else find_beneficiary req_ben rest
  end.

(** The outer loop over the required beneficiaries. *)
Fixpoint missing_beneficiaries (post_beneficiaries : json)
    (required_beneficiaries : list json) : result (list reason) :=
  match required_beneficiaries with
  | [] => Ok []
  | req_ben :: rest =>
      post_bens <- py_iter post_beneficiaries ;;
      found <- find_beneficiary req_ben post_bens ;;
      others <- missing_beneficiaries post_beneficiaries rest ;;
      Ok (if found then others else MissingBeneficiary req_ben :: others)
  end.

Definition check_beneficiaries (cfg : Config) (post_beneficiaries : json)
  : result (list reason) :=
  reqs <- py_iter (required cfg "beneficiaries" (JArr [])) ;;
  missing_beneficiaries post_beneficiaries reqs.

(** [field not in json_metadata or not json_metadata[field]], on a metadata
    that is a dict. *)
Definition field_missing (metadata field : json) : result bool :=
  present <- py_in field metadata ;;
  if present then
    match metadata, field with
    | JObj fields, JStr k =>
        match dict_get fields k with
        | Some v => Ok (negb (py_truthy v))
        | None => Raise KeyError
        end
    | _, _ => Raise TypeError
    end
  else Ok true.

Fixpoint missing_fields (metadata : json) (required_fields : list json)
  : result (list reason) :=
  match required_fields with
  | [] => Ok []
  | field :: rest =>
      missing <- field_missing metadata field ;;
      others <- missing_fields metadata rest ;;
      Ok (if missing then MissingRequiredField field :: others else others)
  end.

Definition check_required_fields (cfg : Config) (metadata : json)
  : result (list reason) :=
  fields <- py_iter (required cfg "required_fields" (JArr [])) ;;
  missing_fields metadata fields.

Definition check_body (post : Post) : list reason :=
  if (String.length (body post) <? 100)%nat then [BodyTooShort] else [].

(** ** [validate_post]

    [json.loads] is taken as given: [None] is a [JSONDecodeError]. *)

Section Validation.

Variable json_loads : string -> option json.

(** "Parse json_metadata if it's a string" *)
Definition load_metadata (raw : json) : option json :=
  match raw with
  | JStr s => json_loads s
  | _ => Some raw
  end.

(** The two tests on one extension, [[0, {"beneficiaries": [...]}]]: the list
    to merge, if the extension carries one. *)
Definition extension_beneficiaries (ext : json) : option json :=
  match ext with
  | JArr (tag :: payload :: _) =>
      if py_eq tag (JNum 0) then
        match payload with
        | JObj fields => dict_get fields "beneficiaries"
        | _ => None
        end
      else None
  | _ => None
  end.

(** The loop over the extensions.  [post_beneficiaries] is a list object that
    [extend] changes in place: the first component is the object after the
    loop, also when a call raised. *)
Fixpoint merge_extensions (exts : list json) (post_beneficiaries : json)
  : json * result unit :=
  match exts with
  | [] => (post_beneficiaries, Ok tt)
  | ext :: rest =>
      match extension_beneficiaries ext with
      | None => merge_extensions rest post_beneficiaries
      | Some more =>
          match py_extend post_beneficiaries more with
          | Ok extended => merge_extensions rest extended
          | Raise e => (post_beneficiaries, Raise e)
          end
      end
  end.

(** The direct field first, then the extensions. *)
Definition merge_beneficiaries (post : Post) (post_beneficiaries : json)
  : json * result unit :=
  let direct_beneficiaries := beneficiaries post in
  match (if py_truthy direct_beneficiaries
         then py_extend post_beneficiaries direct_beneficiaries
         else Ok post_beneficiaries) with
  | Raise e => (post_beneficiaries, Raise e)
  | Ok extended =>
      match py_iter (extensions post) with
      | Raise e => (extended, Raise e)
      | Ok exts => merge_extensions exts extended
      end
  end.

(** [post_beneficiaries = json_metadata.get('beneficiaries', [])] is the very
    list held by the post when the metadata arrived as a dict that has the
    key; it is a fresh list when the key is missing, and part of a fresh
    tree when the metadata was decoded from a string.  In the first case
    what [extend] did to the list is visible in the post afterwards. *)
Definition store_beneficiaries (post : Post) (merged : json) : Post :=
  match json_metadata post with
  | JObj fields =>
      match dict_get fields "beneficiaries" with
      | Some _ =>
          {| post_id := post_id post; author := author post;
             permlink := permlink post; title := title post;
             body := body post; created := created post;
             json_metadata := JObj (dict_set fields "beneficiaries" merged);
             extensions := extensions post;
             beneficiaries := beneficiaries post |}
      | None => post
      end
  | _ => post
  end.

(** The local [json_metadata] after the merge.  The list under the key
    'beneficiaries' is the list [extend] changed, whether the mapping belongs
    to the post or was decoded from a string for this call; without the key
    [post_beneficiaries] is the fresh default and the mapping is as it was. *)
Definition refresh_metadata (metadata merged : json) : json :=
  match metadata with
  | JObj fields =>
      match dict_get fields "beneficiaries" with
      | Some _ => JObj (dict_set fields "beneficiaries" merged)
      | None => metadata
      end
  | _ => metadata
  end.

(** [main.py], [HiveEcuadorBot.validate_post]: the post object after the call
    and what the call returned or raised.  The checks that follow the merge
    ("Check country", "Check required fields") read [json_metadata] as the
    merge left it. *)
Definition validate_post (cfg : Config) (post : Post) : Post * result PostValidation :=
  match load_metadata (json_metadata post) with
  | None =>
      (post, Ok {| is_valid := false; reasons := [InvalidJSONMetadata];
                   post_data := post |})
  | Some metadata =>
      match (app <- check_app cfg metadata ;;
             developer <- check_developer cfg metadata ;;
             tags <- check_tags cfg metadata ;;
             post_beneficiaries <- py_get metadata "beneficiaries" (JArr []) ;;
             Ok (app ++ developer ++ tags, post_beneficiaries)) with
      | Raise e => (post, Raise e)
      | Ok (reasons, post_beneficiaries) =>
          let '(merged, outcome) := merge_beneficiaries post post_beneficiaries in
          let post' := store_beneficiaries post merged in
          let metadata' := refresh_metadata metadata merged in
          (post',
           _ <- outcome ;;
           bens <- check_beneficiaries cfg merged ;;
           country <- check_country cfg metadata' ;;
           fields <- check_required_fields cfg metadata' ;;
           let reasons := reasons ++ bens ++ country ++ fields ++ check_body post in
           Ok {| is_valid := (length reasons =? 0)%nat; reasons := reasons;
                 post_data := post' |})
      end
  end.

(** [main_advanced.py], [HiveEcuadorBot.validate_post]: the same checks on
    the beneficiaries of the metadata alone; nothing is extended, so the post
    is not touched. *)
Definition advanced_validate_post (cfg : Config) (post : Post) : result PostValidation :=
  match load_metadata (json_metadata post) with
  | None =>
      Ok {| is_valid := false; reasons := [InvalidJSONMetadata]; post_data := post |}
  | Some metadata =>
      app <- check_app cfg metadata ;;
      developer <- check_developer cfg metadata ;;
      tags <- check_tags cfg metadata ;;
      post_beneficiaries <- py_get metadata "beneficiaries" (JArr []) ;;
      bens <- check_beneficiaries cfg post_beneficiaries ;;
      country <- check_country cfg metadata ;;
      fields <- check_required_fields cfg metadata ;;
      let reasons := app ++ developer ++ tags ++ bens ++ country ++ fields ++ check_body post in
      Ok {| is_valid := (length reasons =? 0)%nat; reasons := reasons;
            post_data := post |}
  end.

End Validation.

(** ** [DatabaseManager] (the same text in both files) *)

Record ProcessedRow : Type := {
  row_id : Z;
  row_author : string;
  row_permlink : string;
  row_timestamp : string;
  row_hbd_sent : Q;
  row_upvoted : bool;
  row_commented : bool
}.

Record DailyStats : Type := {
  posts_processed : Z;
  hbd_sent : Q;
  upvotes_given : Z;
  errors : Z
}.

Record DailyTransfers : Type := {
  transfer_count : Z;
  total_amount : Q
}.

(** [last_rowid] is the AUTOINCREMENT sequence of [processed_posts]. *)
Record Database : Type := {
  processed_posts : list ProcessedRow;
  last_rowid : Z;
  daily_stats : gmap string DailyStats;
  daily_transfers : gmap string DailyTransfers
}.

Definition init_database : Database :=
  {| processed_posts := []; last_rowid := 0;
     daily_stats := ∅; daily_transfers := ∅ |}.

(** [WHERE author = ? AND permlink = ?] *)
Definition row_is (a p : string) (r : ProcessedRow) : bool :=
  String.eqb (row_author r) a && String.eqb (row_permlink r) p.

(** [SELECT COUNT( * ) ... > 0] *)
Definition is_post_processed (a p : string) (db : Database) : bool :=
  (0 <? length (List.filter (row_is a p) (processed_posts db)))%nat.

(** [a < b] on amounts *)
Definition Qlt_bool (a b : Q) : bool := negb (Qle_bool b a).

(** [result[0] if result else 0] *)
Definition current_count (today : string) (db : Database) : Z :=
  match daily_transfers db !! today with
  | Some row => transfer_count row
  | None => 0
  end.

Definition can_send_transfer_today (today : string) (max_daily_transfers : Z)
    (db : Database) : bool :=
  (current_count today db <? max_daily_transfers)%Z.

(** [INSERT OR REPLACE INTO processed_posts]: the row that conflicts on
    UNIQUE(author, permlink) is deleted, the new row gets the next id and
    the time of the write. *)
Definition record_processed_post (now : string) (a p : string) (sent : Q)
    (upvoted commented : bool) (db : Database) : Database :=
  let id := (last_rowid db + 1)%Z in
  {| processed_posts :=
       List.filter (fun r => negb (row_is a p r)) (processed_posts db) ++
       [ {| row_id := id; row_author := a; row_permlink := p;
            row_timestamp := now; row_hbd_sent := sent;
            row_upvoted := upvoted; row_commented := commented |} ];
     last_rowid := id;
     daily_stats := daily_stats db;
     daily_transfers := daily_transfers db |}.

(** [COALESCE((SELECT column FROM table WHERE date = ?), 0)] *)
Definition coalesce {Row V : Type} (column : Row -> V) (row : option Row) (zero : V) : V :=
  match row with
  | Some r => column r
  | None => zero
  end.

Definition update_daily_stats (today : string) (processed : Z) (sent : Q)
    (upvotes : Z) (errs : Z) (db : Database) : Database :=
  let stats := daily_stats db !! today in
  let transfers := daily_transfers db !! today in
  {| processed_posts := processed_posts db;
     last_rowid := last_rowid db;
     daily_stats :=
       <[today :=
           {| posts_processed := (coalesce posts_processed stats 0 + processed)%Z;
              hbd_sent := (coalesce hbd_sent stats 0 + sent)%Q;
              upvotes_given := (coalesce upvotes_given stats 0 + upvotes)%Z;
              errors := (coalesce errors stats 0 + errs)%Z |}]> (daily_stats db);
     daily_transfers :=
       <[today :=
           {| transfer_count :=
                (coalesce transfer_count transfers 0 + (if Qlt_bool 0 sent then 1 else 0))%Z;
              total_amount := (coalesce total_amount transfers 0 + sent)%Q |}]>
         (daily_transfers db) |}.

Definition get_daily_stats (date : string) (db : Database) : option DailyStats :=
  daily_stats db !! date.

(** ** The three actions of [main.py] *)

(** Which branch a real send takes: [self.hive_client], the beem fallback,
    or the simulation when neither library is there. *)
Inductive library : Type := Lighthive | Beem | NoLibrary.

(** What the library call did: returned a result, returned nothing, or
    raised. *)
Inductive broadcast : Type := Accepted | NoResult | Failed.

Definition broadcast_ok (lib : library) (sent : broadcast) : bool :=
  match lib with
  | Lighthive => match sent with Accepted => true | _ => false end
  | Beem => match sent with Failed => false | _ => true end
  | NoLibrary => true
  end.

(** What the world answers while one post is processed: the clock at the
    three places that read it, the balance and the three broadcasts. *)
Record Env : Type := {
  env_comment : broadcast;
  env_today_gate : string;
  env_balance : Q;
  env_transfer : broadcast;
  env_vote : broadcast;
  env_now : string;
  env_today_stats : string
}.

Definition send_welcome_comment (cfg : Config) (lib : library) (env : Env) : bool :=
  if dry_run cfg then true else broadcast_ok lib (env_comment env).

Definition send_hbd_transfer (cfg : Config) (lib : library) (env : Env)
    (db : Database) : bool :=
  if dry_run cfg then true
  else if negb (can_send_transfer_today (env_today_gate env) (max_daily_transfers cfg) db)
  then false
  else if Qlt_bool (env_balance env) (min_account_balance cfg) then false
  else broadcast_ok lib (env_transfer env).

Definition upvote_post (cfg : Config) (lib : library) (env : Env) : bool :=
  if dry_run cfg then true else broadcast_ok lib (env_vote env).

(** ** [process_post] *)

(** The calls [process_post] makes on the three action methods. *)
Inductive call : Type :=
| CallComment (a p : string)
| CallTransfer (recipient : string) (amount : Q)
| CallUpvote (a p : string) (weight : Z).

Record Processed : Type := {
  post_after : Post;
  db_after : Database;
  calls : list call;
  returned : bool
}.

Section Processing.

Variable json_loads : string -> option json.

(** [main.py], [HiveEcuadorBot.process_post] *)
Definition process_post (cfg : Config) (lib : library) (env : Env) (post : Post)
    (db : Database) : Processed :=
  match validate_post json_loads cfg post with
  | (post', Raise _) =>
      {| post_after := post';
         db_after := update_daily_stats (env_today_stats env) 0 0 0 1 db;
         calls := []; returned := false |}
  | (post', Ok validation) =>
      if negb (is_valid validation) then
        {| post_after := post'; db_after := db; calls := []; returned := false |}
      else
        let a := author post in
        let p := permlink post in
        let commented := send_welcome_comment cfg lib env in
        let amount := transfer_amount cfg in
        let sent := if send_hbd_transfer cfg lib env db then amount else 0%Q in
        let upvote_weight := (upvote_percentage cfg * 100)%Z in
        let upvoted := upvote_post cfg lib env in
        let db1 := record_processed_post (env_now env) a p sent upvoted commented db in
        let db2 :=
          update_daily_stats (env_today_stats env) 1 sent (if upvoted then 1 else 0) 0 db1 in
        {| post_after := post'; db_after := db2;
           calls := [CallComment a p; CallTransfer a amount; CallUpvote a p upvote_weight];
           returned := true |}
  end.

(** [main_advanced.py]: the three actions are simulated.  The transfer keeps
    its two guards. *)
Definition advanced_send_welcome_comment (cfg : Config) : bool :=
  if dry_run cfg then true else true.

Definition advanced_send_hbd_transfer (cfg : Config) (env : Env) (db : Database) : bool :=
  if dry_run cfg then true
  else if negb (can_send_transfer_today (env_today_gate env) (max_daily_transfers cfg) db)
  then false
  else if Qlt_bool (env_balance env) (min_account_balance cfg) then false
  else true.

Definition advanced_upvote_post (cfg : Config) : bool :=
  if dry_run cfg then true else true.

(** [main_advanced.py], [process_post] from "Perform actions" on, given what
    [send_welcome_comment] returned. *)
Definition advanced_perform_actions (cfg : Config) (env : Env) (post : Post)
    (commented : bool) (db : Database) : Processed :=
  let a := author post in
  let p := permlink post in
  let amount := transfer_amount cfg in
  let upvote_weight := (upvote_percentage cfg * 100)%Z in
  let sent :=
    if commented then (if advanced_send_hbd_transfer cfg env db then amount else 0%Q)
    else 0%Q in
  let upvoted := if commented then advanced_upvote_post cfg else false in
  let db1 := record_processed_post (env_now env) a p sent upvoted commented db in
  let db2 :=
    update_daily_stats (env_today_stats env) 1 sent (if upvoted then 1 else 0) 0 db1 in
  {| post_after := post; db_after := db2;
     calls := CallComment a p ::
              (if commented then [CallTransfer a amount; CallUpvote a p upvote_weight]
               else []);
     returned := true |}.

(** [main_advanced.py], [HiveEcuadorBot.process_post] *)
Definition advanced_process_post (cfg : Config) (env : Env) (post : Post)
    (db : Database) : Processed :=
  match advanced_validate_post json_loads cfg post with
  | Raise _ =>
      {| post_after := post;
         db_after := update_daily_stats (env_today_stats env) 0 0 0 1 db;
         calls := []; returned := false |}
  | Ok validation =>
      if negb (is_valid validation) then
        {| post_after := post; db_after := db; calls := []; returned := false |}
      else
        advanced_perform_actions cfg env post (advanced_send_welcome_comment cfg) db
  end.

End Processing.

(** ** [monitor_community] and the poll loop of [main.py] *)

(** One record of the answer of [bridge.get_ranked_posts].  The three fields
    read with [post_data.get] may be missing. *)
Record FeedEntry : Type := {
  fe_author : string;
  fe_permlink : string;
  fe_title : string;
  fe_body : string;
  fe_created : string;
  fe_json_metadata : option json;
  fe_extensions : option json;
  fe_beneficiaries : option json
}.

Definition make_post (e : FeedEntry) : Post :=
  {| post_id := fe_author e ++ "/" ++ fe_permlink e;
     author := fe_author e;
     permlink := fe_permlink e;
     title := fe_title e;
     body := fe_body e;
     created := fe_created e;
     json_metadata := default (JObj []) (fe_json_metadata e);
     extensions := default (JArr []) (fe_extensions e);
     beneficiaries := default (JArr []) (fe_beneficiaries e) |}.

(** [timedelta(hours=24)], in microseconds *)
Definition freshness_window : Z := 86400000000.

(** What the world answers during one cycle: the feed ([None] when the API
    call gave nothing), the clock of the filter in microseconds, the date of
    a failed fetch, and the answers for the i-th post delivered. *)
Record Cycle : Type := {
  feed : option (list FeedEntry);
  clock : Z;
  today_fetch_error : string;
  env_of : nat -> Env
}.

Section Polling.

Variable json_loads : string -> option json.

(** [datetime.strptime(text, '%Y-%m-%dT%H:%M:%S')] in microseconds; [None]
    is a [ValueError]. *)
Variable strptime : string -> option Z.

(** The loop of [monitor_community] over the answer; [None] when [strptime]
    raised. *)
Fixpoint select_posts (now : Z) (db : Database) (response : list FeedEntry)
  : option (list Post) :=
  match response with
  | [] => Some []
  | post_data :: rest =>
      if is_post_processed (fe_author post_data) (fe_permlink post_data) db
      then select_posts now db rest
      else
        match strptime (fe_created post_data) with
        | None => None
        | Some created_time =>
            if (now - created_time >? freshness_window)%Z
            then select_posts now db rest
            else
              match select_posts now db rest with
              | Some posts => Some (make_post post_data :: posts)
              | None => None
              end
        end
  end.

Definition monitor_community (c : Cycle) (db : Database) : list Post * Database :=
  match feed c with
  | None => ([], db)
  | Some response =>
      match select_posts (clock c) db response with
      | Some posts => (posts, db)
      | None => ([], update_daily_stats (today_fetch_error c) 0 0 0 1 db)
      end
  end.

(** [for post in posts: self.process_post(post)] *)
Fixpoint process_posts (cfg : Config) (lib : library) (envs : nat -> Env)
    (i : nat) (posts : list Post) (db : Database) : Database :=
  match posts with
  | [] => db
  | post :: rest =>
      process_posts cfg lib envs (S i) rest
        (db_after (process_post json_loads cfg lib (envs i) post db))
  end.

(** One turn of the [while True] of [run]. *)
Definition run_cycle (cfg : Config) (lib : library) (db : Database) (c : Cycle)
  : Database :=
  let '(posts, db1) := monitor_community c db in
  process_posts cfg lib (env_of c) 0 posts db1.

Definition run (cfg : Config) (lib : library) (cycles : list Cycle) : Database :=
  fold_left (run_cycle cfg lib) cycles init_database.

End Polling.

(** ** The validation contract in the words of the specification

    The typed reading of a post and of the requirements: the metadata is a
    mapping, tag lists and beneficiary lists are lists, a beneficiary is a
    mapping, a required field is a key. *)

(** The seven checks, in the order of evaluation, and the parse step. *)
Inductive check : Type :=
| ParseMetadata
| CheckApp
| CheckDeveloper
| CheckTags
| CheckBeneficiaries
| CheckCountry
| CheckRequiredFields
| CheckBody.

Definition check_of (r : reason) : check :=
  match r with
  | InvalidJSONMetadata => ParseMetadata
  | AppMismatch _ _ => CheckApp
  | DeveloperMismatch _ _ => CheckDeveloper
  | MissingRequiredTags _ => CheckTags
  | MissingBeneficiary _ => CheckBeneficiaries
  | CountryMismatch _ _ => CheckCountry
  | MissingRequiredField _ => CheckRequiredFields
  | BodyTooShort => CheckBody
  end.

Definition check_rank (c : check) : nat :=
  match c with
  | ParseMetadata => 0
  | CheckApp => 1
  | CheckDeveloper => 2
  | CheckTags => 3
  | CheckBeneficiaries => 4
  | CheckCountry => 5
  | CheckRequiredFields => 6
  | CheckBody => 7
  end.

Definition is_dict (v : json) : bool :=
  match v with JObj _ => true | _ => false end.

Definition as_list (v : json) : list json :=
  match v with JArr items => items | _ => [] end.

Definition is_list_of (elem : json -> bool) (v : json) : bool :=
  match v with JArr items => forallb elem items | _ => false end.

Definition is_str (v : json) : bool :=
  match v with JStr _ => true | _ => false end.

(** The value of a metadata key, or the default. *)
Definition metadata_field (metadata : json) (k : string) (default : json) : json :=
  match metadata with
  | JObj fields => match dict_get fields k with Some v => v | None => default end
  | _ => default
  end.

(** "a JSON-encoded text blob needing one parse step": the mapping the
    checks are about is the metadata as it arrived, or what the text decodes
    to. *)
Definition parses (json_loads : string -> option json) (post : Post) (metadata : json)
  : Prop :=
  match json_metadata post with
  | JStr text => json_loads text = Some metadata
  | arrived => metadata = arrived
  end.

(** A tagged extension entry is [[0, payload]] with a mapping as payload;
    what it holds under 'beneficiaries' is a list of mappings. *)
Definition extension_typed (ext : json) : bool :=
  match ext with
  | JArr (tag :: JObj payload :: _) =>
      negb (py_eq tag (JNum 0)) ||
      is_list_of is_dict (metadata_field (JObj payload) "beneficiaries" (JArr []))
  | _ => true
  end.

Definition well_typed (cfg : Config) (post : Post) (metadata : json) : bool :=
  is_dict metadata &&
  is_list_of (fun _ => true) (required cfg "tags" (JArr [])) &&
  is_list_of (fun _ => true) (metadata_field metadata "tags" (JArr [])) &&
  is_list_of is_dict (required cfg "beneficiaries" (JArr [])) &&
  is_list_of is_dict (metadata_field metadata "beneficiaries" (JArr [])) &&
  is_list_of is_dict (beneficiaries post) &&
  is_list_of extension_typed (extensions post) &&
  is_list_of is_str (required cfg "required_fields" (JArr [])).

(** "exact string match against metadata field", a requirement that is not
    set being unchecked. *)
Definition field_violated (required_value metadata : json) (k : string) : bool :=
  py_truthy required_value &&
  negb (py_eq (metadata_field metadata k JNull) required_value).

(** "every tag must appear in the post's metadata tag list" *)
Definition spec_missing_tags (cfg : Config) (metadata : json) : list json :=
  List.filter
    (fun tag => negb (existsb (py_eq tag) (as_list (metadata_field metadata "tags" (JArr [])))))
    (as_list (required cfg "tags" (JArr []))).

(** The beneficiaries one extension entry carries: those of an entry tagged
    0, none for any other entry. *)
Definition carried (ext : json) : list json :=
  match ext with
  | JArr (tag :: JObj payload :: _) =>
      if py_eq tag (JNum 0)
      then as_list (metadata_field (JObj payload) "beneficiaries" (JArr []))
      else []
  | _ => []
  end.

(** "merged from up to three possible source locations (the parsed metadata,
    a direct field, and a list of tagged extension entries)" *)
Definition spec_merged_beneficiaries (post : Post) (metadata : json) : list json :=
  as_list (metadata_field metadata "beneficiaries" (JArr [])) ++
  as_list (beneficiaries post) ++
  concat (map carried (as_list (extensions post))).

(** "an exact match (both account and weight equal)" *)
Definition same_pair (req_ben post_ben : json) : bool :=
  py_eq (metadata_field post_ben "account" JNull) (metadata_field req_ben "account" JNull) &&
  py_eq (metadata_field post_ben "weight" JNull) (metadata_field req_ben "weight" JNull).

Definition spec_missing_pairs (cfg : Config) (post : Post) (metadata : json) : list json :=
  List.filter
    (fun req_ben => negb (existsb (same_pair req_ben) (spec_merged_beneficiaries post metadata)))
    (as_list (required cfg "beneficiaries" (JArr []))).

(** "metadata keys that must be present and truthy" *)
Definition field_absent_or_falsy (metadata field : json) : bool :=
  match metadata, field with
  | JObj fields, JStr k =>
      match dict_get fields k with
      | Some v => negb (py_truthy v)
      | None => true
      end
  | _, _ => true
  end.

Definition spec_missing_fields (cfg : Config) (metadata : json) : list json :=
  List.filter (field_absent_or_falsy metadata)
    (as_list (required cfg "required_fields" (JArr []))).

(** "post body text length must be at least a fixed minimum threshold (100
    characters)" *)
Definition body_violated (post : Post) : bool :=
  (String.length (body post) <? 100)%nat.

Definition nonempty {A : Type} (l : list A) : bool :=
  match l with [] => false | _ => true end.

(** Whether the post violates a check. *)
Definition violated (cfg : Config) (post : Post) (metadata : json) (c : check) : bool :=
  match c with
  | ParseMetadata => false
  | CheckApp => field_violated (required cfg "app" JNull) metadata "app"
  | CheckDeveloper => field_violated (required cfg "developer" JNull) metadata "developer"
  | CheckTags => nonempty (spec_missing_tags cfg metadata)
  | CheckBeneficiaries => nonempty (spec_missing_pairs cfg post metadata)
  | CheckCountry => field_violated (required cfg "country" JNull) metadata "country"
  | CheckRequiredFields => nonempty (spec_missing_fields cfg metadata)
  | CheckBody => body_violated post
  end.

(** The number of checks the post violates. *)
Definition violated_checks (cfg : Config) (post : Post) (metadata : json) : nat :=
  Nat.b2n (field_violated (required cfg "app" JNull) metadata "app") +
  Nat.b2n (field_violated (required cfg "developer" JNull) metadata "developer") +
  Nat.b2n (nonempty (spec_missing_tags cfg metadata)) +
  Nat.b2n (nonempty (spec_missing_pairs cfg post metadata)) +
  Nat.b2n (field_violated (required cfg "country" JNull) metadata "country") +
  Nat.b2n (nonempty (spec_missing_fields cfg metadata)) +
  Nat.b2n (body_violated post).

(** The reasons the specification asks for: one per violated check, the
    missing tags together, one per missing pair and one per missing field, in
    the order of the checks. *)
Definition spec_reasons (cfg : Config) (post : Post) (metadata : json) : list reason :=
  (if field_violated (required cfg "app" JNull) metadata "app"
   then [AppMismatch (required cfg "app" JNull) (metadata_field metadata "app" JNull)]
   else []) ++
  (if field_violated (required cfg "developer" JNull) metadata "developer"
   then [DeveloperMismatch (required cfg "developer" JNull)
           (metadata_field metadata "developer" JNull)]
   else []) ++
  (if nonempty (spec_missing_tags cfg metadata)
   then [MissingRequiredTags (spec_missing_tags cfg metadata)]
   else []) ++
  map MissingBeneficiary (spec_missing_pairs cfg post metadata) ++
  (if field_violated (required cfg "country" JNull) metadata "country"
   then [CountryMismatch (required cfg "country" JNull)
           (metadata_field metadata "country" JNull)]
   else []) ++
  map MissingRequiredField (spec_missing_fields cfg metadata) ++
  (if body_violated post then [BodyTooShort] else []).

(** The metadata's own 'beneficiaries' list is empty, beneficiaries come
    from the direct field or from an extension entry, and 'beneficiaries' is
    itself a required field: the one situation in which the list that the
    merge shares with the metadata decides a check. *)
Definition empty_list_filled_by_merge (cfg : Config) (post : Post) (metadata : json)
  : bool :=
  existsb (py_eq (JStr "beneficiaries"))
    (as_list (required cfg "required_fields" (JArr []))) &&
  match metadata with
  | JObj fields =>
      match dict_get fields "beneficiaries" with
      | Some own => negb (py_truthy own)
      | None => false
      end
  | _ => false
  end &&
  nonempty (as_list (beneficiaries post) ++ concat (map carried (as_list (extensions post)))).

(** The requirement a check depends on is set: the three checks guarded by
    [if required_value and ...] need a truthy value. *)
Definition requirement_set (cfg : Config) (c : check) : Prop :=
  match c with
  | CheckApp => py_truthy (required cfg "app" JNull) = true
  | CheckDeveloper => py_truthy (required cfg "developer" JNull) = true
  | CheckCountry => py_truthy (required cfg "country" JNull) = true
  | _ => True
  end.

(** Every reason of the list comes from the check [c]. *)
Definition only (c : check) (rs : list reason) : Prop :=
  Forall (fun r => check_of r = c) rs.

(** ** States the bot can reach *)

Section Reachable.

Variable json_loads : string -> option json.

(** The databases [main.py] can produce from a fresh file, whatever the feed
    delivers, when every answer of the world satisfies [admissible]: posts
    are processed one at a time, and a failed fetch counts one error. *)
Inductive reachable (cfg : Config) (lib : library) (admissible : Env -> Prop)
  : Database -> Prop :=
| reach_init : reachable cfg lib admissible init_database
| reach_process (db : Database) (env : Env) (post : Post) :
    reachable cfg lib admissible db ->
    admissible env ->
    reachable cfg lib admissible (db_after (process_post json_loads cfg lib env post db))
| reach_fetch_error (db : Database) (today : string) :
    reachable cfg lib admissible db ->
    reachable cfg lib admissible (update_daily_stats today 0 0 0 1 db).

End Reachable.

(** The key of the UNIQUE constraint. *)
Definition row_key (r : ProcessedRow) : string * string :=
  (row_author r, row_permlink r).

Definition keys_unique (db : Database) : Prop :=
  NoDup (map row_key (processed_posts db)).

(** The same answers of the world with another outcome for the comment. *)
Definition with_comment (outcome : broadcast) (env : Env) : Env :=
  {| env_comment := outcome; env_today_gate := env_today_gate env;
     env_balance := env_balance env; env_transfer := env_transfer env;
     env_vote := env_vote env; env_now := env_now env;
     env_today_stats := env_today_stats env |}.

(** The three outcomes a row of [processed_posts] records. *)
Definition row_outcome (r : ProcessedRow) : bool * Q * bool :=
  (row_commented r, row_hbd_sent r, row_upvoted r).

(** ** The disbursement policy *)

(** The two guards of [send_hbd_transfer], lines "Check if we can send more
    transfers today" and "Check minimum balance". *)
Definition transfer_gate (cfg : Config) (today : string) (balance : Q)
    (db : Database) : bool :=
  if negb (can_send_transfer_today today (max_daily_transfers cfg) db) then false
  else if Qlt_bool balance (min_account_balance cfg) then false
  else true.

(** The contract of the policy in the words of the specification. *)
Definition mayTransfer (todayTransferCount dailyCap : Z)
    (currentBalance minBalance : Q) : bool :=
  (todayTransferCount <? dailyCap)%Z && Qle_bool minBalance currentBalance.

(** ** Sample inputs *)

(** A decoder that knows one document; every other text is rejected. *)
Definition toy_loads (s : string) : option json :=
  if String.eqb s "{}" then Some (JObj []) else None.

Definition toy_strptime (s : string) : option Z := Some 0%Z.

Definition hiveecuador_8000 : json :=
  JObj [("account", JStr "hiveecuador"); ("weight", JNum 8000)].

(** The requirements listed at the head of [main.py]. *)
Definition ecuador_requirements : list (string * json) :=
  [("app", JStr "checkinecuador/1.0.0");
   ("developer", JStr "menobass");
   ("tags", JArr [JStr "introduceyourself"; JStr "checkin"]);
   ("beneficiaries", JArr [hiveecuador_8000]);
   ("country", JStr "Ecuador");
   ("required_fields", JArr [JStr "onboarder"; JStr "image"])].

Definition ecuador_config (dry : bool) (cap : Z) : Config :=
  {| required_metadata := ecuador_requirements; dry_run := dry;
     max_daily_transfers := cap; min_account_balance := 5;
     transfer_amount := 1; upvote_percentage := 100 |}.

Definition intro_body : string :=
  "Hola a todos! Soy nuevo en Hive Ecuador y quiero presentarme. Hola a todos! Soy nuevo en Hive Ecuador y quiero presentarme. ".

Definition checkin_metadata (bens : list json) : json :=
  JObj [("app", JStr "checkinecuador/1.0.0");
        ("developer", JStr "menobass");
        ("tags", JArr [JStr "introduceyourself"; JStr "checkin"]);
        ("beneficiaries", JArr bens);
        ("country", JStr "Ecuador");
        ("onboarder", JStr "some_user");
        ("image", JStr "https://example.com/selfie.jpg")].

Definition sample_post (link : string) (metadata exts direct : json) : Post :=
  {| post_id := "testuser/" ++ link; author := "testuser"; permlink := link;
     title := "Mi introduccion a Hive Ecuador"; body := intro_body;
     created := "2025-01-01T00:00:00"; json_metadata := metadata;
     extensions := exts; beneficiaries := direct |}.

Definition sample_env (comment : broadcast) (balance : Q) : Env :=
  {| env_comment := comment; env_today_gate := "2025-01-01";
     env_balance := balance; env_transfer := Accepted; env_vote := Accepted;
     env_now := "2025-01-01 00:00:05"; env_today_stats := "2025-01-01" |}.

Definition sample_entry (link : string) : FeedEntry :=
  {| fe_author := "testuser"; fe_permlink := link;
     fe_title := "Mi introduccion a Hive Ecuador"; fe_body := intro_body;
     fe_created := "2025-01-01T00:00:00";
     fe_json_metadata := Some (checkin_metadata [hiveecuador_8000]);
     fe_extensions := None; fe_beneficiaries := None |}.

Definition sample_cycle (links : list string) : Cycle :=
  {| feed := Some (map sample_entry links); clock := 5000000;
     today_fetch_error := "2025-01-01";
     env_of := fun _ => sample_env Accepted 50 |}.

Definition alice_500 : json :=
  JObj [("account", JStr "alice"); ("weight", JNum 500)].

(** A post as the bridge API returns it: the metadata is a mapping that has
    its own beneficiaries, and the payout beneficiaries come in the direct
    field. *)
Definition aliased_post : Post :=
  sample_post "hola" (checkin_metadata [alice_500]) (JArr []) (JArr [hiveecuador_8000]).

(** The invalid post of [test_advanced.py]. *)
Definition wrong_post : Post :=
  {| post_id := "testuser2/invalid-post"; author := "testuser2";
     permlink := "invalid-post"; title := "Invalid post"; body := "Short";
     created := "2025-01-01T00:00:00";
     json_metadata :=
       JObj [("app", JStr "wrong_app"); ("developer", JStr "wrong_developer");
             ("tags", JArr [JStr "wrong"; JStr "tags"]);
             ("country", JStr "Wrong Country")];
     extensions := JArr []; beneficiaries := JArr [] |}.

(** A configuration whose [app] is the empty string and that asks for
    nothing else. *)
Definition lenient_config : Config :=
  {| required_metadata := [("app", JStr "")]; dry_run := true;
     max_daily_transfers := 10; min_account_balance := 5;
     transfer_amount := 1; upvote_percentage := 100 |}.

(** ** Sequences of counter updates *)

(** The arguments of one call of [update_daily_stats]. *)
Record Delta : Type := {
  d_processed : Z;
  d_sent : Q;
  d_upvotes : Z;
  d_errors : Z
}.

Definition apply_update (today : string) (db : Database) (d : Delta) : Database :=
  update_daily_stats today (d_processed d) (d_sent d) (d_upvotes d) (d_errors d) db.

Definition apply_updates (today : string) (ds : list Delta) (db : Database) : Database :=
  fold_left (apply_update today) ds db.

Definition sumZ (l : list Z) : Z := fold_right Z.add 0%Z l.
Definition sumQ (l : list Q) : Q := fold_right Qplus 0%Q l.

(** The [transfer_count] an update contributes: one for a positive amount. *)
Definition counts_as_transfer (d : Delta) : Z :=
  if Qlt_bool 0 (d_sent d) then 1%Z else 0%Z.

Definition one_transfer_today : Database :=
  update_daily_stats "2025-01-01" 1 1 1 0 init_database.

(** ** More of [main.py] *)

(** The cycles of [run] on a database that already exists. *)
Definition run_on (json_loads : string -> option json)
    (strptime : string -> option Z) (cfg : Config) (lib : library)
    (db : Database) (cycles : list Cycle) : Database :=
  fold_left (run_cycle json_loads strptime cfg lib) cycles db.

(** An entry [monitor_community] keeps: not processed yet, and created at
    most 24 hours before [now]. *)
Definition deliverable (strptime : string -> option Z) (now : Z) (db : Database)
    (e : FeedEntry) : bool :=
  negb (is_post_processed (fe_author e) (fe_permlink e) db) &&
  match strptime (fe_created e) with
  | Some created_time => negb (now - created_time >? freshness_window)%Z
  | None => false
  end.

(** An entry on which [strptime] is called and raises. *)
Definition unreadable (strptime : string -> option Z) (db : Database)
    (e : FeedEntry) : bool :=
  negb (is_post_processed (fe_author e) (fe_permlink e) db) &&
  match strptime (fe_created e) with
  | Some _ => false
  | None => true
  end.

(** The characters [str.split()] splits on, among the first 256. *)
Definition is_space (c : Ascii.ascii) : bool :=
  let n := Ascii.nat_of_ascii c in
  ((9 <=? n) && (n <=? 13))%nat || ((28 <=? n) && (n <=? 32))%nat ||
  (n =? 133)%nat || (n =? 160)%nat.

Fixpoint skip_spaces (s : string) : string :=
  match s with
  | EmptyString => EmptyString
  | String c rest => if is_space c then skip_spaces rest else s
  end.

Fixpoint take_token (s : string) : string :=
  match s with
  | EmptyString => EmptyString
  | String c rest => if is_space c then EmptyString else String c (take_token rest)
  end.

(** [s.split()[0]]; [None] is the [IndexError] on a string without a word. *)
Definition first_token (s : string) : option string :=
  match skip_spaces s with
  | EmptyString => None
  | word => Some (take_token word)
  end.

(** A text without a character [str.split()] splits on. *)
Fixpoint spaceless (s : string) : bool :=
  match s with
  | EmptyString => true
  | String c rest => negb (is_space c) && spaceless rest
  end.

(** An extension entry that carries no beneficiaries. *)
Definition carries_nothing (ext : json) : bool :=
  match extension_beneficiaries ext with
  | Some _ => false
  | None => true
  end.

(** What the caller of a validation sees of its result. *)
Definition verdict (r : result PostValidation) : result (bool * list reason) :=
  match r with
  | Ok v => Ok (is_valid v, reasons v)
  | Raise e => Raise e
  end.

Section Balance.

(** [float(text)] on a word; [None] is a [ValueError]. *)
Variable py_float : string -> option Q.

(** [get_account_balance], given what [hive_api_call] returned ([None] when
    the call failed).  Every exception ends in the [except] branch, which
    returns 0.0. *)
Definition get_account_balance (accounts : option json) : Q :=
  match accounts with
  | Some (JArr (account :: _)) =>
      match account with
      | JObj fields =>
          match default (JStr "0.000 HBD") (dict_get fields "hbd_balance") with
          | JStr hbd_balance =>
              match first_token hbd_balance with
              | Some amount => default 0%Q (py_float amount)
              | None => 0%Q
              end
          | _ => 0%Q
          end
      | _ => 0%Q
      end
  | _ => 0%Q
  end.

End Balance.

(** The same answers of the world with another balance. *)
Definition with_balance (balance : Q) (env : Env) : Env :=
  {| env_comment := env_comment env; env_today_gate := env_today_gate env;
     env_balance := balance; env_transfer := env_transfer env;
     env_vote := env_vote env; env_now := env_now env;
     env_today_stats := env_today_stats env |}.

(** A decoder of decimal words for the examples: it knows two amounts. *)
Definition toy_float (s : string) : option Q :=
  if String.eqb s "12.500" then Some (25 # 2)%Q
  else if String.eqb s "0.000" then Some 0%Q
  else None.

(** ** The late checks without the shared list

    [validate_post] of [main.py] with "Check country" and "Check required
    fields" reading the metadata as it was decoded, the way
    [main_advanced.py] reads it, where nothing is extended.  It serves to
    say when the shared list makes a difference. *)

Section AsDecoded.

Variable json_loads : string -> option json.

Definition validate_post_as_decoded (cfg : Config) (post : Post)
  : Post * result PostValidation :=
  match load_metadata json_loads (json_metadata post) with
  | None =>
      (post, Ok {| is_valid := false; reasons := [InvalidJSONMetadata];
                   post_data := post |})
  | Some metadata =>
      match (app <- check_app cfg metadata ;;
             developer <- check_developer cfg metadata ;;
             tags <- check_tags cfg metadata ;;
             post_beneficiaries <- py_get metadata "beneficiaries" (JArr []) ;;
             Ok (app ++ developer ++ tags, post_beneficiaries)) with
      | Raise e => (post, Raise e)
      | Ok (reasons, post_beneficiaries) =>
          let '(merged, outcome) := merge_beneficiaries post post_beneficiaries in
          let post' := store_beneficiaries post merged in
          (post',
           _ <- outcome ;;
           bens <- check_beneficiaries cfg merged ;;
           country <- check_country cfg metadata ;;
           fields <- check_required_fields cfg metadata ;;
           let reasons := reasons ++ bens ++ country ++ fields ++ check_body post in
           Ok {| is_valid := (length reasons =? 0)%nat; reasons := reasons;
                 post_data := post' |})
      end
  end.

End AsDecoded.

(** ** [dashboard.py], [BotDashboard.get_total_stats] *)

(** [SELECT SUM(column) FROM daily_stats], with [or 0] for the empty table. *)
Definition sum_over (column : DailyStats -> Z) (table : gmap string DailyStats) : Z :=
  map_fold (fun _ row acc => (column row + acc)%Z) 0%Z table.

Record TotalStats : Type := {
  total_posts : Z;
  total_hbd : Q;
  total_upvotes : Z;
  total_errors : Z;
  days_active : Z;
  avg_posts_per_day : Q;
  avg_hbd_per_day : Q
}.

Definition get_total_stats (db : Database) : TotalStats :=
  let posts := Z.of_nat (length (processed_posts db)) in
  let hbd :=
    sumQ (map row_hbd_sent
            (List.filter (fun r => Qlt_bool 0 (row_hbd_sent r)) (processed_posts db))) in
  let days := Z.of_nat (size (daily_stats db)) in
  {| total_posts := posts;
     total_hbd := hbd;
     total_upvotes := Z.of_nat (length (List.filter row_upvoted (processed_posts db)));
     total_errors := sum_over errors (daily_stats db);
     days_active := days;
     avg_posts_per_day := (inject_Z posts / inject_Z (Z.max days 1))%Q;
     avg_hbd_per_day := (hbd / inject_Z (Z.max days 1))%Q |}.

(** The requirements of [main.py] with a transfer of nothing. *)
Definition zero_amount_config : Config :=
  {| required_metadata := ecuador_requirements; dry_run := true;
     max_daily_transfers := 1; min_account_balance := 5;
     transfer_amount := 0; upvote_percentage := 100 |}.

(** A configuration that asks for the key 'beneficiaries' to be filled in. *)
Definition beneficiaries_required : Config :=
  {| required_metadata := [("required_fields", JArr [JStr "beneficiaries"])];
     dry_run := true; max_daily_transfers := 10; min_account_balance := 5;
     transfer_amount := 1; upvote_percentage := 100 |}.

(** Metadata that arrives as text and decodes to an empty mapping; the
    required beneficiary comes in an extension entry. *)
Definition text_post : Post :=
  sample_post "hola" (JStr "{}")
    (JArr [JArr [JNum 0; JObj [("beneficiaries", JArr [hiveecuador_8000])]]]) (JArr []).

(** A mapping whose 'tags' is one text instead of a list. *)
Definition text_tags_post : Post :=
  sample_post "hola"
    (JObj [("app", JStr "wrong_app"); ("tags", JStr "introduceyourself checkin")])
    (JArr []) (JArr []).

(** A mapping whose 'tags' is [null], and a body that is too short. *)
Definition null_tags_post : Post :=
  {| post_id := "testuser3/sin-etiquetas"; author := "testuser3";
     permlink := "sin-etiquetas"; title := "Hola"; body := "Short";
     created := "2025-01-01T00:00:00";
     json_metadata := JObj [("app", JStr "wrong_app"); ("tags", JNull)];
     extensions := JArr []; beneficiaries := JArr [] |}.

(** A mapping whose own list of beneficiaries is empty; the payout
    beneficiaries come in the direct field. *)
Definition empty_list_post : Post :=
  sample_post "hola" (JObj [("beneficiaries", JArr [])]) (JArr [])
    (JArr [hiveecuador_8000]).

(** * Properties *)

Lemma bind_Ok {A B : Type} (m : result A) (k : A -> result B) (b : B) :
  bind m k = Ok b -> exists a, m = Ok a /\ k a = Ok b.
Proof. destruct m as [a|e]; simpl; [eauto | discriminate]. Qed.

(** ** Parse failure *)

(** C9.  A post whose metadata is a string that [json.loads] rejects gets
    [is_valid = False] with the single reason "Invalid JSON metadata": the
    call returns, no other check contributes a reason, and the post is left
    as it was.  Both variants agree. *)
Theorem invalid_json_single_reason
    (json_loads : string -> option json) (cfg : Config) (post : Post) (s : string) :
  json_metadata post = JStr s ->
  json_loads s = None ->
  validate_post json_loads cfg post =
    (post, Ok {| is_valid := false; reasons := [InvalidJSONMetadata];
                 post_data := post |}) /\
  advanced_validate_post json_loads cfg post =
    Ok {| is_valid := false; reasons := [InvalidJSONMetadata]; post_data := post |}.
Proof.
  intros Hraw Hparse.
  unfold validate_post, advanced_validate_post, load_metadata.
  rewrite Hraw, Hparse. split; reflexivity.
Qed.

Lemma invalid_json_single_reason_witness :
  let post := sample_post "hola" (JStr "{not json") (JArr []) (JArr []) in
  validate_post toy_loads (ecuador_config false 10) post =
    (post, Ok {| is_valid := false; reasons := [InvalidJSONMetadata];
                 post_data := post |}) /\
  advanced_validate_post toy_loads (ecuador_config false 10) post =
    Ok {| is_valid := false; reasons := [InvalidJSONMetadata]; post_data := post |}.
Proof.
  intros post.
  apply (invalid_json_single_reason toy_loads (ecuador_config false 10) post "{not json");
    reflexivity.
Defined.

(** ** Validation failure leaves the store alone *)

(** C8.  When validation returns with [is_valid = False], [process_post]
    returns [False] with the database it was given: no row is written, no
    counter moves, no action is called.  Both variants. *)
Theorem failed_validation_no_write
    (json_loads : string -> option json) (cfg : Config) (lib : library)
    (env : Env) (post : Post) (db : Database) :
  (forall post' v,
      validate_post json_loads cfg post = (post', Ok v) ->
      is_valid v = false ->
      let r := process_post json_loads cfg lib env post db in
      db_after r = db /\ calls r = [] /\ returned r = false) /\
  (forall v,
      advanced_validate_post json_loads cfg post = Ok v ->
      is_valid v = false ->
      let r := advanced_process_post json_loads cfg env post db in
      db_after r = db /\ calls r = [] /\ returned r = false).
Proof.
  split.
  - intros post' v Hv Hinvalid. unfold process_post. rewrite Hv, Hinvalid. simpl. auto.
  - intros v Hv Hinvalid. unfold advanced_process_post. rewrite Hv, Hinvalid. simpl. auto.
Qed.

Lemma failed_validation_no_write_witness :
  let cfg := ecuador_config false 10 in
  let env := sample_env Accepted 50 in
  let post := sample_post "hola" (JObj []) (JArr []) (JArr []) in
  (let r := process_post toy_loads cfg Lighthive env post one_transfer_today in
   db_after r = one_transfer_today /\ calls r = [] /\ returned r = false) /\
  (let r := advanced_process_post toy_loads cfg env post one_transfer_today in
   db_after r = one_transfer_today /\ calls r = [] /\ returned r = false).
Proof.
  intros cfg env post.
  destruct (failed_validation_no_write toy_loads cfg Lighthive env post one_transfer_today)
    as [Hmain Hadvanced].
  split.
  - eapply Hmain; reflexivity.
  - eapply Hadvanced; reflexivity.
Defined.

(** ** The transfer gate *)

Lemma Qlt_bool_iff (a b : Q) : Qlt_bool a b = true <-> (a < b)%Q.
Proof.
  unfold Qlt_bool. rewrite negb_true_iff. split.
  - intros H. apply Qnot_le_lt. intros Hle.
    apply Qle_bool_iff in Hle. congruence.
  - intros H. destruct (Qle_bool b a) eqn:E; [|reflexivity].
    apply Qle_bool_iff in E. exfalso. exact (Qlt_not_le _ _ H E).
Qed.

Lemma Qlt_bool_false_iff (a b : Q) : Qlt_bool a b = false <-> (b <= a)%Q.
Proof.
  unfold Qlt_bool. rewrite negb_false_iff. apply Qle_bool_iff.
Qed.

(** C5.  The two guards of [send_hbd_transfer] compute [mayTransfer] on
    today's [transfer_count] (0 when today has no row), the cap, the balance
    and the minimum: they let the transfer through exactly when the count is
    below the cap and the balance is at least the minimum.  Once the count
    has reached the cap the gate is closed whatever the balance.  Outside dry
    run a transfer succeeds only through the gate. *)
Theorem transfer_gate_policy (cfg : Config) (today : string) (balance : Q)
    (db : Database) :
  let count :=
    match daily_transfers db !! today with
    | Some row => transfer_count row
    | None => 0%Z
    end in
  transfer_gate cfg today balance db =
    mayTransfer count (max_daily_transfers cfg) balance (min_account_balance cfg) /\
  (transfer_gate cfg today balance db = true <->
     (count < max_daily_transfers cfg)%Z /\ (min_account_balance cfg <= balance)%Q) /\
  ((max_daily_transfers cfg <= count)%Z ->
     forall any_balance, transfer_gate cfg today any_balance db = false) /\
  (forall lib env,
     dry_run cfg = false ->
     send_hbd_transfer cfg lib env db =
       transfer_gate cfg (env_today_gate env) (env_balance env) db &&
       broadcast_ok lib (env_transfer env)).
Proof.
  intros count.
  assert (Hcount : current_count today db = count) by reflexivity.
  assert (Hgate : forall b,
             transfer_gate cfg today b db =
             mayTransfer count (max_daily_transfers cfg) b (min_account_balance cfg)).
  { intros b. unfold transfer_gate, mayTransfer, can_send_transfer_today.
    rewrite Hcount.
    destruct (count <? max_daily_transfers cfg)%Z; simpl; [|reflexivity].
    unfold Qlt_bool.
    destruct (Qle_bool (min_account_balance cfg) b); reflexivity. }
  split; [apply Hgate|]. split; [|split].
  - rewrite Hgate. unfold mayTransfer.
    rewrite andb_true_iff, Z.ltb_lt, Qle_bool_iff. reflexivity.
  - intros Hcap b. rewrite Hgate. unfold mayTransfer.
    apply andb_false_iff. left. apply Z.ltb_ge. exact Hcap.
  - intros lib env Hreal. unfold send_hbd_transfer, transfer_gate. rewrite Hreal.
    destruct (negb (can_send_transfer_today _ _ _)); [reflexivity|].
    destruct (Qlt_bool _ _); reflexivity.
Qed.

Lemma transfer_gate_policy_witness :
  (max_daily_transfers (ecuador_config false 1) <= 1)%Z /\
  forall any_balance,
    transfer_gate (ecuador_config false 1) "2025-01-01" any_balance one_transfer_today = false.
Proof.
  split; [simpl; lia|].
  apply (transfer_gate_policy (ecuador_config false 1) "2025-01-01" 1000 one_transfer_today).
  vm_compute. discriminate.
Defined.

(** ** Additive counters *)

Lemma Qplus_0_l_eq (q : Q) : (0 + q)%Q = q.
Proof.
  destruct q as [n d]. unfold Qplus. simpl.
  f_equal. lia.
Qed.

Lemma apply_update_stats_today (today : string) (db : Database) (d : Delta) :
  daily_stats (apply_update today db d) !! today =
    Some {| posts_processed :=
              (coalesce posts_processed (daily_stats db !! today) 0 + d_processed d)%Z;
            hbd_sent := (coalesce hbd_sent (daily_stats db !! today) 0 + d_sent d)%Q;
            upvotes_given :=
              (coalesce upvotes_given (daily_stats db !! today) 0 + d_upvotes d)%Z;
            errors := (coalesce errors (daily_stats db !! today) 0 + d_errors d)%Z |}.
Proof. unfold apply_update, update_daily_stats. simpl. apply lookup_insert_eq. Qed.

Lemma apply_update_transfers_today (today : string) (db : Database) (d : Delta) :
  daily_transfers (apply_update today db d) !! today =
    Some {| transfer_count :=
              (coalesce transfer_count (daily_transfers db !! today) 0 +
               counts_as_transfer d)%Z;
            total_amount :=
              (coalesce total_amount (daily_transfers db !! today) 0 + d_sent d)%Q |}.
Proof. unfold apply_update, update_daily_stats. simpl. apply lookup_insert_eq. Qed.

Lemma apply_update_other_day (today other : string) (db : Database) (d : Delta) :
  other <> today ->
  daily_stats (apply_update today db d) !! other = daily_stats db !! other /\
  daily_transfers (apply_update today db d) !! other = daily_transfers db !! other.
Proof.
  intros Hne. unfold apply_update, update_daily_stats. simpl.
  split; apply lookup_insert_ne; congruence.
Qed.

Lemma apply_updates_other_day (today other : string) (ds : list Delta) (db : Database) :
  other <> today ->
  daily_stats (apply_updates today ds db) !! other = daily_stats db !! other /\
  daily_transfers (apply_updates today ds db) !! other = daily_transfers db !! other.
Proof.
  intros Hne. revert db.
  induction ds as [|d ds IH]; intros db; [split; reflexivity|].
  simpl. destruct (IH (apply_update today db d)) as [Hs Ht].
  destruct (apply_update_other_day today other db d Hne) as [Hs1 Ht1].
  unfold apply_updates in *.
  rewrite Hs, Ht. auto.
Qed.

Lemma apply_updates_sums (today : string) (ds : list Delta) (db : Database) :
  let s := daily_stats db !! today in
  let t := daily_transfers db !! today in
  let s' := daily_stats (apply_updates today ds db) !! today in
  let t' := daily_transfers (apply_updates today ds db) !! today in
  coalesce posts_processed s' 0%Z =
    (coalesce posts_processed s 0 + sumZ (map d_processed ds))%Z /\
  (coalesce hbd_sent s' 0 == coalesce hbd_sent s 0 + sumQ (map d_sent ds))%Q /\
  coalesce upvotes_given s' 0%Z =
    (coalesce upvotes_given s 0 + sumZ (map d_upvotes ds))%Z /\
  coalesce errors s' 0%Z = (coalesce errors s 0 + sumZ (map d_errors ds))%Z /\
  coalesce transfer_count t' 0%Z =
    (coalesce transfer_count t 0 + sumZ (map counts_as_transfer ds))%Z /\
  (coalesce total_amount t' 0 == coalesce total_amount t 0 + sumQ (map d_sent ds))%Q.
Proof.
  revert db. induction ds as [|d ds IH]; intros db; simpl.
  - repeat split; try lia; ring.
  - specialize (IH (apply_update today db d)). cbv zeta in IH.
    destruct IH as (Hp & Hh & Hu & He & Hc & Ha).
    unfold apply_updates in *.
    rewrite apply_update_stats_today in Hp, Hh, Hu, He.
    rewrite apply_update_transfers_today in Hc, Ha.
    simpl in *.
    repeat split; try lia.
    + rewrite Hh. ring.
    + rewrite Ha. ring.
Qed.

(** C6.  After any sequence of [update_daily_stats] calls on one date, each
    counter of that date (an absent row reading as zero) is its value before
    plus the sum of the deltas of the sequence, for the four daily
    statistics and for [transfer_count] and [total_amount]; rows of other
    dates and the processed posts are untouched.  On a date without rows one
    call stores exactly its deltas.  An update counts as one transfer when
    its amount is positive and as none otherwise. *)
Theorem daily_counters_additive (today : string) (ds : list Delta) (db : Database) :
  let s := daily_stats db !! today in
  let t := daily_transfers db !! today in
  let db' := apply_updates today ds db in
  let s' := daily_stats db' !! today in
  let t' := daily_transfers db' !! today in
  (coalesce posts_processed s' 0%Z =
     (coalesce posts_processed s 0 + sumZ (map d_processed ds))%Z /\
   (coalesce hbd_sent s' 0 == coalesce hbd_sent s 0 + sumQ (map d_sent ds))%Q /\
   coalesce upvotes_given s' 0%Z =
     (coalesce upvotes_given s 0 + sumZ (map d_upvotes ds))%Z /\
   coalesce errors s' 0%Z = (coalesce errors s 0 + sumZ (map d_errors ds))%Z /\
   coalesce transfer_count t' 0%Z =
     (coalesce transfer_count t 0 + sumZ (map counts_as_transfer ds))%Z /\
   (coalesce total_amount t' 0 == coalesce total_amount t 0 + sumQ (map d_sent ds))%Q) /\
  (forall other, other <> today ->
     daily_stats db' !! other = daily_stats db !! other /\
     daily_transfers db' !! other = daily_transfers db !! other) /\
  processed_posts db' = processed_posts db /\
  (forall d, s = None -> t = None ->
     daily_stats (apply_update today db d) !! today =
       Some {| posts_processed := d_processed d; hbd_sent := d_sent d;
               upvotes_given := d_upvotes d; errors := d_errors d |} /\
     daily_transfers (apply_update today db d) !! today =
       Some {| transfer_count := counts_as_transfer d; total_amount := d_sent d |}) /\
  (forall d, (0 < d_sent d)%Q -> counts_as_transfer d = 1%Z) /\
  (forall d, ~ (0 < d_sent d)%Q -> counts_as_transfer d = 0%Z).
Proof.
  intros s t db' s' t'.
  split; [apply apply_updates_sums|].
  split; [intros other Hne; apply apply_updates_other_day; exact Hne|].
  split.
  { subst db'. clear. revert db.
    induction ds as [|d ds IH]; intros db; [reflexivity|].
    change (apply_updates today (d :: ds) db)
      with (apply_updates today ds (apply_update today db d)).
    rewrite IH. reflexivity. }
  split.
  { intros d Hs Ht.
    rewrite apply_update_stats_today, apply_update_transfers_today.
    fold s t. rewrite Hs, Ht. simpl.
    rewrite !Qplus_0_l_eq. split; reflexivity. }
  split.
  - intros d Hpos. unfold counts_as_transfer.
    apply Qlt_bool_iff in Hpos. rewrite Hpos. reflexivity.
  - intros d Hnpos. unfold counts_as_transfer.
    destruct (Qlt_bool 0 (d_sent d)) eqn:E; [|reflexivity].
    apply Qlt_bool_iff in E. contradiction.
Qed.

Lemma daily_counters_additive_witness :
  let ds := [ {| d_processed := 1; d_sent := 1; d_upvotes := 1; d_errors := 0 |};
              {| d_processed := 0; d_sent := 0; d_upvotes := 0; d_errors := 1 |};
              {| d_processed := 1; d_sent := 1; d_upvotes := 0; d_errors := 0 |} ] in
  coalesce transfer_count
    (daily_transfers (apply_updates "2025-01-01" ds one_transfer_today) !! "2025-01-01")
    0%Z = 3%Z.
Proof.
  intros ds.
  destruct (daily_counters_additive "2025-01-01" ds one_transfer_today)
    as ((_ & _ & _ & _ & Hcount & _) & _).
  rewrite Hcount. reflexivity.
Defined.

(** ** One record per post *)

Lemma row_is_key (a p : string) (r : ProcessedRow) :
  row_is a p r = true <-> row_key r = (a, p).
Proof.
  unfold row_is, row_key. rewrite andb_true_iff, !String.eqb_eq.
  split; [intros [-> ->]; reflexivity | intros [= -> ->]; auto].
Qed.

Lemma keys_of_filter (f : ProcessedRow -> bool) (rows : list ProcessedRow) (k : string * string) :
  k ∈ map row_key (List.filter f rows) -> k ∈ map row_key rows.
Proof.
  rewrite !list_elem_of_In, !in_map_iff.
  intros (r & Hk & Hin). apply filter_In in Hin. exists r. tauto.
Qed.

Lemma filter_keeps_unique (f : ProcessedRow -> bool) (rows : list ProcessedRow) :
  NoDup (map row_key rows) -> NoDup (map row_key (List.filter f rows)).
Proof.
  induction rows as [|r rows IH]; simpl; [auto|].
  rewrite NoDup_cons. intros [Hfresh Hrest].
  destruct (f r); simpl; [|auto].
  apply NoDup_cons. split; [|auto].
  intros Hin. apply Hfresh. eapply keys_of_filter. exact Hin.
Qed.

Lemma unique_key_at_most_once (a p : string) (rows : list ProcessedRow) :
  NoDup (map row_key rows) -> (length (List.filter (row_is a p) rows) <= 1)%nat.
Proof.
  induction rows as [|r rows IH]; simpl; [lia|].
  rewrite NoDup_cons. intros [Hfresh Hrest].
  destruct (row_is a p r) eqn:E; simpl; [|auto].
  apply row_is_key in E.
  destruct (List.filter (row_is a p) rows) as [|r' others] eqn:F; simpl; [lia|].
  exfalso. apply Hfresh.
  assert (Hin : In r' (List.filter (row_is a p) rows)) by (rewrite F; left; reflexivity).
  apply filter_In in Hin. destruct Hin as [Hin Hr'].
  apply row_is_key in Hr'.
  apply list_elem_of_In, in_map_iff. exists r'. split; [congruence | exact Hin].
Qed.

Lemma filter_out_then_in (a p : string) (rows : list ProcessedRow) :
  List.filter (row_is a p) (List.filter (fun r => negb (row_is a p r)) rows) = [].
Proof.
  induction rows as [|r rows IH]; simpl; [reflexivity|].
  destruct (row_is a p r) eqn:E; simpl; [exact IH|].
  rewrite E. exact IH.
Qed.

Lemma record_replaces (now a p : string) (sent : Q) (upvoted commented : bool)
    (db : Database) :
  List.filter (row_is a p)
    (processed_posts (record_processed_post now a p sent upvoted commented db)) =
  [ {| row_id := (last_rowid db + 1)%Z; row_author := a; row_permlink := p;
       row_timestamp := now; row_hbd_sent := sent; row_upvoted := upvoted;
       row_commented := commented |} ].
Proof.
  unfold record_processed_post. simpl.
  rewrite List.filter_app, filter_out_then_in. simpl.
  unfold row_is at 1. simpl. rewrite !String.eqb_refl. reflexivity.
Qed.

Lemma record_keeps_unique (now a p : string) (sent : Q) (upvoted commented : bool)
    (db : Database) :
  keys_unique db ->
  keys_unique (record_processed_post now a p sent upvoted commented db).
Proof.
  unfold keys_unique, record_processed_post. simpl. intros Hu.
  rewrite map_app. apply NoDup_app. split; [apply filter_keeps_unique, Hu|].
  split; [|apply NoDup_singleton].
  intros k Hk Hnew. simpl in Hnew. apply list_elem_of_singleton in Hnew. subst k.
  apply list_elem_of_In, in_map_iff in Hk. destruct Hk as (r & Hkey & Hin).
  apply filter_In in Hin. destruct Hin as [_ Hout].
  apply row_is_key in Hkey. unfold row_key in Hkey. simpl in Hkey.
  rewrite Hkey in Hout. discriminate.
Qed.

Lemma process_post_keeps_unique (json_loads : string -> option json) (cfg : Config)
    (lib : library) (env : Env) (post : Post) (db : Database) :
  keys_unique db ->
  keys_unique (db_after (process_post json_loads cfg lib env post db)).
Proof.
  intros Hu. unfold process_post.
  destruct (validate_post json_loads cfg post) as [post' [v|e]]; simpl; [|exact Hu].
  destruct (is_valid v); simpl; [|exact Hu].
  unfold keys_unique, update_daily_stats. simpl.
  apply (record_keeps_unique _ _ _ _ _ _ db Hu).
Qed.

Lemma reachable_keys_unique (json_loads : string -> option json) (cfg : Config)
    (lib : library) (admissible : Env -> Prop) (db : Database) :
  reachable json_loads cfg lib admissible db -> keys_unique db.
Proof.
  induction 1 as [|db env post _ IH _|db today _ IH].
  - apply NoDup_nil_2.
  - apply process_post_keeps_unique, IH.
  - exact IH.
Qed.

Lemma select_posts_unprocessed (strptime : string -> option Z) (now : Z)
    (db : Database) (response : list FeedEntry) (posts : list Post) :
  select_posts strptime now db response = Some posts ->
  forall post, In post posts ->
    is_post_processed (author post) (permlink post) db = false.
Proof.
  revert posts. induction response as [|e rest IH]; intros posts; simpl.
  - intros [= <-] post [].
  - destruct (is_post_processed (fe_author e) (fe_permlink e) db) eqn:Hseen; [apply IH|].
    destruct (strptime (fe_created e)) as [created_time|]; [|discriminate].
    destruct (now - created_time >? freshness_window)%Z; [apply IH|].
    destruct (select_posts strptime now db rest) as [posts'|]; [|discriminate].
    intros [= <-] post [<-|Hin]; [exact Hseen | exact (IH posts' eq_refl post Hin)].
Qed.

Lemma process_posts_reachable (json_loads : string -> option json) (cfg : Config)
    (lib : library) (admissible : Env -> Prop) (envs : nat -> Env)
    (posts : list Post) :
  (forall i, admissible (envs i)) ->
  forall i db,
    reachable json_loads cfg lib admissible db ->
    reachable json_loads cfg lib admissible
      (process_posts json_loads cfg lib envs i posts db).
Proof.
  intros Henvs. induction posts as [|post rest IH]; intros i db Hdb; simpl; [exact Hdb|].
  apply IH. apply reach_process; [exact Hdb | apply Henvs].
Qed.

Lemma run_cycle_reachable (json_loads : string -> option json)
    (strptime : string -> option Z) (cfg : Config) (lib : library)
    (admissible : Env -> Prop) (c : Cycle) (db : Database) :
  (forall i, admissible (env_of c i)) ->
  reachable json_loads cfg lib admissible db ->
  reachable json_loads cfg lib admissible (run_cycle json_loads strptime cfg lib db c).
Proof.
  intros Henvs Hdb. unfold run_cycle, monitor_community.
  destruct (feed c) as [response|].
  - destruct (select_posts strptime (clock c) db response) as [posts|].
    + apply process_posts_reachable; assumption.
    + simpl. apply reach_fetch_error, Hdb.
  - simpl. exact Hdb.
Qed.

Lemma run_reachable (json_loads : string -> option json)
    (strptime : string -> option Z) (cfg : Config) (lib : library)
    (admissible : Env -> Prop) (cycles : list Cycle) :
  (forall c, In c cycles -> forall i, admissible (env_of c i)) ->
  reachable json_loads cfg lib admissible (run json_loads strptime cfg lib cycles).
Proof.
  unfold run. generalize init_database (reach_init json_loads cfg lib admissible).
  induction cycles as [|c cycles IH]; intros db Hdb Henvs; simpl; [exact Hdb|].
  apply IH.
  - apply run_cycle_reachable; [apply Henvs; left; reflexivity | exact Hdb].
  - intros c' Hc'. apply Henvs. right. exact Hc'.
Qed.

(** The lookup finds nothing only when the table has no row of that author
    and permlink. *)
Lemma not_processed_no_row (a p : string) (db : Database) :
  is_post_processed a p db = false ->
  forall r, In r (processed_posts db) -> ~ (row_author r = a /\ row_permlink r = p).
Proof.
  unfold is_post_processed. intros Hnone r Hin [Ha Hp].
  assert (Hr : In r (List.filter (row_is a p) (processed_posts db))).
  { apply filter_In. split; [exact Hin|].
    unfold row_is. rewrite Ha, Hp, !String.eqb_refl. reflexivity. }
  destruct (List.filter (row_is a p) (processed_posts db)); [destruct Hr | discriminate Hnone].
Qed.

(** C7.  In every database the bot can reach, no two rows of
    [processed_posts] have the same (author, permlink), so a pair has at most
    one row, after any number of cycles and between any two posts of a
    cycle.  [record_processed_post] leaves exactly the row it writes under
    its key, whatever was there.  A post that [monitor_community] hands over
    has no row in [processed_posts] of the database it filtered against: no
    row of the table has its author and permlink.  Processing the same key
    twice leaves at most one row. *)
Theorem one_record_per_post
    (json_loads : string -> option json) (strptime : string -> option Z)
    (cfg : Config) (lib : library) :
  (forall db, reachable json_loads cfg lib (fun _ => True) db ->
     NoDup (map row_key (processed_posts db)) /\
     forall a p, (length (List.filter (row_is a p) (processed_posts db)) <= 1)%nat) /\
  (forall cycles a p,
     (length (List.filter (row_is a p)
        (processed_posts (run json_loads strptime cfg lib cycles))) <= 1)%nat) /\
  (forall now a p sent upvoted commented db,
     List.filter (row_is a p)
       (processed_posts (record_processed_post now a p sent upvoted commented db)) =
     [ {| row_id := (last_rowid db + 1)%Z; row_author := a; row_permlink := p;
          row_timestamp := now; row_hbd_sent := sent; row_upvoted := upvoted;
          row_commented := commented |} ]) /\
  (forall c db post,
     In post (fst (monitor_community strptime c db)) ->
     forall r, In r (processed_posts db) ->
       ~ (row_author r = author post /\ row_permlink r = permlink post)) /\
  (forall db env1 env2 post1 post2,
     reachable json_loads cfg lib (fun _ => True) db ->
     author post1 = author post2 -> permlink post1 = permlink post2 ->
     let db1 := db_after (process_post json_loads cfg lib env1 post1 db) in
     let db2 := db_after (process_post json_loads cfg lib env2 post2 db1) in
     (length (List.filter (row_is (author post1) (permlink post1))
        (processed_posts db2)) <= 1)%nat).
Proof.
  assert (Hone : forall db, reachable json_loads cfg lib (fun _ => True) db ->
            forall a p, (length (List.filter (row_is a p) (processed_posts db)) <= 1)%nat).
  { intros db Hdb a p. apply unique_key_at_most_once.
    exact (reachable_keys_unique _ _ _ _ _ Hdb). }
  split; [|split; [|split; [|split]]].
  - intros db Hdb. split; [exact (reachable_keys_unique _ _ _ _ _ Hdb) | exact (Hone db Hdb)].
  - intros cycles a p. apply Hone. apply run_reachable. auto.
  - intros. apply record_replaces.
  - intros c db post. unfold monitor_community.
    destruct (feed c) as [response|]; simpl; [|intros []].
    destruct (select_posts strptime (clock c) db response) as [posts|] eqn:Hsel;
      simpl; [|intros []].
    intros Hin. apply not_processed_no_row.
    exact (select_posts_unprocessed _ _ _ _ _ Hsel post Hin).
  - intros db env1 env2 post1 post2 Hdb _ _ db1 db2. apply Hone.
    subst db1 db2. apply reach_process; [|exact I].
    apply reach_process; [exact Hdb | exact I].
Qed.

Lemma one_record_per_post_witness :
  let cfg := ecuador_config true 10 in
  let db := run toy_loads toy_strptime cfg Lighthive [sample_cycle ["hola"]] in
  map row_key (processed_posts db) = [("testuser", "hola")] /\
  map permlink (fst (monitor_community toy_strptime (sample_cycle ["hola"; "adios"]) db)) =
    ["adios"] /\
  (forall r, In r (processed_posts db) ->
     ~ (row_author r = "testuser" /\ row_permlink r = "adios")) /\
  (length (List.filter (row_is "testuser" "hola")
     (processed_posts
        (run toy_loads toy_strptime cfg Lighthive
           [sample_cycle ["hola"]; sample_cycle ["hola"; "adios"]]))) <= 1)%nat.
Proof.
  intros cfg db.
  destruct (one_record_per_post toy_loads toy_strptime cfg Lighthive)
    as (_ & Hrun & _ & Hdedupe & _).
  split; [reflexivity|]. split; [reflexivity|]. split; [|apply Hrun].
  apply (Hdedupe (sample_cycle ["hola"; "adios"]) db (make_post (sample_entry "adios"))).
  left. reflexivity.
Defined.

(** ** The daily cap *)

Lemma current_count_update (today day : string) (processed : Z) (sent : Q)
    (upvotes errs : Z) (db : Database) :
  current_count day (update_daily_stats today processed sent upvotes errs db) =
    if decide (today = day)
    then (current_count today db + (if Qlt_bool 0 sent then 1 else 0))%Z
    else current_count day db.
Proof.
  unfold current_count, update_daily_stats. simpl.
  rewrite lookup_insert. destruct (decide (today = day)) as [->|Hne]; [|reflexivity].
  simpl. unfold coalesce. destruct (daily_transfers db !! day); reflexivity.
Qed.

Lemma current_count_record (now a p day : string) (sent : Q) (upvoted commented : bool)
    (db : Database) :
  current_count day (record_processed_post now a p sent upvoted commented db) =
    current_count day db.
Proof. reflexivity. Qed.

Lemma send_hbd_transfer_gated (cfg : Config) (lib : library) (env : Env) (db : Database) :
  dry_run cfg = false ->
  send_hbd_transfer cfg lib env db = true ->
  (current_count (env_today_gate env) db < max_daily_transfers cfg)%Z.
Proof.
  intros Hreal. unfold send_hbd_transfer, can_send_transfer_today. rewrite Hreal.
  destruct (current_count (env_today_gate env) db <? max_daily_transfers cfg)%Z eqn:E;
    simpl; [intros _; apply Z.ltb_lt, E | discriminate].
Qed.

Lemma process_post_within_cap (json_loads : string -> option json) (cfg : Config)
    (lib : library) (env : Env) (post : Post) (db : Database) :
  dry_run cfg = false ->
  env_today_gate env = env_today_stats env ->
  (forall day, (current_count day db <= max_daily_transfers cfg)%Z) ->
  forall day,
    (current_count day (db_after (process_post json_loads cfg lib env post db))
     <= max_daily_transfers cfg)%Z.
Proof.
  intros Hreal Hsame Hinv day. unfold process_post.
  destruct (validate_post json_loads cfg post) as [post' [v|e]]; simpl.
  - destruct (is_valid v); simpl; [|apply Hinv].
    rewrite current_count_update, !current_count_record.
    destruct (decide (env_today_stats env = day)) as [Hday|_]; [|apply Hinv].
    destruct (send_hbd_transfer cfg lib env db) eqn:Hsend.
    + pose proof (send_hbd_transfer_gated cfg lib env db Hreal Hsend) as Hgate.
      rewrite Hsame in Hgate.
      destruct (Qlt_bool 0 (transfer_amount cfg)); lia.
    + change (Qlt_bool 0 0) with false. cbv iota.
      specialize (Hinv (env_today_stats env)). lia.
  - rewrite current_count_update. change (Qlt_bool 0 0) with false.
    destruct (decide (env_today_stats env = day)); [|apply Hinv].
    cbv iota. specialize (Hinv (env_today_stats env)). lia.
Qed.

Lemma reachable_within_cap (json_loads : string -> option json) (cfg : Config)
    (lib : library) (db : Database) :
  dry_run cfg = false ->
  (0 <= max_daily_transfers cfg)%Z ->
  reachable json_loads cfg lib (fun env => env_today_gate env = env_today_stats env) db ->
  forall day, (current_count day db <= max_daily_transfers cfg)%Z.
Proof.
  intros Hreal Hcap. induction 1 as [|db env post _ IH Hsame|db today _ IH]; intros day.
  - exact Hcap.
  - apply process_post_within_cap; assumption.
  - rewrite current_count_update. change (Qlt_bool 0 0) with false.
    destruct (decide (today = day)); [|apply IH].
    cbv iota. specialize (IH today). lia.
Qed.

(** C3, as the code has it.  Outside dry run, [send_hbd_transfer] reports a
    transfer only after it has found today's [transfer_count] below
    [max_daily_transfers]; with a cap that is not negative, and the date of
    the check being the date of the counter update of the same post, no
    date's [transfer_count] ever exceeds the cap, in any reachable database
    and after any number of cycles.  In dry run the method answers before
    reading the count. *)
Theorem real_mode_respects_daily_cap
    (json_loads : string -> option json) (strptime : string -> option Z)
    (cfg : Config) (lib : library) :
  (dry_run cfg = false ->
   (forall env db,
      send_hbd_transfer cfg lib env db = true ->
      (current_count (env_today_gate env) db < max_daily_transfers cfg)%Z) /\
   ((0 <= max_daily_transfers cfg)%Z ->
    (forall db,
       reachable json_loads cfg lib
         (fun env => env_today_gate env = env_today_stats env) db ->
       forall day, (current_count day db <= max_daily_transfers cfg)%Z) /\
    (forall cycles,
       (forall c, In c cycles ->
          forall i, env_today_gate (env_of c i) = env_today_stats (env_of c i)) ->
       forall day,
         (current_count day (run json_loads strptime cfg lib cycles)
          <= max_daily_transfers cfg)%Z))) /\
  (dry_run cfg = true ->
   forall env db, send_hbd_transfer cfg lib env db = true).
Proof.
  split.
  - intros Hreal. split; [intros env db; apply send_hbd_transfer_gated, Hreal|].
    intros Hcap. split.
    + intros db Hdb. exact (reachable_within_cap _ _ _ _ Hreal Hcap Hdb).
    + intros cycles Hsame.
      apply (reachable_within_cap json_loads cfg lib _ Hreal Hcap).
      apply run_reachable. exact Hsame.
  - intros Hdry env db. unfold send_hbd_transfer. rewrite Hdry. reflexivity.
Qed.

Lemma real_mode_respects_daily_cap_witness :
  (current_count "2025-01-01"
     (run toy_loads toy_strptime (ecuador_config false 1) Lighthive
        [sample_cycle ["hola"; "adios"]; sample_cycle ["buenas"]])
   <= max_daily_transfers (ecuador_config false 1))%Z.
Proof.
  destruct (real_mode_respects_daily_cap toy_loads toy_strptime
              (ecuador_config false 1) Lighthive) as [Hreal _].
  destruct (Hreal eq_refl) as [_ Hcap].
  destruct Hcap as [_ Hrun]; [simpl; lia|].
  apply Hrun. intros c [<-|[<-|[]]] i; reflexivity.
Defined.

(** C3 as stated fails in dry run: with a cap of one transfer a day, two
    posts of one cycle leave [transfer_count] at two. *)
Lemma dry_run_exceeds_daily_cap :
  (max_daily_transfers (ecuador_config true 1) <
   current_count "2025-01-01"
     (run toy_loads toy_strptime (ecuador_config true 1) Lighthive
        [sample_cycle ["hola"; "adios"]]))%Z.
Proof. vm_compute. reflexivity. Qed.

(** ** Independence of the three actions *)

Lemma processed_posts_update (today : string) (processed : Z) (sent : Q)
    (upvotes errs : Z) (db : Database) :
  processed_posts (update_daily_stats today processed sent upvotes errs db) =
    processed_posts db.
Proof. reflexivity. Qed.

Lemma process_post_valid (json_loads : string -> option json) (cfg : Config)
    (lib : library) (env : Env) (post post' : Post) (db : Database)
    (v : PostValidation) :
  validate_post json_loads cfg post = (post', Ok v) ->
  is_valid v = true ->
  let a := author post in
  let p := permlink post in
  let commented := send_welcome_comment cfg lib env in
  let sent := if send_hbd_transfer cfg lib env db then transfer_amount cfg else 0%Q in
  let upvoted := upvote_post cfg lib env in
  process_post json_loads cfg lib env post db =
    {| post_after := post';
       db_after :=
         update_daily_stats (env_today_stats env) 1 sent (if upvoted then 1 else 0) 0
           (record_processed_post (env_now env) a p sent upvoted commented db);
       calls := [CallComment a p; CallTransfer a (transfer_amount cfg);
                 CallUpvote a p (upvote_percentage cfg * 100)];
       returned := true |}.
Proof.
  intros Hv Hvalid. unfold process_post. rewrite Hv, Hvalid. reflexivity.
Qed.

(** C1, as the code has it.  In [main.py] a post that passes validation has
    the three action methods called whatever each of them answers; the answer
    of the transfer and of the upvote does not depend on what the comment
    did; the row written under the post's key holds each action's own
    outcome, and the aggregate of the day gains one post, the amount sent and
    the upvote.  A failed comment with a sent transfer and a given upvote is
    an outcome of [main.py].  In [main_advanced.py] the transfer and the
    upvote sit under [if commented:]: after a failed comment only the comment
    was called and the row holds no amount and no upvote, and a post that
    passes validation there gets a row with [commented] set. *)
Theorem action_outcomes_recorded (json_loads : string -> option json) (cfg : Config) :
  (forall lib env post db post' v,
     validate_post json_loads cfg post = (post', Ok v) ->
     is_valid v = true ->
     let r := process_post json_loads cfg lib env post db in
     let a := author post in
     let p := permlink post in
     let commented := send_welcome_comment cfg lib env in
     let sent := if send_hbd_transfer cfg lib env db then transfer_amount cfg else 0%Q in
     let upvoted := upvote_post cfg lib env in
     let before := daily_stats db !! env_today_stats env in
     calls r = [CallComment a p; CallTransfer a (transfer_amount cfg);
                CallUpvote a p (upvote_percentage cfg * 100)] /\
     map row_outcome (List.filter (row_is a p) (processed_posts (db_after r))) =
       [(commented, sent, upvoted)] /\
     daily_stats (db_after r) !! env_today_stats env =
       Some {| posts_processed := (coalesce posts_processed before 0 + 1)%Z;
               hbd_sent := (coalesce hbd_sent before 0 + sent)%Q;
               upvotes_given :=
                 (coalesce upvotes_given before 0 + (if upvoted then 1 else 0))%Z;
               errors := (coalesce errors before 0 + 0)%Z |} /\
     (forall outcome,
        send_hbd_transfer cfg lib (with_comment outcome env) db =
          send_hbd_transfer cfg lib env db /\
        upvote_post cfg lib (with_comment outcome env) = upvote_post cfg lib env)) /\
  (let r := process_post toy_loads (ecuador_config false 10) Lighthive
              (sample_env Failed 50)
              (sample_post "hola" (checkin_metadata [hiveecuador_8000]) (JArr []) (JArr []))
              one_transfer_today in
   map row_outcome (List.filter (row_is "testuser" "hola") (processed_posts (db_after r))) =
     [(false, 1%Q, true)] /\
   daily_stats one_transfer_today !! "2025-01-01" =
     Some {| posts_processed := 1; hbd_sent := 1; upvotes_given := 1; errors := 0 |} /\
   daily_stats (db_after r) !! "2025-01-01" =
     Some {| posts_processed := 2; hbd_sent := 2; upvotes_given := 2; errors := 0 |}) /\
  (forall env post db,
     let r := advanced_perform_actions cfg env post false db in
     calls r = [CallComment (author post) (permlink post)] /\
     map row_outcome
       (List.filter (row_is (author post) (permlink post)) (processed_posts (db_after r))) =
       [(false, 0%Q, false)]) /\
  (forall env post db v,
     advanced_validate_post json_loads cfg post = Ok v ->
     is_valid v = true ->
     let r := advanced_process_post json_loads cfg env post db in
     calls r = [CallComment (author post) (permlink post);
                CallTransfer (author post) (transfer_amount cfg);
                CallUpvote (author post) (permlink post) (upvote_percentage cfg * 100)] /\
     map row_commented
       (List.filter (row_is (author post) (permlink post)) (processed_posts (db_after r))) =
       [true]).
Proof.
  split; [|split; [|split]].
  - intros lib env post db post' v Hv Hvalid r a p commented sent upvoted before.
    subst r. rewrite (process_post_valid _ _ _ _ _ _ _ _ Hv Hvalid).
    cbn [db_after calls].
    split; [reflexivity|]. split; [|split].
    + rewrite processed_posts_update, record_replaces. reflexivity.
    + apply lookup_insert_eq.
    + intros outcome. split; reflexivity.
  - vm_compute. repeat split; reflexivity.
  - intros env post db r. subst r. unfold advanced_perform_actions.
    cbn [db_after calls].
    split; [reflexivity|].
    rewrite processed_posts_update, record_replaces. reflexivity.
  - intros env post db v Hv Hvalid r. subst r.
    unfold advanced_process_post. rewrite Hv, Hvalid. cbn [negb].
    unfold advanced_perform_actions, advanced_send_welcome_comment.
    replace (if dry_run cfg then true else true) with true
      by (destruct (dry_run cfg); reflexivity).
    cbn [db_after calls].
    split; [reflexivity|].
    rewrite processed_posts_update, record_replaces. reflexivity.
Qed.

Lemma action_outcomes_recorded_witness :
  let post := sample_post "hola" (checkin_metadata [hiveecuador_8000]) (JArr []) (JArr []) in
  let cfg := ecuador_config false 10 in
  let r := process_post toy_loads cfg Beem (sample_env Failed 50) post one_transfer_today in
  calls r = [CallComment "testuser" "hola"; CallTransfer "testuser" 1;
             CallUpvote "testuser" "hola" 10000].
Proof.
  intros post cfg r.
  destruct (action_outcomes_recorded toy_loads cfg) as [Hmain _].
  destruct (Hmain Beem (sample_env Failed 50) post one_transfer_today _ _ eq_refl eq_refl)
    as [Hcalls _].
  exact Hcalls.
Defined.

(** C1 as stated fails in [main_advanced.py]: whatever the comment answers,
    the row a successful run writes under the post's key never has
    [commented] unset together with [upvoted] set. *)
Lemma advanced_gates_transfer_and_upvote :
  ~ exists (json_loads : string -> option json) cfg env post db row,
      let r := advanced_process_post json_loads cfg env post db in
      returned r = true /\
      In row (processed_posts (db_after r)) /\
      row_is (author post) (permlink post) row = true /\
      row_commented row = false /\ row_upvoted row = true.
Proof.
  intros (json_loads & cfg & env & post & db & row & Hret & Hin & Hkey & Hc & Hu).
  unfold advanced_process_post in *.
  destruct (advanced_validate_post json_loads cfg post) as [v|e]; [|discriminate Hret].
  destruct (is_valid v); cbn [negb] in *; [|discriminate Hret].
  assert (Hrow : In row (List.filter (row_is (author post) (permlink post))
            (processed_posts (db_after
               (advanced_perform_actions cfg env post
                  (advanced_send_welcome_comment cfg) db)))))
    by (apply filter_In; auto).
  unfold advanced_perform_actions in Hrow. cbn [db_after] in Hrow.
  rewrite processed_posts_update, record_replaces in Hrow.
  destruct Hrow as [<-|[]]. cbn in Hc, Hu.
  rewrite Hc in Hu. discriminate Hu.
Qed.

(** ** The post after validation *)

(** C2 fails on [main.py].  The metadata of [aliased_post] is a mapping with
    one beneficiary and the direct field has another: after [validate_post]
    the mapping of the post holds both, and a second call on the same post
    finds the longer list and lengthens it again.  Both calls return
    [is_valid = True]. *)
Theorem validate_post_extends_post_metadata :
  let cfg := ecuador_config true 10 in
  let once := validate_post toy_loads cfg aliased_post in
  let twice := validate_post toy_loads cfg (fst once) in
  json_metadata aliased_post = checkin_metadata [alice_500] /\
  json_metadata (fst once) = checkin_metadata [alice_500; hiveecuador_8000] /\
  json_metadata (fst twice) =
    checkin_metadata [alice_500; hiveecuador_8000; hiveecuador_8000] /\
  fst once <> aliased_post /\
  (exists v, snd once = Ok v /\ is_valid v = true /\ post_data v = fst once) /\
  (exists v, snd twice = Ok v /\ is_valid v = true).
Proof.
  intros cfg once twice.
  split; [reflexivity|]. split; [vm_compute; reflexivity|].
  split; [vm_compute; reflexivity|]. split.
  - intros Heq. apply (f_equal json_metadata) in Heq. vm_compute in Heq. discriminate Heq.
  - split; eexists; vm_compute; repeat split; reflexivity.
Qed.

(** Where [main.py] leaves the post alone: metadata that came as text is
    decoded into a fresh tree, and [main_advanced.py] extends nothing. *)
Lemma validate_post_text_metadata_untouched (json_loads : string -> option json)
    (cfg : Config) (post : Post) (s : string) :
  json_metadata post = JStr s ->
  fst (validate_post json_loads cfg post) = post.
Proof.
  intros Hraw. unfold validate_post, load_metadata. rewrite Hraw.
  destruct (json_loads s) as [metadata|]; [|reflexivity].
  destruct (_ <- _ ;; _) as [[rs pb]|e]; [|reflexivity].
  destruct (merge_beneficiaries post pb) as [merged outcome]. simpl.
  unfold store_beneficiaries. rewrite Hraw. reflexivity.
Qed.

Lemma advanced_validate_post_returns_post (json_loads : string -> option json)
    (cfg : Config) (post : Post) (v : PostValidation) :
  advanced_validate_post json_loads cfg post = Ok v -> post_data v = post.
Proof.
  unfold advanced_validate_post.
  destruct (load_metadata json_loads (json_metadata post)) as [metadata|];
    [|intros [= <-]; reflexivity].
  intros H.
  repeat (apply bind_Ok in H; destruct H as (? & _ & H)).
  injection H as <-. reflexivity.
Qed.

(** ** Every violated check is reported *)

Lemma check_field_typed (mismatch : json -> json -> reason)
    (required_value : json) (fields : list (string * json)) (k : string) :
  check_field mismatch required_value (JObj fields) k =
    Ok (if field_violated required_value (JObj fields) k
        then [mismatch required_value (metadata_field (JObj fields) k JNull)]
        else []).
Proof.
  unfold check_field, field_violated. simpl.
  destruct (py_truthy required_value); simpl; [|reflexivity].
  destruct (py_eq _ required_value); reflexivity.
Qed.

Lemma missing_from_list (post_tags required_tags : list json) :
  missing_from (JArr post_tags) required_tags =
    Ok (List.filter (fun tag => negb (existsb (py_eq tag) post_tags)) required_tags).
Proof.
  induction required_tags as [|tag rest IH]; simpl; [reflexivity|].
  rewrite IH. simpl. destruct (existsb (py_eq tag) post_tags); reflexivity.
Qed.

Lemma is_list_of_as_list (elem : json -> bool) (v : json) :
  is_list_of elem v = true -> v = JArr (as_list v) /\ forallb elem (as_list v) = true.
Proof. destruct v; simpl; try discriminate. auto. Qed.

Lemma check_tags_typed (cfg : Config) (fields : list (string * json)) :
  is_list_of (fun _ => true) (required cfg "tags" (JArr [])) = true ->
  is_list_of (fun _ => true) (metadata_field (JObj fields) "tags" (JArr [])) = true ->
  check_tags cfg (JObj fields) =
    Ok (if nonempty (spec_missing_tags cfg (JObj fields))
        then [MissingRequiredTags (spec_missing_tags cfg (JObj fields))]
        else []).
Proof.
  intros Hreq Hpost.
  unfold check_tags, spec_missing_tags.
  change (py_get (JObj fields) "tags" (JArr []))
    with (Ok (A := json) (metadata_field (JObj fields) "tags" (JArr []))).
  destruct (required cfg "tags" (JArr [])) as [| | | |required_tags|];
    try discriminate Hreq.
  destruct (metadata_field (JObj fields) "tags" (JArr [])) as [| | | |post_tags|];
    try discriminate Hpost.
  simpl. rewrite missing_from_list. simpl.
  destruct (List.filter _ _); reflexivity.
Qed.

Lemma ben_matches_dicts (post_ben req_ben : json) :
  is_dict post_ben = true -> is_dict req_ben = true ->
  ben_matches post_ben req_ben = Ok (same_pair req_ben post_ben).
Proof.
  destruct post_ben; try discriminate. destruct req_ben; try discriminate.
  reflexivity.
Qed.

Lemma find_beneficiary_dicts (req_ben : json) (post_bens : list json) :
  is_dict req_ben = true -> forallb is_dict post_bens = true ->
  find_beneficiary req_ben post_bens = Ok (existsb (same_pair req_ben) post_bens).
Proof.
  intros Hreq. induction post_bens as [|post_ben rest IH]; simpl; [reflexivity|].
  rewrite andb_true_iff. intros [Hpost Hrest].
  rewrite (ben_matches_dicts _ _ Hpost Hreq). simpl.
  destruct (same_pair req_ben post_ben); simpl; [reflexivity | apply IH, Hrest].
Qed.

Lemma missing_beneficiaries_typed (merged reqs : list json) :
  forallb is_dict merged = true -> forallb is_dict reqs = true ->
  missing_beneficiaries (JArr merged) reqs =
    Ok (map MissingBeneficiary
          (List.filter (fun req_ben => negb (existsb (same_pair req_ben) merged)) reqs)).
Proof.
  intros Hmerged. induction reqs as [|req_ben rest IH]; simpl; [reflexivity|].
  rewrite andb_true_iff. intros [Hreq Hrest].
  rewrite (find_beneficiary_dicts _ _ Hreq Hmerged), (IH Hrest). simpl.
  destruct (existsb (same_pair req_ben) merged); reflexivity.
Qed.

(** What the two tests of the loop find in a typed extension entry is what
    the entry carries. *)
Lemma extension_beneficiaries_carried (ext : json) :
  extension_typed ext = true ->
  match extension_beneficiaries ext with
  | Some more => more = JArr (carried ext) /\ forallb is_dict (carried ext) = true
  | None => carried ext = []
  end.
Proof.
  unfold extension_typed, extension_beneficiaries, carried.
  destruct ext as [| | | |items|]; try reflexivity.
  destruct items as [|tag [|payload others]]; try reflexivity.
  destruct payload as [| | | | |fields]; try (destruct (py_eq tag (JNum 0)); reflexivity).
  destruct (py_eq tag (JNum 0)); [|reflexivity].
  cbn [negb orb metadata_field].
  destruct (dict_get fields "beneficiaries") as [more|]; [|reflexivity].
  intros Htyped. apply is_list_of_as_list in Htyped. exact Htyped.
Qed.

Lemma merge_extensions_typed (exts acc : list json) :
  forallb extension_typed exts = true ->
  merge_extensions exts (JArr acc) = (JArr (acc ++ concat (map carried exts)), Ok tt).
Proof.
  revert acc. induction exts as [|ext rest IH]; intros acc; simpl.
  - rewrite app_nil_r. reflexivity.
  - rewrite andb_true_iff. intros [Hext Hrest].
    apply extension_beneficiaries_carried in Hext.
    destruct (extension_beneficiaries ext) as [more|].
    + destruct Hext as [-> _]. simpl.
      rewrite (IH _ Hrest), <- app_assoc. reflexivity.
    + rewrite Hext, (IH _ Hrest). reflexivity.
Qed.

Lemma carried_all_dicts (exts : list json) :
  forallb extension_typed exts = true ->
  forallb is_dict (concat (map carried exts)) = true.
Proof.
  induction exts as [|ext rest IH]; [reflexivity|].
  cbn [forallb map concat]. rewrite andb_true_iff. intros [Hext Hrest].
  rewrite forallb_app, (IH Hrest), andb_true_r.
  apply extension_beneficiaries_carried in Hext.
  destruct (extension_beneficiaries ext) as [more|]; [apply Hext | rewrite Hext; reflexivity].
Qed.

Lemma merged_all_dicts (post : Post) (metadata : json) :
  is_list_of is_dict (metadata_field metadata "beneficiaries" (JArr [])) = true ->
  is_list_of is_dict (beneficiaries post) = true ->
  is_list_of extension_typed (extensions post) = true ->
  forallb is_dict (spec_merged_beneficiaries post metadata) = true.
Proof.
  intros Hm Hd He. unfold spec_merged_beneficiaries.
  apply is_list_of_as_list in Hm as [_ Hm].
  apply is_list_of_as_list in Hd as [_ Hd].
  apply is_list_of_as_list in He as [_ He].
  rewrite !forallb_app, Hm, Hd, (carried_all_dicts _ He). reflexivity.
Qed.

Lemma merge_beneficiaries_typed (post : Post) (metadata : json) :
  is_list_of is_dict (metadata_field metadata "beneficiaries" (JArr [])) = true ->
  is_list_of is_dict (beneficiaries post) = true ->
  is_list_of extension_typed (extensions post) = true ->
  merge_beneficiaries post (metadata_field metadata "beneficiaries" (JArr [])) =
    (JArr (spec_merged_beneficiaries post metadata), Ok tt).
Proof.
  intros Hm Hd He. unfold merge_beneficiaries, spec_merged_beneficiaries.
  destruct (metadata_field metadata "beneficiaries" (JArr [])) as [| | | |mb|];
    try discriminate Hm.
  destruct (beneficiaries post) as [| | | |direct|]; try discriminate Hd.
  destruct (extensions post) as [| | | |exts|]; try discriminate He.
  simpl in He. simpl.
  destruct direct as [|d ds]; simpl.
  - rewrite (merge_extensions_typed _ _ He). reflexivity.
  - rewrite (merge_extensions_typed _ _ He), <- app_assoc. reflexivity.
Qed.

Lemma field_missing_key (fields : list (string * json)) (k : string) :
  field_missing (JObj fields) (JStr k) =
    Ok (field_absent_or_falsy (JObj fields) (JStr k)).
Proof.
  unfold field_missing. simpl.
  destruct (dict_get fields k) as [v|]; reflexivity.
Qed.

Lemma missing_fields_typed (fields : list (string * json)) (required_fields : list json) :
  forallb is_str required_fields = true ->
  missing_fields (JObj fields) required_fields =
    Ok (map MissingRequiredField
          (List.filter (field_absent_or_falsy (JObj fields)) required_fields)).
Proof.
  induction required_fields as [|field rest IH]; [reflexivity|].
  cbn [forallb]. rewrite andb_true_iff. intros [Hstr Hrest].
  destruct field as [| | |k| |]; try discriminate.
  cbn [missing_fields List.filter].
  rewrite field_missing_key, (IH Hrest). cbn [bind].
  destruct (field_absent_or_falsy (JObj fields) (JStr k)); reflexivity.
Qed.

Lemma check_field_shape (mismatch : json -> json -> reason)
    (required_value metadata : json) (k : string) (rs : list reason) :
  check_field mismatch required_value metadata k = Ok rs ->
  rs = [] \/ (py_truthy required_value = true /\ exists got, rs = [mismatch required_value got]).
Proof.
  unfold check_field. destruct (py_truthy required_value); [|intros [= <-]; auto].
  intros H. apply bind_Ok in H as (got & _ & H).
  destruct (negb (py_eq got required_value)); injection H as <-; eauto.
Qed.

Lemma check_field_only (mismatch : json -> json -> reason) (c : check)
    (required_value metadata : json) (k : string) (rs : list reason) :
  (forall expected got, check_of (mismatch expected got) = c) ->
  check_field mismatch required_value metadata k = Ok rs ->
  only c rs /\ (length rs <= 1)%nat.
Proof.
  intros Hc H. apply check_field_shape in H as [->|(_ & got & ->)].
  - split; [constructor | simpl; lia].
  - split; [repeat constructor; apply Hc | simpl; lia].
Qed.

Lemma check_tags_only (cfg : Config) (metadata : json) (rs : list reason) :
  check_tags cfg metadata = Ok rs -> only CheckTags rs /\ (length rs <= 1)%nat.
Proof.
  unfold check_tags. intros H.
  apply bind_Ok in H as (post_tags & _ & H).
  apply bind_Ok in H as (tags & _ & H).
  apply bind_Ok in H as (missing_tags & _ & H).
  destruct missing_tags; injection H as <-.
  - split; [constructor | simpl; lia].
  - split; [repeat constructor | simpl; lia].
Qed.

Lemma missing_beneficiaries_only (post_beneficiaries : json) (reqs : list json)
    (rs : list reason) :
  missing_beneficiaries post_beneficiaries reqs = Ok rs -> only CheckBeneficiaries rs.
Proof.
  revert rs. induction reqs as [|req_ben rest IH]; intros rs; simpl.
  - intros [= <-]. constructor.
  - intros H.
    apply bind_Ok in H as (post_bens & _ & H).
    apply bind_Ok in H as (found & _ & H).
    apply bind_Ok in H as (others & Hothers & H).
    specialize (IH _ Hothers).
    destruct found; injection H as <-; [exact IH | constructor; [reflexivity | exact IH]].
Qed.

Lemma check_beneficiaries_only (cfg : Config) (post_beneficiaries : json)
    (rs : list reason) :
  check_beneficiaries cfg post_beneficiaries = Ok rs -> only CheckBeneficiaries rs.
Proof.
  unfold check_beneficiaries. intros H.
  apply bind_Ok in H as (reqs & _ & H).
  exact (missing_beneficiaries_only _ _ _ H).
Qed.

Lemma missing_fields_only (metadata : json) (required_fields : list json)
    (rs : list reason) :
  missing_fields metadata required_fields = Ok rs -> only CheckRequiredFields rs.
Proof.
  revert rs. induction required_fields as [|field rest IH]; intros rs; simpl.
  - intros [= <-]. constructor.
  - intros H.
    apply bind_Ok in H as (missing & _ & H).
    apply bind_Ok in H as (others & Hothers & H).
    specialize (IH _ Hothers).
    destruct missing; injection H as <-; [constructor; [reflexivity | exact IH] | exact IH].
Qed.

Lemma check_required_fields_only (cfg : Config) (metadata : json) (rs : list reason) :
  check_required_fields cfg metadata = Ok rs -> only CheckRequiredFields rs.
Proof.
  unfold check_required_fields. intros H.
  apply bind_Ok in H as (fields & _ & H).
  exact (missing_fields_only _ _ _ H).
Qed.

Lemma check_body_only (post : Post) :
  only CheckBody (check_body post) /\ (length (check_body post) <= 1)%nat.
Proof.
  unfold check_body. destruct (_ <? _)%nat.
  - split; [repeat constructor | simpl; lia].
  - split; [constructor | simpl; lia].
Qed.

(** *** The mapping after the merge *)

Lemma dict_set_same (fields : list (string * json)) (k : string) (v : json) :
  dict_get fields k = Some v -> dict_set fields k v = fields.
Proof.
  induction fields as [|[k' v'] rest IH]; cbn [dict_get dict_set]; [reflexivity|].
  destruct (String.eqb k' k); [intros [= ->]; reflexivity|].
  intros H. rewrite (IH H). reflexivity.
Qed.

Lemma dict_get_set_other (fields : list (string * json)) (k k' : string) (v : json) :
  k' <> k -> dict_get (dict_set fields k v) k' = dict_get fields k'.
Proof.
  intros Hne. induction fields as [|[k0 v0] rest IH]; cbn [dict_get dict_set];
    [reflexivity|].
  destruct (String.eqb k0 k) eqn:E; cbn [dict_get].
  - apply String.eqb_eq in E. subst k0.
    destruct (String.eqb k k') eqn:E'; [|reflexivity].
    apply String.eqb_eq in E'. congruence.
  - rewrite IH. reflexivity.
Qed.

Lemma dict_get_set_present (fields : list (string * json)) (k : string) (v v0 : json) :
  dict_get fields k = Some v0 -> dict_get (dict_set fields k v) k = Some v.
Proof.
  induction fields as [|[k0 v1] rest IH]; cbn [dict_get dict_set]; [discriminate|].
  destruct (String.eqb k0 k) eqn:E; cbn [dict_get]; rewrite E; [reflexivity | exact IH].
Qed.

Lemma field_missing_refresh (fields : list (string * json)) (merged orig field : json) :
  dict_get fields "beneficiaries" = Some orig ->
  py_truthy orig = py_truthy merged ->
  field_missing (JObj (dict_set fields "beneficiaries" merged)) field =
  field_missing (JObj fields) field.
Proof.
  intros Hkey Hsame. unfold field_missing.
  destruct field as [| | |k| |]; try reflexivity. cbn [py_in bind].
  destruct (String.eqb k "beneficiaries") eqn:E.
  - apply String.eqb_eq in E. subst k.
    rewrite (dict_get_set_present _ _ merged _ Hkey), Hkey. cbn. rewrite Hsame. reflexivity.
  - apply String.eqb_neq in E. rewrite (dict_get_set_other _ _ _ _ E). reflexivity.
Qed.

Lemma late_checks_refresh (cfg : Config) (fields : list (string * json))
    (merged orig : json) :
  dict_get fields "beneficiaries" = Some orig ->
  py_truthy orig = py_truthy merged ->
  check_country cfg (JObj (dict_set fields "beneficiaries" merged)) =
    check_country cfg (JObj fields) /\
  check_required_fields cfg (JObj (dict_set fields "beneficiaries" merged)) =
    check_required_fields cfg (JObj fields).
Proof.
  intros Hkey Hsame. split.
  - unfold check_country, check_field. cbn [py_get].
    rewrite dict_get_set_other by discriminate. reflexivity.
  - unfold check_required_fields.
    destruct (py_iter (required cfg "required_fields" (JArr []))) as [flds|e];
      cbn [bind]; [|reflexivity].
    induction flds as [|field rest IH]; cbn [missing_fields]; [reflexivity|].
    rewrite (field_missing_refresh _ _ _ _ Hkey Hsame), IH. reflexivity.
Qed.

Lemma refresh_metadata_same (metadata : json) :
  refresh_metadata metadata (metadata_field metadata "beneficiaries" (JArr [])) = metadata.
Proof.
  unfold refresh_metadata, metadata_field.
  destruct metadata as [| | | | |fields]; try reflexivity.
  destruct (dict_get fields "beneficiaries") as [own|] eqn:Hown; [|reflexivity].
  rewrite (dict_set_same _ _ _ Hown). reflexivity.
Qed.

Lemma missing_fields_refresh (fields : list (string * json)) (merged own : json)
    (required_fields : list json) :
  dict_get fields "beneficiaries" = Some own ->
  py_truthy own = py_truthy merged \/
  existsb (py_eq (JStr "beneficiaries")) required_fields = false ->
  missing_fields (JObj (dict_set fields "beneficiaries" merged)) required_fields =
  missing_fields (JObj fields) required_fields.
Proof.
  intros Hown Hsame.
  induction required_fields as [|field rest IH]; cbn [missing_fields]; [reflexivity|].
  assert (Hfield : field_missing (JObj (dict_set fields "beneficiaries" merged)) field =
                   field_missing (JObj fields) field).
  { destruct Hsame as [Hsame|Hnot]; [exact (field_missing_refresh _ _ _ _ Hown Hsame)|].
    cbn [existsb] in Hnot. apply orb_false_iff in Hnot as [Hnot _].
    unfold field_missing. destruct field as [| | |k| |]; try reflexivity.
    cbn [py_eq] in Hnot. apply String.eqb_neq in Hnot.
    cbn [py_in bind]. rewrite dict_get_set_other by congruence. reflexivity. }
  rewrite Hfield, IH; [reflexivity|].
  destruct Hsame as [Hsame|Hnot]; [left; exact Hsame|].
  right. cbn [existsb] in Hnot. apply orb_false_iff in Hnot as [_ Hnot]. exact Hnot.
Qed.

(** The text of the metadata decodes, or the metadata arrived as it is. *)
Lemma parses_load (json_loads : string -> option json) (post : Post) (metadata : json) :
  parses json_loads post metadata <->
  load_metadata json_loads (json_metadata post) = Some metadata.
Proof.
  unfold parses, load_metadata.
  destruct (json_metadata post); try reflexivity; split; congruence.
Qed.

(** What a returning [validate_post] of [main.py] has done, when the metadata
    was decoded: every check has run, and the reasons are what the checks
    appended, in their order. *)
Lemma validate_post_returns (json_loads : string -> option json) (cfg : Config)
    (post post' : Post) (metadata : json) (v : PostValidation) :
  load_metadata json_loads (json_metadata post) = Some metadata ->
  validate_post json_loads cfg post = (post', Ok v) ->
  exists app developer tags merged bens country fields,
    check_app cfg metadata = Ok app /\
    check_developer cfg metadata = Ok developer /\
    check_tags cfg metadata = Ok tags /\
    check_beneficiaries cfg merged = Ok bens /\
    check_country cfg (refresh_metadata metadata merged) = Ok country /\
    check_required_fields cfg (refresh_metadata metadata merged) = Ok fields /\
    reasons v = app ++ developer ++ tags ++ bens ++ country ++ fields ++ check_body post /\
    is_valid v = (length (reasons v) =? 0)%nat /\
    post' = store_beneficiaries post merged /\
    post_data v = post'.
Proof.
  intros Hload. unfold validate_post. rewrite Hload.
  destruct (app <- check_app cfg metadata ;; _) as [[rs pb]|e] eqn:Hfirst;
    [|intros [= _ H]; discriminate H].
  apply bind_Ok in Hfirst as (app & Happ & Hfirst).
  apply bind_Ok in Hfirst as (developer & Hdev & Hfirst).
  apply bind_Ok in Hfirst as (tags & Htags & Hfirst).
  apply bind_Ok in Hfirst as (pb0 & Hpb & Hfirst).
  injection Hfirst as <- <-.
  destruct (merge_beneficiaries post pb0) as [merged outcome].
  intros [= <- Hrest].
  apply bind_Ok in Hrest as (u & _ & Hrest).
  apply bind_Ok in Hrest as (bens & Hbens & Hrest).
  apply bind_Ok in Hrest as (country & Hcountry & Hrest).
  apply bind_Ok in Hrest as (fields & Hfields & Hrest).
  injection Hrest as <-. simpl.
  exists app, developer, tags, merged, bens, country, fields.
  rewrite <- !app_assoc. repeat split; assumption || reflexivity.
Qed.

Lemma advanced_validate_post_returns (json_loads : string -> option json) (cfg : Config)
    (post : Post) (metadata : json) (v : PostValidation) :
  load_metadata json_loads (json_metadata post) = Some metadata ->
  advanced_validate_post json_loads cfg post = Ok v ->
  exists app developer tags post_beneficiaries bens country fields,
    check_app cfg metadata = Ok app /\
    check_developer cfg metadata = Ok developer /\
    check_tags cfg metadata = Ok tags /\
    check_beneficiaries cfg post_beneficiaries = Ok bens /\
    check_country cfg metadata = Ok country /\
    check_required_fields cfg metadata = Ok fields /\
    reasons v = app ++ developer ++ tags ++ bens ++ country ++ fields ++ check_body post /\
    is_valid v = (length (reasons v) =? 0)%nat.
Proof.
  intros Hload. unfold advanced_validate_post. rewrite Hload. intros H.
  apply bind_Ok in H as (app & Happ & H).
  apply bind_Ok in H as (developer & Hdev & H).
  apply bind_Ok in H as (tags & Htags & H).
  apply bind_Ok in H as (pb & Hpb & H).
  apply bind_Ok in H as (bens & Hbens & H).
  apply bind_Ok in H as (country & Hcountry & H).
  apply bind_Ok in H as (fields & Hfields & H).
  injection H as <-. simpl.
  exists app, developer, tags, pb, bens, country, fields.
  repeat split; assumption || reflexivity.
Qed.

Lemma well_typed_parts (cfg : Config) (post : Post) (metadata : json) :
  well_typed cfg post metadata = true ->
  is_dict metadata = true /\
  is_list_of (fun _ => true) (required cfg "tags" (JArr [])) = true /\
  is_list_of (fun _ => true) (metadata_field metadata "tags" (JArr [])) = true /\
  is_list_of is_dict (required cfg "beneficiaries" (JArr [])) = true /\
  is_list_of is_dict (metadata_field metadata "beneficiaries" (JArr [])) = true /\
  is_list_of is_dict (beneficiaries post) = true /\
  is_list_of extension_typed (extensions post) = true /\
  is_list_of is_str (required cfg "required_fields" (JArr [])) = true.
Proof.
  unfold well_typed. rewrite !andb_true_iff. tauto.
Qed.

(** Away from the empty list that the merge fills, the checks that follow
    the merge find in the mapping what was there when it was decoded. *)
Lemma late_checks_typed (cfg : Config) (post : Post) (fields : list (string * json)) :
  is_list_of is_dict (metadata_field (JObj fields) "beneficiaries" (JArr [])) = true ->
  is_list_of is_str (required cfg "required_fields" (JArr [])) = true ->
  empty_list_filled_by_merge cfg post (JObj fields) = false ->
  let late := refresh_metadata (JObj fields)
                (JArr (spec_merged_beneficiaries post (JObj fields))) in
  check_country cfg late = check_country cfg (JObj fields) /\
  check_required_fields cfg late = check_required_fields cfg (JObj fields).
Proof.
  intros Hown Hstrs Hcorner late. subst late.
  unfold refresh_metadata, empty_list_filled_by_merge, spec_merged_beneficiaries in *.
  cbn [metadata_field] in *.
  destruct (dict_get fields "beneficiaries") as [own|] eqn:Hkey; [|split; reflexivity].
  split.
  - unfold check_country, check_field. cbn [py_get].
    rewrite dict_get_set_other by discriminate. reflexivity.
  - unfold check_required_fields.
    destruct (required cfg "required_fields" (JArr [])) as [| | | |flds|];
      try discriminate Hstrs.
    cbn [py_iter bind as_list] in *.
    apply (missing_fields_refresh _ _ own _ Hkey).
    destruct (existsb (py_eq (JStr "beneficiaries")) flds); [left | right; reflexivity].
    destruct own as [| | | |items|]; try discriminate Hown.
    cbn [as_list andb] in *.
    destruct items as [|b bs]; [|reflexivity].
    cbn [py_truthy negb andb app] in *.
    destruct (as_list (beneficiaries post) ++ _); [reflexivity | discriminate Hcorner].
Qed.

(** On typed input, away from the empty list that the merge fills,
    [validate_post] of [main.py] returns, and its reasons are the ones the
    specification lists. *)
Lemma validate_post_typed (json_loads : string -> option json) (cfg : Config)
    (post : Post) (metadata : json) :
  load_metadata json_loads (json_metadata post) = Some metadata ->
  well_typed cfg post metadata = true ->
  empty_list_filled_by_merge cfg post metadata = false ->
  let post' := store_beneficiaries post (JArr (spec_merged_beneficiaries post metadata)) in
  validate_post json_loads cfg post =
    (post',
     Ok {| is_valid := (length (spec_reasons cfg post metadata) =? 0)%nat;
           reasons := spec_reasons cfg post metadata;
           post_data := post' |}).
Proof.
  intros Hload Htyped Hcorner post'.
  apply well_typed_parts in Htyped
    as (Hdict & Hrtags & Hptags & Hrbens & Hmbens & Hdirect & Hexts & Hfields).
  destruct metadata as [| | | | |fields]; try discriminate Hdict.
  destruct (late_checks_typed cfg post fields Hmbens Hfields Hcorner) as [Hcountry Hlate].
  unfold validate_post. rewrite Hload.
  unfold check_app, check_developer.
  rewrite !check_field_typed, (check_tags_typed _ _ Hrtags Hptags).
  change (py_get (JObj fields) "beneficiaries" (JArr []))
    with (Ok (A := json) (metadata_field (JObj fields) "beneficiaries" (JArr []))).
  cbn [bind].
  rewrite (merge_beneficiaries_typed _ _ Hmbens Hdirect Hexts).
  cbv beta iota zeta. rewrite Hcountry, Hlate.
  cbn [bind]. unfold check_country. rewrite check_field_typed.
  unfold check_beneficiaries, check_required_fields.
  pose proof (merged_all_dicts _ _ Hmbens Hdirect Hexts) as Hmerged.
  apply is_list_of_as_list in Hrbens as [Hrbens Hrdicts].
  apply is_list_of_as_list in Hfields as [Hfields Hstrs].
  assert (Hiter1 : py_iter (required cfg "beneficiaries" (JArr [])) =
                   Ok (as_list (required cfg "beneficiaries" (JArr []))))
    by (destruct (required cfg "beneficiaries" (JArr [])); try discriminate Hrbens;
        reflexivity).
  assert (Hiter2 : py_iter (required cfg "required_fields" (JArr [])) =
                   Ok (as_list (required cfg "required_fields" (JArr []))))
    by (destruct (required cfg "required_fields" (JArr [])); try discriminate Hfields;
        reflexivity).
  rewrite Hiter1, Hiter2. cbn [bind].
  rewrite (missing_beneficiaries_typed _ _ Hmerged Hrdicts). cbn [bind].
  rewrite (missing_fields_typed _ _ Hstrs). cbn [bind].
  unfold spec_reasons, spec_missing_pairs, spec_missing_fields, check_body, body_violated.
  rewrite <- !app_assoc. reflexivity.
Qed.

Lemma nonempty_le_length {A : Type} (l : list A) : (Nat.b2n (nonempty l) <= length l)%nat.
Proof. destruct l; simpl; lia. Qed.

Lemma length_if_singleton {A : Type} (b : bool) (x : A) :
  length (if b then [x] else []) = Nat.b2n b.
Proof. destruct b; reflexivity. Qed.

Lemma spec_reasons_length (cfg : Config) (post : Post) (metadata : json) :
  length (spec_reasons cfg post metadata) =
    (Nat.b2n (field_violated (required cfg "app" JNull) metadata "app") +
     Nat.b2n (field_violated (required cfg "developer" JNull) metadata "developer") +
     Nat.b2n (nonempty (spec_missing_tags cfg metadata)) +
     length (spec_missing_pairs cfg post metadata) +
     Nat.b2n (field_violated (required cfg "country" JNull) metadata "country") +
     length (spec_missing_fields cfg metadata) +
     Nat.b2n (body_violated post))%nat.
Proof.
  unfold spec_reasons.
  rewrite !length_app, !length_map, !length_if_singleton. lia.
Qed.

Lemma violated_checks_le_reasons (cfg : Config) (post : Post) (metadata : json) :
  (violated_checks cfg post metadata <= length (spec_reasons cfg post metadata))%nat.
Proof.
  rewrite spec_reasons_length. unfold violated_checks.
  pose proof (nonempty_le_length (spec_missing_pairs cfg post metadata)).
  pose proof (nonempty_le_length (spec_missing_fields cfg metadata)).
  lia.
Qed.

Lemma no_violation_no_reason (cfg : Config) (post : Post) (metadata : json) :
  violated_checks cfg post metadata = 0%nat <-> spec_reasons cfg post metadata = [].
Proof.
  rewrite <- length_zero_iff_nil, spec_reasons_length. unfold violated_checks.
  destruct (spec_missing_pairs cfg post metadata), (spec_missing_fields cfg metadata);
    simpl; lia.
Qed.

Lemma spec_reasons_cover (cfg : Config) (post : Post) (metadata : json) (c : check) :
  violated cfg post metadata c = true ->
  exists r, In r (spec_reasons cfg post metadata) /\ check_of r = c.
Proof.
  unfold spec_reasons.
  destruct c; cbn [violated]; intros Hc; try discriminate Hc.
  - rewrite Hc.
    exists (AppMismatch (required cfg "app" JNull) (metadata_field metadata "app" JNull)).
    split; [|reflexivity]. rewrite !in_app_iff. left. left. reflexivity.
  - rewrite Hc.
    exists (DeveloperMismatch (required cfg "developer" JNull)
              (metadata_field metadata "developer" JNull)).
    split; [|reflexivity]. rewrite !in_app_iff. right. left. left. reflexivity.
  - rewrite Hc. exists (MissingRequiredTags (spec_missing_tags cfg metadata)).
    split; [|reflexivity]. rewrite !in_app_iff. right. right. left. left. reflexivity.
  - destruct (spec_missing_pairs cfg post metadata) as [|req_ben others];
      [discriminate Hc|].
    exists (MissingBeneficiary req_ben). split; [|reflexivity].
    rewrite !in_app_iff. right. right. right. left. left. reflexivity.
  - rewrite Hc.
    exists (CountryMismatch (required cfg "country" JNull)
              (metadata_field metadata "country" JNull)).
    split; [|reflexivity].
    rewrite !in_app_iff. right. right. right. right. left. left. reflexivity.
  - destruct (spec_missing_fields cfg metadata) as [|field others]; [discriminate Hc|].
    exists (MissingRequiredField field). split; [|reflexivity].
    rewrite !in_app_iff. right. right. right. right. right. left. left. reflexivity.
  - rewrite Hc. exists BodyTooShort. split; [|reflexivity].
    rewrite !in_app_iff. right. right. right. right. right. right. left. reflexivity.
Qed.

Lemma check_country_refresh (cfg : Config) (metadata merged : json) :
  check_country cfg (refresh_metadata metadata merged) = check_country cfg metadata.
Proof.
  unfold refresh_metadata.
  destruct metadata as [| | | | |fields]; try reflexivity.
  destruct (dict_get fields "beneficiaries"); [|reflexivity].
  unfold check_country, check_field. cbn [py_get].
  rewrite dict_get_set_other by discriminate. reflexivity.
Qed.

(** A reason is found in the block of its own check. *)
Lemma reason_in_its_block (r : reason)
    (app developer tags bens country fields body_length : list reason) :
  only CheckApp app -> only CheckDeveloper developer -> only CheckTags tags ->
  only CheckBeneficiaries bens -> only CheckCountry country ->
  only CheckRequiredFields fields -> only CheckBody body_length ->
  In r (app ++ developer ++ tags ++ bens ++ country ++ fields ++ body_length) ->
  match check_of r with
  | ParseMetadata => False
  | CheckApp => In r app
  | CheckDeveloper => In r developer
  | CheckTags => In r tags
  | CheckBeneficiaries => In r bens
  | CheckCountry => In r country
  | CheckRequiredFields => In r fields
  | CheckBody => In r body_length
  end.
Proof.
  unfold only. rewrite !List.Forall_forall.
  intros Happ Hdev Htags Hbens Hcountry Hfields Hbody Hin.
  repeat (apply in_app_or in Hin as [Hin|Hin]).
  - rewrite (Happ r Hin). exact Hin.
  - rewrite (Hdev r Hin). exact Hin.
  - rewrite (Htags r Hin). exact Hin.
  - rewrite (Hbens r Hin). exact Hin.
  - rewrite (Hcountry r Hin). exact Hin.
  - rewrite (Hfields r Hin). exact Hin.
  - rewrite (Hbody r Hin). exact Hin.
Qed.

(** A block that holds one reason when its check is violated and none
    otherwise holds a reason exactly when the check is violated. *)
Lemma block_iff_violated (b : bool) (x r : reason) :
  In r (if b then [x] else []) -> b = true.
Proof. destruct b; [reflexivity | intros []]. Qed.

(** The checks that read one value of the mapping, and the check of the
    body, report exactly their violations whenever [validate_post] returns,
    whatever the types of the other values are. *)
Lemma single_value_checks_exact (json_loads : string -> option json) (cfg : Config)
    (post post' : Post) (metadata : json) (v : PostValidation) (c : check) :
  load_metadata json_loads (json_metadata post) = Some metadata ->
  validate_post json_loads cfg post = (post', Ok v) ->
  In c [CheckApp; CheckDeveloper; CheckCountry; CheckBody] ->
  (violated cfg post metadata c = true <->
   exists r, In r (reasons v) /\ check_of r = c).
Proof.
  intros Hload Hv Hc.
  destruct (validate_post_returns _ _ _ _ _ _ Hload Hv)
    as (app & developer & tags & merged & bens & country & fields &
        Happ & Hdev & Htags & Hbens & Hcountry & Hfields & Hreasons & _).
  rewrite check_country_refresh in Hcountry.
  pose proof (proj1 (check_field_only AppMismatch CheckApp _ _ _ _
                       (fun _ _ => eq_refl) Happ)) as Oapp.
  pose proof (proj1 (check_field_only DeveloperMismatch CheckDeveloper _ _ _ _
                       (fun _ _ => eq_refl) Hdev)) as Odev.
  pose proof (proj1 (check_tags_only _ _ _ Htags)) as Otags.
  pose proof (check_beneficiaries_only _ _ _ Hbens) as Obens.
  pose proof (proj1 (check_field_only CountryMismatch CheckCountry _ _ _ _
                       (fun _ _ => eq_refl) Hcountry)) as Ocountry.
  pose proof (check_required_fields_only _ _ _ Hfields) as Ofields.
  pose proof (proj1 (check_body_only post)) as Obody.
  assert (Hblocks : forall r,
            In r (reasons v) ->
            match check_of r with
            | ParseMetadata => False
            | CheckApp => In r app
            | CheckDeveloper => In r developer
            | CheckTags => In r tags
            | CheckBeneficiaries => In r bens
            | CheckCountry => In r country
            | CheckRequiredFields => In r fields
            | CheckBody => In r (check_body post)
            end).
  { intros r Hr. rewrite Hreasons in Hr.
    exact (reason_in_its_block r app developer tags bens country fields (check_body post)
             Oapp Odev Otags Obens Ocountry Ofields Obody Hr). }
  assert (Hdict : exists items, metadata = JObj items).
  { unfold check_tags in Htags. apply bind_Ok in Htags as (post_tags & Hget & _).
    destruct metadata; try discriminate Hget. eauto. }
  destruct Hdict as [items ->].
  unfold check_app in Happ. unfold check_developer in Hdev. unfold check_country in Hcountry.
  rewrite check_field_typed in Happ, Hdev, Hcountry.
  injection Happ as Happ. injection Hdev as Hdev. injection Hcountry as Hcountry.
  assert (Hin : forall r block,
            In r block ->
            In block [app; developer; tags; bens; country; fields; check_body post] ->
            In r (reasons v)).
  { intros r block Hr Hblock. rewrite Hreasons, !in_app_iff. cbn [In] in Hblock.
    destruct Hblock as [<-|[<-|[<-|[<-|[<-|[<-|[<-|[]]]]]]]]; tauto. }
  cbn [In] in Hc. destruct Hc as [<-|[<-|[<-|[<-|[]]]]]; cbn [violated]; split.
  - intros Hviolated. rewrite Hviolated in Happ. eexists. split.
    + apply (Hin _ app); [rewrite <- Happ; left; reflexivity | cbn; tauto].
    + reflexivity.
  - intros (r & Hr & Hcheck). specialize (Hblocks r Hr). rewrite Hcheck in Hblocks.
    rewrite <- Happ in Hblocks. exact (block_iff_violated _ _ _ Hblocks).
  - intros Hviolated. rewrite Hviolated in Hdev. eexists. split.
    + apply (Hin _ developer); [rewrite <- Hdev; left; reflexivity | cbn; tauto].
    + reflexivity.
  - intros (r & Hr & Hcheck). specialize (Hblocks r Hr). rewrite Hcheck in Hblocks.
    rewrite <- Hdev in Hblocks. exact (block_iff_violated _ _ _ Hblocks).
  - intros Hviolated. rewrite Hviolated in Hcountry. eexists. split.
    + apply (Hin _ country); [rewrite <- Hcountry; left; reflexivity | cbn; tauto].
    + reflexivity.
  - intros (r & Hr & Hcheck). specialize (Hblocks r Hr). rewrite Hcheck in Hblocks.
    rewrite <- Hcountry in Hblocks. exact (block_iff_violated _ _ _ Hblocks).
  - intros Hviolated. exists BodyTooShort. split; [|reflexivity].
    apply (Hin _ (check_body post)); [|cbn; tauto].
    unfold check_body. unfold body_violated in Hviolated. rewrite Hviolated.
    left. reflexivity.
  - intros (r & Hr & Hcheck). specialize (Hblocks r Hr). rewrite Hcheck in Hblocks.
    unfold check_body in Hblocks. exact (block_iff_violated _ _ _ Hblocks).
Qed.

(** C4.  For a post whose metadata parses (it arrived as a mapping, or its
    text decodes): whenever [validate_post] of [main.py] returns, the seven
    checks have all run and [reasons] is what they appended, in the order
    app, developer, tags, beneficiaries, country, required fields, body
    length, the app, developer, tags, country and body checks giving at most
    one reason each; the app, developer, country and body checks have a
    reason in the list exactly when they are violated; [is_valid] holds
    exactly when the list is empty.  When moreover the values have the types
    of the data model (the metadata a mapping, the tag lists lists, the
    beneficiaries lists of mappings, the required fields keys), and unless
    the metadata's own list of beneficiaries is empty, is filled by the merge
    and is itself a required field, the call does return, the list is the
    one the specification asks for (the missing tags in one reason, one
    reason per missing pair and per missing field), every violated check has
    a reason in it, so it is at least as long as the number of violated
    checks, and the post is valid exactly when no check is violated. *)
Theorem validation_reports_every_violation
    (json_loads : string -> option json) (cfg : Config) (post : Post)
    (metadata : json) :
  parses json_loads post metadata ->
  (forall post' v,
     validate_post json_loads cfg post = (post', Ok v) ->
     (is_valid v = true <-> reasons v = []) /\
     (exists app developer tags bens country fields body_length,
        reasons v = app ++ developer ++ tags ++ bens ++ country ++ fields ++ body_length /\
        (only CheckApp app /\ (length app <= 1)%nat) /\
        (only CheckDeveloper developer /\ (length developer <= 1)%nat) /\
        (only CheckTags tags /\ (length tags <= 1)%nat) /\
        only CheckBeneficiaries bens /\
        (only CheckCountry country /\ (length country <= 1)%nat) /\
        only CheckRequiredFields fields /\
        (only CheckBody body_length /\ (length body_length <= 1)%nat)) /\
     (forall c, In c [CheckApp; CheckDeveloper; CheckCountry; CheckBody] ->
        (violated cfg post metadata c = true <->
         exists r, In r (reasons v) /\ check_of r = c))) /\
  (well_typed cfg post metadata = true ->
   empty_list_filled_by_merge cfg post metadata = false ->
   exists post' v,
     validate_post json_loads cfg post = (post', Ok v) /\
     reasons v = spec_reasons cfg post metadata /\
     (forall c, violated cfg post metadata c = true ->
        exists r, In r (reasons v) /\ check_of r = c) /\
     (violated_checks cfg post metadata <= length (reasons v))%nat /\
     (is_valid v = true <-> violated_checks cfg post metadata = 0%nat)).
Proof.
  intros Hparses. apply parses_load in Hparses. rename Hparses into Hload. split.
  - intros post' v Hv.
    destruct (validate_post_returns _ _ _ _ _ _ Hload Hv)
      as (app & developer & tags & merged & bens & country & fields &
          Happ & Hdev & Htags & Hbens & Hcountry & Hfields & Hreasons & Hvalid & _).
    split; [|split].
    + rewrite Hvalid, Nat.eqb_eq. apply length_zero_iff_nil.
    + exists app, developer, tags, bens, country, fields, (check_body post).
      split; [exact Hreasons|].
      split; [apply (check_field_only AppMismatch CheckApp _ _ _ _ (fun _ _ => eq_refl) Happ)|].
      split; [apply (check_field_only DeveloperMismatch CheckDeveloper _ _ _ _
                      (fun _ _ => eq_refl) Hdev)|].
      split; [apply (check_tags_only _ _ _ Htags)|].
      split; [apply (check_beneficiaries_only _ _ _ Hbens)|].
      split; [apply (check_field_only CountryMismatch CheckCountry _ _ _ _
                      (fun _ _ => eq_refl) Hcountry)|].
      split; [apply (check_required_fields_only _ _ _ Hfields)|].
      apply check_body_only.
    + intros c Hc. exact (single_value_checks_exact _ _ _ _ _ _ c Hload Hv Hc).
  - intros Htyped Hcorner.
    eexists _, _. split; [apply (validate_post_typed _ _ _ _ Hload Htyped Hcorner)|].
    cbn [reasons is_valid].
    split; [reflexivity|]. split; [apply spec_reasons_cover|].
    split; [apply violated_checks_le_reasons|].
    rewrite Nat.eqb_eq, length_zero_iff_nil. symmetry. apply no_violation_no_reason.
Qed.

Lemma validation_reports_every_violation_witness :
  (exists post' v,
     validate_post toy_loads (ecuador_config false 10) text_post = (post', Ok v) /\
     reasons v =
       [AppMismatch (JStr "checkinecuador/1.0.0") JNull;
        DeveloperMismatch (JStr "menobass") JNull;
        MissingRequiredTags [JStr "introduceyourself"; JStr "checkin"];
        CountryMismatch (JStr "Ecuador") JNull;
        MissingRequiredField (JStr "onboarder");
        MissingRequiredField (JStr "image")] /\
     violated_checks (ecuador_config false 10) text_post (JObj []) = 5%nat) /\
  (exists post' v,
     validate_post toy_loads (ecuador_config false 10) wrong_post = (post', Ok v) /\
     reasons v =
       [AppMismatch (JStr "checkinecuador/1.0.0") (JStr "wrong_app");
        DeveloperMismatch (JStr "menobass") (JStr "wrong_developer");
        MissingRequiredTags [JStr "introduceyourself"; JStr "checkin"];
        MissingBeneficiary hiveecuador_8000;
        CountryMismatch (JStr "Ecuador") (JStr "Wrong Country");
        MissingRequiredField (JStr "onboarder");
        MissingRequiredField (JStr "image");
        BodyTooShort] /\
     violated_checks (ecuador_config false 10) wrong_post (json_metadata wrong_post) = 7%nat) /\
  (exists post' v,
     validate_post toy_loads (ecuador_config false 10) text_tags_post = (post', Ok v) /\
     well_typed (ecuador_config false 10) text_tags_post (json_metadata text_tags_post) =
       false /\
     exists r, In r (reasons v) /\ check_of r = CheckApp).
Proof.
  split; [|split].
  - destruct (validation_reports_every_violation toy_loads (ecuador_config false 10)
                text_post (JObj []) eq_refl) as [_ Htyped].
    destruct (Htyped eq_refl eq_refl) as (post' & v & Hv & Hreasons & _).
    exists post', v. split; [exact Hv|]. split; [|reflexivity].
    rewrite Hreasons. reflexivity.
  - destruct (validation_reports_every_violation toy_loads (ecuador_config false 10)
                wrong_post (json_metadata wrong_post) eq_refl) as [_ Htyped].
    destruct (Htyped eq_refl eq_refl) as (post' & v & Hv & Hreasons & _).
    exists post', v. split; [exact Hv|]. split; [|reflexivity].
    rewrite Hreasons. reflexivity.
  - destruct (validation_reports_every_violation toy_loads (ecuador_config false 10)
                text_tags_post (json_metadata text_tags_post) eq_refl) as [Hany _].
    eexists _, _. split; [reflexivity|]. split; [reflexivity|].
    destruct (Hany _ _ eq_refl) as (_ & _ & Hexact).
    apply (Hexact CheckApp); [left; reflexivity | reflexivity].
Defined.

(** The claim without the two conditions fails.  A mapping whose 'tags' is
    [null] parses and violates every check, but ["tag not in post_tags"]
    raises on it: the later checks do not run and no list of reasons is
    returned.  And on typed input with an empty list of its own, the merge
    fills the list that the required-field check reads afterwards: the check
    is violated by the post as it arrived and no reason is given. *)
Lemma violations_without_reasons :
  (parses toy_loads null_tags_post (json_metadata null_tags_post) /\
   violated_checks (ecuador_config false 10) null_tags_post
     (json_metadata null_tags_post) = 7%nat /\
   snd (validate_post toy_loads (ecuador_config false 10) null_tags_post) =
     Raise TypeError) /\
  (parses toy_loads empty_list_post (json_metadata empty_list_post) /\
   well_typed beneficiaries_required empty_list_post (json_metadata empty_list_post) = true /\
   violated beneficiaries_required empty_list_post (json_metadata empty_list_post)
     CheckRequiredFields = true /\
   verdict (snd (validate_post toy_loads beneficiaries_required empty_list_post)) =
     Ok (true, []) /\
   verdict (advanced_validate_post toy_loads beneficiaries_required empty_list_post) =
     Ok (false, [MissingRequiredField (JStr "beneficiaries")])).
Proof.
  repeat split; reflexivity.
Qed.

(** ** Requirements that are not set *)

Lemma check_field_unset (mismatch : json -> json -> reason)
    (required_value metadata : json) (k : string) :
  py_truthy required_value = false ->
  check_field mismatch required_value metadata k = Ok [].
Proof. intros H. unfold check_field. rewrite H. reflexivity. Qed.

Lemma reasons_need_requirement (cfg : Config) (metadata late merged : json) (post : Post)
    (app developer tags bens country fields : list reason) (r : reason) :
  check_app cfg metadata = Ok app ->
  check_developer cfg metadata = Ok developer ->
  check_tags cfg metadata = Ok tags ->
  check_beneficiaries cfg merged = Ok bens ->
  check_country cfg late = Ok country ->
  check_required_fields cfg late = Ok fields ->
  In r (app ++ developer ++ tags ++ bens ++ country ++ fields ++ check_body post) ->
  requirement_set cfg (check_of r).
Proof.
  intros Happ Hdev Htags Hbens Hcountry Hfields Hin.
  assert (Hother : forall c rs, only c rs -> In r rs ->
            c <> CheckApp -> c <> CheckDeveloper -> c <> CheckCountry ->
            requirement_set cfg (check_of r)).
  { intros c rs Honly Hr H1 H2 H3.
    unfold only in Honly. rewrite List.Forall_forall in Honly.
    rewrite (Honly r Hr). destruct c; simpl; auto; contradiction. }
  assert (Hfield : forall mismatch required_value read k rs,
            check_field mismatch required_value read k = Ok rs -> In r rs ->
            py_truthy required_value = true /\ exists got, r = mismatch required_value got).
  { intros mismatch required_value read k rs Hrs Hr.
    apply check_field_shape in Hrs as [->|(Hset & got & ->)]; [destruct Hr|].
    destruct Hr as [<-|[]]. eauto. }
  repeat (apply in_app_or in Hin as [Hin|Hin]).
  - destruct (Hfield _ _ _ _ _ Happ Hin) as (Hset & got & ->). exact Hset.
  - destruct (Hfield _ _ _ _ _ Hdev Hin) as (Hset & got & ->). exact Hset.
  - apply (Hother _ _ (proj1 (check_tags_only _ _ _ Htags)) Hin); discriminate.
  - apply (Hother _ _ (check_beneficiaries_only _ _ _ Hbens) Hin); discriminate.
  - destruct (Hfield _ _ _ _ _ Hcountry Hin) as (Hset & got & ->). exact Hset.
  - apply (Hother _ _ (check_required_fields_only _ _ _ Hfields) Hin); discriminate.
  - apply (Hother _ _ (proj1 (check_body_only post)) Hin); discriminate.
Qed.

Lemma reported_requirement_is_set (json_loads : string -> option json) (cfg : Config)
    (post : Post) :
  (forall post' v,
     validate_post json_loads cfg post = (post', Ok v) ->
     forall r, In r (reasons v) -> requirement_set cfg (check_of r)) /\
  (forall v,
     advanced_validate_post json_loads cfg post = Ok v ->
     forall r, In r (reasons v) -> requirement_set cfg (check_of r)).
Proof.
  destruct (load_metadata json_loads (json_metadata post)) as [metadata|] eqn:Hload.
  - split.
    + intros post' v Hv r Hr.
      destruct (validate_post_returns _ _ _ _ _ _ Hload Hv)
        as (app & developer & tags & merged & bens & country & fields &
            Happ & Hdev & Htags & Hbens & Hcountry & Hfields & Hreasons & _).
      rewrite Hreasons in Hr.
      exact (reasons_need_requirement _ _ _ _ _ _ _ _ _ _ _ _
               Happ Hdev Htags Hbens Hcountry Hfields Hr).
    + intros v Hv r Hr.
      destruct (advanced_validate_post_returns _ _ _ _ _ Hload Hv)
        as (app & developer & tags & pb & bens & country & fields &
            Happ & Hdev & Htags & Hbens & Hcountry & Hfields & Hreasons & _).
      rewrite Hreasons in Hr.
      exact (reasons_need_requirement _ _ _ _ _ _ _ _ _ _ _ _
               Happ Hdev Htags Hbens Hcountry Hfields Hr).
  - unfold validate_post, advanced_validate_post. rewrite Hload. split.
    + intros post' v [= _ <-] r [<-|[]]. exact I.
    + intros v [= <-] r [<-|[]]. exact I.
Qed.

(** C10.  When the configured value of [app], [developer] or [country] is
    falsy (the key is absent, or its value is [None] or the empty string,
    among others), the check returns without a reason on any metadata and
    without looking at it, and no run of [validate_post], in either variant,
    reports a mismatch for that key, whatever the metadata of the post
    holds. *)
Theorem unset_requirement_is_skipped
    (json_loads : string -> option json) (cfg : Config) (k : string) :
  py_truthy (required cfg k JNull) = false ->
  (forall mismatch metadata,
     check_field mismatch (required cfg k JNull) metadata k = Ok []) /\
  (forall post c,
     (k, c) = ("app", CheckApp) \/ (k, c) = ("developer", CheckDeveloper) \/
     (k, c) = ("country", CheckCountry) ->
     (forall post' v,
        validate_post json_loads cfg post = (post', Ok v) ->
        forall r, In r (reasons v) -> check_of r <> c) /\
     (forall v,
        advanced_validate_post json_loads cfg post = Ok v ->
        forall r, In r (reasons v) -> check_of r <> c)) /\
  (dict_get (required_metadata cfg) k = None \/
   dict_get (required_metadata cfg) k = Some JNull \/
   dict_get (required_metadata cfg) k = Some (JStr "") \/
   exists v, dict_get (required_metadata cfg) k = Some v /\ py_truthy v = false).
Proof.
  intros Hunset. split; [intros; apply check_field_unset, Hunset|]. split.
  - intros post c Hkc.
    destruct (reported_requirement_is_set json_loads cfg post) as [Hmain Hadvanced].
    assert (Hno : forall r, requirement_set cfg (check_of r) -> check_of r <> c).
    { intros r Hset Hc. rewrite Hc in Hset.
      destruct Hkc as [[= -> ->]|[[= -> ->]|[= -> ->]]];
        simpl in Hset; congruence. }
    split.
    + intros post' v Hv r Hr. exact (Hno r (Hmain post' v Hv r Hr)).
    + intros v Hv r Hr. exact (Hno r (Hadvanced v Hv r Hr)).
  - unfold required in Hunset.
    destruct (dict_get (required_metadata cfg) k) as [v|]; [|auto].
    right. right. right. eauto.
Qed.

Lemma unset_requirement_is_skipped_witness :
  let cfg := lenient_config in
  let post := sample_post "hola" (checkin_metadata []) (JArr []) (JArr []) in
  (forall metadata,
     check_field AppMismatch (required cfg "app" JNull) metadata "app" = Ok []) /\
  (exists post' v,
     validate_post toy_loads cfg post = (post', Ok v) /\
     metadata_field (json_metadata post) "app" JNull <> required cfg "app" JNull /\
     forall r, In r (reasons v) -> check_of r <> CheckApp).
Proof.
  intros cfg post.
  destruct (unset_requirement_is_skipped toy_loads cfg "app" eq_refl)
    as (Hcheck & Hnever & _).
  split; [intros metadata; apply Hcheck|].
  destruct (Hnever post CheckApp (or_introl eq_refl)) as [Hmain _].
  eexists _, _. split; [reflexivity|]. split; [discriminate|].
  apply (Hmain _ _ eq_refl).
Defined.

(** * Further properties of the store and of the processor *)

(** ** Recording and looking up *)

Lemma filter_filter_implied {A : Type} (f g : A -> bool) (l : list A) :
  (forall x, f x = true -> g x = true) ->
  List.filter f (List.filter g l) = List.filter f l.
Proof.
  intros Himp. induction l as [|x l IH]; simpl; [reflexivity|].
  destruct (g x) eqn:G; simpl.
  - rewrite IH. reflexivity.
  - destruct (f x) eqn:F; [|exact IH].
    apply Himp in F. congruence.
Qed.

Lemma record_other_key (now a p a' p' : string) (sent : Q) (upvoted commented : bool)
    (db : Database) :
  (a', p') <> (a, p) ->
  List.filter (row_is a' p')
    (processed_posts (record_processed_post now a p sent upvoted commented db)) =
  List.filter (row_is a' p') (processed_posts db).
Proof.
  intros Hne. unfold record_processed_post. cbn [processed_posts].
  rewrite List.filter_app. cbn [List.filter].
  replace (row_is a' p' _) with false.
  - rewrite app_nil_r. apply filter_filter_implied.
    intros r Hr. apply row_is_key in Hr.
    destruct (row_is a p r) eqn:E; [|reflexivity].
    apply row_is_key in E. congruence.
  - symmetry. destruct (row_is a' p' _) eqn:E; [|reflexivity].
    apply row_is_key in E. unfold row_key in E. simpl in E. congruence.
Qed.

Lemma record_found (now a p : string) (sent : Q) (upvoted commented : bool)
    (db : Database) :
  is_post_processed a p (record_processed_post now a p sent upvoted commented db) = true.
Proof. unfold is_post_processed. rewrite record_replaces. reflexivity. Qed.

Lemma record_other_lookup (now a p a' p' : string) (sent : Q)
    (upvoted commented : bool) (db : Database) :
  (a', p') <> (a, p) ->
  is_post_processed a' p' (record_processed_post now a p sent upvoted commented db) =
    is_post_processed a' p' db.
Proof.
  intros Hne. unfold is_post_processed.
  rewrite (record_other_key _ _ _ _ _ _ _ _ _ Hne). reflexivity.
Qed.

(** X1.  A post that has been recorded is found by [is_post_processed]; the
    answer for every other pair (author, permlink) is what it was, and the
    two counter tables are not touched. *)
Theorem record_then_lookup (now a p : string) (sent : Q) (upvoted commented : bool)
    (db : Database) :
  let db' := record_processed_post now a p sent upvoted commented db in
  is_post_processed a p db' = true /\
  (forall a' p', (a', p') <> (a, p) ->
     is_post_processed a' p' db' = is_post_processed a' p' db) /\
  daily_stats db' = daily_stats db /\
  daily_transfers db' = daily_transfers db.
Proof.
  intros db'. subst db'. split; [apply record_found|].
  split; [intros a' p'; apply record_other_lookup|]. split; reflexivity.
Qed.

Lemma record_keeps_processed (now a p a' p' : string) (sent : Q)
    (upvoted commented : bool) (db : Database) :
  is_post_processed a' p' db = true ->
  is_post_processed a' p' (record_processed_post now a p sent upvoted commented db) = true.
Proof.
  intros Hseen.
  destruct (decide ((a', p') = (a, p))) as [[= -> ->]|Hne]; [apply record_found|].
  rewrite (record_other_lookup _ _ _ _ _ _ _ _ _ Hne). exact Hseen.
Qed.

Lemma process_post_keeps_processed (json_loads : string -> option json) (cfg : Config)
    (lib : library) (env : Env) (post : Post) (db : Database) (a p : string) :
  is_post_processed a p db = true ->
  is_post_processed a p (db_after (process_post json_loads cfg lib env post db)) = true.
Proof.
  intros Hseen. unfold process_post.
  destruct (validate_post json_loads cfg post) as [post' [v|e]]; cbn [db_after];
    [|exact Hseen].
  destruct (is_valid v); cbn [negb db_after]; [|exact Hseen].
  unfold is_post_processed. rewrite processed_posts_update.
  apply (record_keeps_processed _ _ _ _ _ _ _ _ _ Hseen).
Qed.

Lemma process_posts_keep_processed (json_loads : string -> option json) (cfg : Config)
    (lib : library) (envs : nat -> Env) (posts : list Post) (a p : string) :
  forall i db,
    is_post_processed a p db = true ->
    is_post_processed a p (process_posts json_loads cfg lib envs i posts db) = true.
Proof.
  induction posts as [|post rest IH]; intros i db Hseen; simpl; [exact Hseen|].
  apply IH, process_post_keeps_processed, Hseen.
Qed.

Lemma run_cycle_keeps_processed (json_loads : string -> option json)
    (strptime : string -> option Z) (cfg : Config) (lib : library)
    (db : Database) (c : Cycle) (a p : string) :
  is_post_processed a p db = true ->
  is_post_processed a p (run_cycle json_loads strptime cfg lib db c) = true.
Proof.
  intros Hseen. unfold run_cycle, monitor_community.
  destruct (feed c) as [response|]; [|exact Hseen].
  destruct (select_posts strptime (clock c) db response) as [posts|].
  - apply process_posts_keep_processed, Hseen.
  - exact Hseen.
Qed.

(** X2.  Once a post has a row it keeps one through every later cycle, and no
    later call of [monitor_community] hands it over again. *)
Theorem processed_stays_processed
    (json_loads : string -> option json) (strptime : string -> option Z)
    (cfg : Config) (lib : library) (db : Database) (a p : string)
    (cycles : list Cycle) :
  is_post_processed a p db = true ->
  let later := run_on json_loads strptime cfg lib db cycles in
  is_post_processed a p later = true /\
  forall c post,
    In post (fst (monitor_community strptime c later)) ->
    ~ (author post = a /\ permlink post = p).
Proof.
  intros Hseen later.
  assert (Hlater : is_post_processed a p later = true).
  { subst later. unfold run_on. revert db Hseen.
    induction cycles as [|c cycles IH]; intros db Hseen; simpl; [exact Hseen|].
    apply IH, run_cycle_keeps_processed, Hseen. }
  split; [exact Hlater|].
  intros c post Hin [Ha Hp]. unfold monitor_community in Hin.
  destruct (feed c) as [response|]; [|destruct Hin].
  destruct (select_posts strptime (clock c) later response) as [posts|] eqn:Hsel;
    [|destruct Hin].
  pose proof (select_posts_unprocessed _ _ _ _ _ Hsel post Hin) as Hfresh.
  rewrite Ha, Hp in Hfresh. congruence.
Qed.

Lemma processed_stays_processed_witness :
  let db := run toy_loads toy_strptime (ecuador_config false 10) Lighthive
              [sample_cycle ["hola"]] in
  is_post_processed "testuser" "hola"
    (run_on toy_loads toy_strptime (ecuador_config false 10) Lighthive db
       [sample_cycle ["adios"; "hola"]; sample_cycle ["hola"]]) = true.
Proof.
  intros db.
  apply (processed_stays_processed toy_loads toy_strptime (ecuador_config false 10)
           Lighthive db "testuser" "hola").
  reflexivity.
Defined.

(** ** What [process_post] returns *)

(** X3.  [process_post] returns [True] exactly for a post that passes
    validation, and then the post is marked processed and counted once for
    the day, whatever the three actions did, also when all of them failed.
    When it returns [False] no action was called and [processed_posts] is as
    before. *)
Theorem processed_iff_valid
    (json_loads : string -> option json) (cfg : Config) (lib : library)
    (env : Env) (post : Post) (db : Database) :
  let r := process_post json_loads cfg lib env post db in
  (returned r = true <->
   exists v, snd (validate_post json_loads cfg post) = Ok v /\ is_valid v = true) /\
  (returned r = true ->
   is_post_processed (author post) (permlink post) (db_after r) = true /\
   coalesce posts_processed (daily_stats (db_after r) !! env_today_stats env) 0%Z =
     (coalesce posts_processed (daily_stats db !! env_today_stats env) 0 + 1)%Z /\
   length (calls r) = 3%nat) /\
  (returned r = false ->
   processed_posts (db_after r) = processed_posts db /\ calls r = []).
Proof.
  intros r. subst r. unfold process_post.
  destruct (validate_post json_loads cfg post) as [post' [v|e]] eqn:Hv; cbn [snd].
  - destruct (is_valid v) eqn:Hvalid; cbn [negb returned db_after calls].
    + split; [split; [eauto | reflexivity]|]. split; [|discriminate].
      intros _. split; [|split; [|reflexivity]].
      * unfold is_post_processed. rewrite processed_posts_update, record_replaces.
        reflexivity.
      * unfold update_daily_stats. cbn [daily_stats].
        rewrite lookup_insert_eq. reflexivity.
    + split; [split; [discriminate | intros (v' & [= <-] & Hv'); congruence]|].
      split; [discriminate | auto].
  - cbn [returned db_after calls].
    split; [split; [discriminate | intros (v' & Hv' & _); discriminate Hv']|].
    split; [discriminate | auto].
Qed.

Lemma processed_iff_valid_witness :
  let post := sample_post "hola" (checkin_metadata [hiveecuador_8000]) (JArr []) (JArr []) in
  let env := {| env_comment := Failed; env_today_gate := "2025-01-01";
                env_balance := 0; env_transfer := Failed; env_vote := Failed;
                env_now := "2025-01-01 00:00:05"; env_today_stats := "2025-01-01" |} in
  let r := process_post toy_loads (ecuador_config false 10) Lighthive env post
             init_database in
  map row_outcome (processed_posts (db_after r)) = [(false, 0%Q, false)] /\
  is_post_processed "testuser" "hola" (db_after r) = true.
Proof.
  intros post env r. split; [reflexivity|].
  apply (processed_iff_valid toy_loads (ecuador_config false 10) Lighthive env post
           init_database).
  reflexivity.
Defined.

(** ** Validation that raises *)

Lemma Qplus_0_r_eq (q : Q) : (q + 0)%Q = q.
Proof.
  destruct q as [n d]. unfold Qplus. simpl.
  rewrite Pos.mul_1_r. f_equal. lia.
Qed.

Lemma non_mapping_metadata_raises (json_loads : string -> option json) (cfg : Config)
    (post : Post) (metadata : json) :
  load_metadata json_loads (json_metadata post) = Some metadata ->
  is_dict metadata = false ->
  validate_post json_loads cfg post = (post, Raise AttributeError).
Proof.
  intros Hload Hdict. unfold validate_post. rewrite Hload.
  assert (Hget : forall k d, py_get metadata k d = Raise AttributeError)
    by (intros k d; destruct metadata; try reflexivity; discriminate Hdict).
  assert (Hfield : forall mismatch required_value k,
            check_field mismatch required_value metadata k = Ok [] \/
            check_field mismatch required_value metadata k = Raise AttributeError).
  { intros mismatch required_value k. unfold check_field.
    destruct (py_truthy required_value); [right | left; reflexivity].
    rewrite Hget. reflexivity. }
  unfold check_app, check_developer.
  destruct (Hfield AppMismatch (required cfg "app" JNull) "app") as [->| ->];
    [|reflexivity].
  destruct (Hfield DeveloperMismatch (required cfg "developer" JNull) "developer")
    as [->| ->]; [|reflexivity].
  unfold check_tags. rewrite Hget. reflexivity.
Qed.

(** X4.  A post whose metadata is, or decodes to, something that is not a
    mapping makes [validate_post] raise; [process_post] then returns [False],
    calls no action, writes no row, and counts one error for the day and
    nothing else. *)
Theorem non_mapping_metadata_counts_error
    (json_loads : string -> option json) (cfg : Config) (lib : library)
    (env : Env) (post : Post) (db : Database) (metadata : json) :
  load_metadata json_loads (json_metadata post) = Some metadata ->
  is_dict metadata = false ->
  let r := process_post json_loads cfg lib env post db in
  let today := env_today_stats env in
  let s := daily_stats db !! today in
  let s' := daily_stats (db_after r) !! today in
  returned r = false /\ calls r = [] /\ post_after r = post /\
  processed_posts (db_after r) = processed_posts db /\
  coalesce errors s' 0%Z = (coalesce errors s 0 + 1)%Z /\
  coalesce posts_processed s' 0%Z = coalesce posts_processed s 0%Z /\
  coalesce hbd_sent s' 0%Q = coalesce hbd_sent s 0%Q /\
  coalesce upvotes_given s' 0%Z = coalesce upvotes_given s 0%Z /\
  (forall day, current_count day (db_after r) = current_count day db) /\
  (forall day, day <> today ->
     daily_stats (db_after r) !! day = daily_stats db !! day).
Proof.
  intros Hload Hdict r today s s'. subst r s'.
  unfold process_post. rewrite (non_mapping_metadata_raises _ _ _ _ Hload Hdict).
  cbn [returned calls post_after db_after].
  repeat (split; [reflexivity|]).
  unfold update_daily_stats at 1 2 3 4. cbn [daily_stats].
  rewrite lookup_insert_eq. cbn [coalesce errors posts_processed hbd_sent upvotes_given].
  fold today s.
  split; [reflexivity|]. split; [lia|]. split; [apply Qplus_0_r_eq|]. split; [lia|].
  split.
  - intros day. rewrite current_count_update. change (Qlt_bool 0 0) with false.
    cbv iota. destruct (decide (today = day)) as [<-|]; [lia | reflexivity].
  - intros day Hne. unfold update_daily_stats. cbn [daily_stats].
    apply lookup_insert_ne. congruence.
Qed.

Lemma non_mapping_metadata_counts_error_witness :
  let post := sample_post "hola" (JArr []) (JArr []) (JArr []) in
  let r := process_post toy_loads (ecuador_config false 10) Lighthive
             (sample_env Accepted 50) post one_transfer_today in
  returned r = false /\
  coalesce errors (daily_stats (db_after r) !! "2025-01-01") 0%Z = 1%Z.
Proof.
  intros post r.
  destruct (non_mapping_metadata_counts_error toy_loads
              (ecuador_config false 10) Lighthive (sample_env Accepted 50) post
              one_transfer_today (JArr []) eq_refl eq_refl)
    as (Hret & _ & _ & _ & Herr & _).
  split; [exact Hret | exact Herr].
Defined.

(** ** What [monitor_community] hands over *)

Lemma select_posts_spec (strptime : string -> option Z) (now : Z) (db : Database)
    (response : list FeedEntry) :
  select_posts strptime now db response =
    if existsb (unreadable strptime db) response then None
    else Some (map make_post (List.filter (deliverable strptime now db) response)).
Proof.
  induction response as [|e rest IH]; [reflexivity|].
  cbn [select_posts existsb List.filter]. unfold unreadable at 1, deliverable at 1.
  destruct (is_post_processed (fe_author e) (fe_permlink e) db); cbn [negb andb orb];
    [exact IH|].
  destruct (strptime (fe_created e)) as [created_time|]; cbn [orb]; [|reflexivity].
  destruct (now - created_time >? freshness_window)%Z; cbn [negb]; [exact IH|].
  rewrite IH. destruct (existsb (unreadable strptime db) rest); reflexivity.
Qed.

(** X5.  When every timestamp that is read can be read, [monitor_community]
    hands over exactly the entries that have no row yet and were created at
    most 24 hours before the clock, in the order of the feed, and leaves the
    database alone.  An entry aged exactly 24 hours is still handed over. *)
Theorem monitor_community_delivers (strptime : string -> option Z) (c : Cycle)
    (db : Database) (response : list FeedEntry) :
  feed c = Some response ->
  existsb (unreadable strptime db) response = false ->
  monitor_community strptime c db =
    (map make_post (List.filter (deliverable strptime (clock c) db) response), db) /\
  (forall e created_time,
     strptime (fe_created e) = Some created_time ->
     (deliverable strptime (clock c) db e = true <->
      is_post_processed (fe_author e) (fe_permlink e) db = false /\
      (clock c - created_time <= 86400000000)%Z)).
Proof.
  intros Hfeed Hreadable. split.
  - unfold monitor_community. rewrite Hfeed, select_posts_spec, Hreadable. reflexivity.
  - intros e created_time Hcreated. unfold deliverable, freshness_window.
    rewrite Hcreated, andb_true_iff, !negb_true_iff, Z.gtb_ltb, Z.ltb_ge. reflexivity.
Qed.

Lemma monitor_community_delivers_witness :
  let old := {| fe_author := "testuser"; fe_permlink := "vieja";
                fe_title := ""; fe_body := ""; fe_created := "2024-12-30T00:00:00";
                fe_json_metadata := None; fe_extensions := None;
                fe_beneficiaries := None |} in
  let strptime := fun s => if String.eqb s "2024-12-30T00:00:00"
                           then Some (-172800000000)%Z else Some 0%Z in
  let c := {| feed := Some [sample_entry "hola"; old; sample_entry "adios"];
              clock := 86400000000; today_fetch_error := "2025-01-02";
              env_of := fun _ => sample_env Accepted 50 |} in
  let db := run toy_loads toy_strptime (ecuador_config true 10) Lighthive
              [sample_cycle ["hola"]] in
  monitor_community strptime c db = ([make_post (sample_entry "adios")], db).
Proof.
  intros old strptime c db.
  destruct (monitor_community_delivers strptime c db
              [sample_entry "hola"; old; sample_entry "adios"] eq_refl eq_refl)
    as [Hdelivered _].
  rewrite Hdelivered. reflexivity.
Defined.

(** X6.  One entry without a row whose timestamp cannot be read makes the
    whole cycle count one error and do nothing else: no post of that answer
    is processed, also not the readable ones in front of it.  An answer that
    is missing changes nothing, not even the error counter. *)
Theorem unreadable_entry_drops_the_batch
    (json_loads : string -> option json) (strptime : string -> option Z)
    (cfg : Config) (lib : library) (db : Database) (c : Cycle) :
  (forall response,
     feed c = Some response ->
     existsb (unreadable strptime db) response = true ->
     monitor_community strptime c db =
       ([], update_daily_stats (today_fetch_error c) 0 0 0 1 db) /\
     run_cycle json_loads strptime cfg lib db c =
       update_daily_stats (today_fetch_error c) 0 0 0 1 db) /\
  (feed c = None ->
   monitor_community strptime c db = ([], db) /\
   run_cycle json_loads strptime cfg lib db c = db).
Proof.
  split.
  - intros response Hfeed Hbad.
    assert (Hm : monitor_community strptime c db =
                 ([], update_daily_stats (today_fetch_error c) 0 0 0 1 db))
      by (unfold monitor_community; rewrite Hfeed, select_posts_spec, Hbad; reflexivity).
    split; [exact Hm|]. unfold run_cycle. rewrite Hm. reflexivity.
  - intros Hfeed.
    assert (Hm : monitor_community strptime c db = ([], db))
      by (unfold monitor_community; rewrite Hfeed; reflexivity).
    split; [exact Hm|]. unfold run_cycle. rewrite Hm. reflexivity.
Qed.

Lemma unreadable_entry_drops_the_batch_witness :
  let bad := {| fe_author := "testuser"; fe_permlink := "rota";
                fe_title := ""; fe_body := ""; fe_created := "ayer";
                fe_json_metadata := None; fe_extensions := None;
                fe_beneficiaries := None |} in
  let strptime := fun s => if String.eqb s "ayer" then None else Some 0%Z in
  let c := {| feed := Some [sample_entry "hola"; bad]; clock := 5000000;
              today_fetch_error := "2025-01-01";
              env_of := fun _ => sample_env Accepted 50 |} in
  run_cycle toy_loads strptime (ecuador_config true 10) Lighthive init_database c =
    update_daily_stats "2025-01-01" 0 0 0 1 init_database.
Proof.
  intros bad strptime c.
  destruct (unreadable_entry_drops_the_batch toy_loads strptime
              (ecuador_config true 10) Lighthive init_database c) as [Hbad _].
  destruct (Hbad [sample_entry "hola"; bad] eq_refl eq_refl) as [_ Hcycle].
  exact Hcycle.
Defined.

(** ** What [process_post] does not read *)

Lemma send_hbd_transfer_reads_transfers (cfg : Config) (lib : library) (env : Env)
    (db1 db2 : Database) :
  daily_transfers db1 = daily_transfers db2 ->
  send_hbd_transfer cfg lib env db1 = send_hbd_transfer cfg lib env db2.
Proof.
  intros Ht. unfold send_hbd_transfer, can_send_transfer_today, current_count.
  rewrite Ht. reflexivity.
Qed.

(** X7.  [process_post] never looks at [processed_posts]: on two databases
    with the same counter tables it calls the same actions, returns the same
    answer and leaves the same counter tables, whether or not the post has a
    row already.  Keeping a post from being processed twice is left to the
    filter of [monitor_community]. *)
Theorem process_post_ignores_processed_posts
    (json_loads : string -> option json) (cfg : Config) (lib : library)
    (env : Env) (post : Post) (db1 db2 : Database) :
  daily_stats db1 = daily_stats db2 ->
  daily_transfers db1 = daily_transfers db2 ->
  let r1 := process_post json_loads cfg lib env post db1 in
  let r2 := process_post json_loads cfg lib env post db2 in
  calls r1 = calls r2 /\ returned r1 = returned r2 /\ post_after r1 = post_after r2 /\
  daily_stats (db_after r1) = daily_stats (db_after r2) /\
  daily_transfers (db_after r1) = daily_transfers (db_after r2).
Proof.
  intros Hs Ht r1 r2. subst r1 r2. unfold process_post.
  destruct (validate_post json_loads cfg post) as [post' [v|e]].
  - destruct (is_valid v); cbn [negb calls returned post_after db_after]; [|auto].
    rewrite (send_hbd_transfer_reads_transfers cfg lib env db1 db2 Ht).
    unfold update_daily_stats, record_processed_post.
    cbn [daily_stats daily_transfers]. rewrite Hs, Ht. auto.
  - cbn [calls returned post_after db_after].
    unfold update_daily_stats. cbn [daily_stats daily_transfers]. rewrite Hs, Ht. auto.
Qed.

Lemma process_post_ignores_processed_posts_witness :
  let post := sample_post "hola" (checkin_metadata [hiveecuador_8000]) (JArr []) (JArr []) in
  let cfg := ecuador_config false 10 in
  let env := sample_env Accepted 50 in
  let seen := record_processed_post "2025-01-01 00:00:01" "testuser" "hola" 1 true true
                init_database in
  is_post_processed "testuser" "hola" seen = true /\
  calls (process_post toy_loads cfg Lighthive env post seen) =
    calls (process_post toy_loads cfg Lighthive env post init_database).
Proof.
  intros post cfg env seen. split; [reflexivity|].
  apply (process_post_ignores_processed_posts toy_loads cfg Lighthive env post
           seen init_database); reflexivity.
Defined.

(** ** Invariants of the counter tables *)

(** The three ways [process_post] leaves the database. *)
Lemma process_post_db_cases (json_loads : string -> option json) (cfg : Config)
    (lib : library) (env : Env) (post : Post) (db : Database) :
  let db' := db_after (process_post json_loads cfg lib env post db) in
  db' = db \/
  db' = update_daily_stats (env_today_stats env) 0 0 0 1 db \/
  exists (sent : Q) (upvoted commented : bool),
    (sent = transfer_amount cfg \/ sent = 0%Q) /\
    db' = update_daily_stats (env_today_stats env) 1 sent (if upvoted then 1 else 0) 0
            (record_processed_post (env_now env) (author post) (permlink post)
               sent upvoted commented db).
Proof.
  unfold process_post.
  destruct (validate_post json_loads cfg post) as [post' [v|e]]; cbn [db_after]; [|auto].
  destruct (is_valid v); cbn [negb db_after]; [|auto].
  right. right.
  exists (if send_hbd_transfer cfg lib env db then transfer_amount cfg else 0%Q),
         (upvote_post cfg lib env), (send_welcome_comment cfg lib env).
  split; [|reflexivity].
  destruct (send_hbd_transfer cfg lib env db); auto.
Qed.

(** A property of databases that holds at the start and is kept by the two
    writes of the bot holds in every reachable database. *)
Lemma reachable_ind_writes (json_loads : string -> option json) (cfg : Config)
    (lib : library) (admissible : Env -> Prop) (P : Database -> Prop) :
  P init_database ->
  (forall db today processed sent upvotes errs,
     P db ->
     (processed, sent, upvotes, errs) = (0%Z, 0%Q, 0%Z, 1%Z) \/
     (processed = 1%Z /\ (sent = transfer_amount cfg \/ sent = 0%Q) /\
      (upvotes = 0%Z \/ upvotes = 1%Z) /\ errs = 0%Z) ->
     P (update_daily_stats today processed sent upvotes errs db)) ->
  (forall db now a p sent upvoted commented,
     P db -> P (record_processed_post now a p sent upvoted commented db)) ->
  forall db, reachable json_loads cfg lib admissible db -> P db.
Proof.
  intros Hinit Hupdate Hrecord db Hdb.
  induction Hdb as [|db env post _ IH _|db today _ IH]; [exact Hinit| |].
  - destruct (process_post_db_cases json_loads cfg lib env post db)
      as [->|[->|(sent & upvoted & commented & Hsent & ->)]]; [exact IH| |].
    + apply Hupdate; auto.
    + apply Hupdate; [apply Hrecord, IH|]. right.
      repeat split; auto. destruct upvoted; auto.
  - apply Hupdate; auto.
Qed.

Lemma update_stats_lookup (today day : string) (processed : Z) (sent : Q)
    (upvotes errs : Z) (db : Database) :
  daily_stats (update_daily_stats today processed sent upvotes errs db) !! day =
    if decide (today = day)
    then Some {| posts_processed :=
                   (coalesce posts_processed (daily_stats db !! today) 0 + processed)%Z;
                 hbd_sent := (coalesce hbd_sent (daily_stats db !! today) 0 + sent)%Q;
                 upvotes_given :=
                   (coalesce upvotes_given (daily_stats db !! today) 0 + upvotes)%Z;
                 errors := (coalesce errors (daily_stats db !! today) 0 + errs)%Z |}
    else daily_stats db !! day.
Proof. unfold update_daily_stats. cbn [daily_stats]. apply lookup_insert. Qed.

Lemma update_transfers_lookup (today day : string) (processed : Z) (sent : Q)
    (upvotes errs : Z) (db : Database) :
  daily_transfers (update_daily_stats today processed sent upvotes errs db) !! day =
    if decide (today = day)
    then Some {| transfer_count :=
                   (coalesce transfer_count (daily_transfers db !! today) 0 +
                    (if Qlt_bool 0 sent then 1 else 0))%Z;
                 total_amount :=
                   (coalesce total_amount (daily_transfers db !! today) 0 + sent)%Q |}
    else daily_transfers db !! day.
Proof. unfold update_daily_stats. cbn [daily_transfers]. apply lookup_insert. Qed.

(** X8.  The two counter tables stay in step: in every reachable database a
    date has a row in [daily_stats] exactly when it has one in
    [daily_transfers], and [hbd_sent] of the one is [total_amount] of the
    other. *)
Theorem counter_tables_in_step
    (json_loads : string -> option json) (cfg : Config) (lib : library)
    (db : Database) :
  reachable json_loads cfg lib (fun _ => True) db ->
  forall day,
    (daily_stats db !! day = None <-> daily_transfers db !! day = None) /\
    coalesce hbd_sent (daily_stats db !! day) 0%Q =
      coalesce total_amount (daily_transfers db !! day) 0%Q.
Proof.
  intros Hdb. pattern db.
  eapply reachable_ind_writes; [ | | | exact Hdb]; clear db Hdb; cbv beta.
  - intros day. unfold init_database. cbn [daily_stats daily_transfers].
    rewrite !lookup_empty. split; [tauto | reflexivity].
  - intros db today processed sent upvotes errs IH _ day.
    rewrite update_stats_lookup, update_transfers_lookup.
    destruct (decide (today = day)) as [_|_]; [|apply IH].
    split; [split; discriminate|]. cbn [coalesce hbd_sent total_amount].
    destruct (IH today) as [_ ->]. reflexivity.
  - intros db now a p sent upvoted commented IH. exact IH.
Qed.

Lemma counter_tables_in_step_witness :
  coalesce hbd_sent
    (daily_stats (run toy_loads toy_strptime (ecuador_config false 1) Lighthive
                    [sample_cycle ["hola"; "adios"]]) !! "2025-01-01") 0%Q =
  coalesce total_amount
    (daily_transfers (run toy_loads toy_strptime (ecuador_config false 1) Lighthive
                        [sample_cycle ["hola"; "adios"]]) !! "2025-01-01") 0%Q.
Proof.
  apply (counter_tables_in_step toy_loads (ecuador_config false 1) Lighthive).
  apply run_reachable. intros c _ i. exact I.
Defined.

(** X9.  In every reachable database, for every date, no counter is negative
    and neither the transfers nor the upvotes outnumber the posts processed
    that day. *)
Theorem counters_bounded_by_posts
    (json_loads : string -> option json) (cfg : Config) (lib : library)
    (db : Database) :
  reachable json_loads cfg lib (fun _ => True) db ->
  forall day,
    let s := daily_stats db !! day in
    (0 <= current_count day db <= coalesce posts_processed s 0)%Z /\
    (0 <= coalesce upvotes_given s 0 <= coalesce posts_processed s 0)%Z /\
    (0 <= coalesce errors s 0)%Z.
Proof.
  intros Hdb. pattern db.
  eapply reachable_ind_writes; [ | | | exact Hdb]; clear db Hdb; cbv beta.
  - intros day. unfold current_count, init_database.
    cbn [daily_stats daily_transfers]. rewrite !lookup_empty. cbn. lia.
  - intros db today processed sent upvotes errs IH Hargs day. cbv zeta.
    rewrite current_count_update, update_stats_lookup.
    destruct (decide (today = day)) as [_|_]; [|apply IH].
    cbn [coalesce posts_processed upvotes_given errors].
    specialize (IH today). cbv zeta in IH.
    destruct Hargs as [[= -> -> -> ->]|(-> & Hsent & Hup & ->)].
    + change (Qlt_bool 0 0) with false. cbv iota. lia.
    + destruct (Qlt_bool 0 sent); destruct Hup as [-> | ->]; lia.
  - intros db now a p sent upvoted commented IH. exact IH.
Qed.

Lemma counters_bounded_by_posts_witness :
  let db := run toy_loads toy_strptime (ecuador_config false 1) Lighthive
              [sample_cycle ["hola"; "adios"]] in
  (0 <= current_count "2025-01-01" db
     <= coalesce posts_processed (daily_stats db !! "2025-01-01") 0)%Z.
Proof.
  intros db.
  apply (counters_bounded_by_posts toy_loads (ecuador_config false 1) Lighthive db).
  apply run_reachable. intros c _ i. exact I.
Defined.

Lemma transfer_counters_signs
    (json_loads : string -> option json) (cfg : Config) (lib : library)
    (db : Database) :
  reachable json_loads cfg lib (fun _ => True) db ->
  forall day,
    (0 <= current_count day db)%Z /\
    ((0 < transfer_amount cfg)%Q ->
     (0 <= coalesce total_amount (daily_transfers db !! day) 0)%Q /\
     (current_count day db = 0%Z <->
      (coalesce total_amount (daily_transfers db !! day) 0 == 0)%Q)) /\
    (~ (0 < transfer_amount cfg)%Q -> current_count day db = 0%Z).
Proof.
  intros Hdb. pattern db.
  eapply reachable_ind_writes; [ | | | exact Hdb]; clear db Hdb; cbv beta.
  - intros day. unfold current_count, init_database.
    cbn [daily_stats daily_transfers]. rewrite !lookup_empty. cbn.
    split; [lia|]. split; [|reflexivity].
    intros _. split; [apply Qle_refl | split; reflexivity].
  - intros db today processed sent upvotes errs IH Hargs day.
    rewrite current_count_update, update_transfers_lookup.
    destruct (decide (today = day)) as [_|_]; [|apply IH].
    cbn [coalesce total_amount].
    destruct (IH today) as (IHcount & IHpos & IHnonpos).
    assert (Hsent : sent = transfer_amount cfg \/ sent = 0%Q)
      by (destruct Hargs as [[= _ -> _ _]|(_ & Hs & _)]; auto).
    destruct Hsent as [-> | ->].
    + destruct (Qlt_bool 0 (transfer_amount cfg)) eqn:Hb.
      * apply Qlt_bool_iff in Hb. split; [lia|]. split; [|contradiction].
        intros _. destruct (IHpos Hb) as [Htotal _].
        assert (Hgrows : (0 < coalesce total_amount (daily_transfers db !! today) 0 +
                              transfer_amount cfg)%Q).
        { apply (Qlt_le_trans _ (0 + transfer_amount cfg)).
          - rewrite Qplus_0_l. exact Hb.
          - apply Qplus_le_compat; [exact Htotal | apply Qle_refl]. }
        split; [apply Qlt_le_weak, Hgrows|].
        split; [lia|].
        intros Hzero. rewrite Hzero in Hgrows. exfalso. exact (Qlt_irrefl _ Hgrows).
      * assert (Hnonpos : ~ (0 < transfer_amount cfg)%Q)
          by (intros Hpos; apply Qlt_bool_iff in Hpos; congruence).
        rewrite Z.add_0_r. split; [exact IHcount|]. split; [contradiction|].
        intros _. exact (IHnonpos Hnonpos).
    + change (Qlt_bool 0 0) with false. cbv iota. rewrite Z.add_0_r.
      split; [exact IHcount|]. split; [|exact IHnonpos].
      intros Hpos. destruct (IHpos Hpos) as [Htotal Hiff].
      rewrite Qplus_0_r. split; [exact Htotal | exact Hiff].
  - intros db now a p sent upvoted commented IH. exact IH.
Qed.

(** X10.  A transfer is counted exactly when a positive amount is recorded.
    With a positive [transfer_amount], in every reachable database the
    [total_amount] of a date is not negative and is zero exactly when the
    [transfer_count] of the date is zero.  With an amount that is not
    positive no transfer is ever counted, although posts are recorded, so a
    positive daily cap never closes the gate. *)
Theorem transfers_counted_when_positive
    (json_loads : string -> option json) (cfg : Config) (lib : library)
    (db : Database) :
  reachable json_loads cfg lib (fun _ => True) db ->
  forall day,
    ((0 < transfer_amount cfg)%Q ->
     (0 <= coalesce total_amount (daily_transfers db !! day) 0)%Q /\
     (current_count day db = 0%Z <->
      (coalesce total_amount (daily_transfers db !! day) 0 == 0)%Q)) /\
    (~ (0 < transfer_amount cfg)%Q ->
     current_count day db = 0%Z /\
     forall cap, (0 < cap)%Z -> can_send_transfer_today day cap db = true).
Proof.
  intros Hdb day.
  destruct (transfer_counters_signs json_loads cfg lib db Hdb day)
    as (_ & Hpos & Hnonpos).
  split; [exact Hpos|].
  intros Hamount. specialize (Hnonpos Hamount). split; [exact Hnonpos|].
  intros cap Hcap. unfold can_send_transfer_today. rewrite Hnonpos.
  apply Z.ltb_lt. exact Hcap.
Qed.

Lemma transfers_counted_when_positive_witness :
  let paid := run toy_loads toy_strptime (ecuador_config true 1) Lighthive
                [sample_cycle ["hola"; "adios"]] in
  let unpaid := run toy_loads toy_strptime zero_amount_config Lighthive
                  [sample_cycle ["hola"; "adios"]] in
  (current_count "2025-01-01" paid = 0%Z <->
   (coalesce total_amount (daily_transfers paid !! "2025-01-01") 0 == 0)%Q) /\
  length (processed_posts unpaid) = 2%nat /\
  current_count "2025-01-01" unpaid = 0%Z /\
  can_send_transfer_today "2025-01-01" 1 unpaid = true.
Proof.
  intros paid unpaid.
  assert (Hpaid : reachable toy_loads (ecuador_config true 1) Lighthive (fun _ => True) paid)
    by (apply run_reachable; intros c _ i; exact I).
  assert (Hunpaid : reachable toy_loads zero_amount_config Lighthive (fun _ => True) unpaid)
    by (apply run_reachable; intros c _ i; exact I).
  destruct (transfers_counted_when_positive toy_loads (ecuador_config true 1) Lighthive
              paid Hpaid "2025-01-01") as [Hpos _].
  destruct (transfers_counted_when_positive toy_loads zero_amount_config Lighthive
              unpaid Hunpaid "2025-01-01") as [_ Hnonpos].
  split; [apply Hpos; reflexivity|]. split; [reflexivity|].
  destruct Hnonpos as [Hcount Hgate]; [discriminate|].
  split; [exact Hcount | apply Hgate; lia].
Defined.

(** ** Row ids *)

Lemma sorted_ids_filter (f : ProcessedRow -> bool) (rows : list ProcessedRow) :
  StronglySorted Z.lt (map row_id rows) ->
  StronglySorted Z.lt (map row_id (List.filter f rows)).
Proof.
  induction rows as [|r rows IH]; simpl; [auto|].
  intros Hs. apply StronglySorted_inv in Hs as [Hrest Hhead].
  destruct (f r); simpl; [|auto].
  constructor; [auto|].
  rewrite List.Forall_forall in *. intros id Hid.
  apply Hhead. apply in_map_iff in Hid as (r' & <- & Hr').
  apply filter_In in Hr' as [Hr' _]. apply in_map. exact Hr'.
Qed.

Lemma sorted_ids_snoc (rows : list ProcessedRow) (r : ProcessedRow) :
  StronglySorted Z.lt (map row_id rows) ->
  List.Forall (fun r' => (row_id r' < row_id r)%Z) rows ->
  StronglySorted Z.lt (map row_id (rows ++ [r])).
Proof.
  induction rows as [|r0 rows IH]; simpl; intros Hs Hlt.
  - repeat constructor.
  - apply StronglySorted_inv in Hs as [Hrest Hhead].
    apply List.Forall_cons_iff in Hlt as [Hr0 Hlt].
    constructor; [auto|].
    rewrite map_app, List.Forall_app. split; [exact Hhead|].
    repeat constructor. exact Hr0.
Qed.

(** X11.  Rows of [processed_posts] carry ids that grow with the order of
    writing: in every reachable database the ids are strictly increasing
    along the table, positive and at most the last id handed out, so an id is
    never used twice, and the row that replaces another gets a larger id
    than every row that stays. *)
Theorem row_ids_increase
    (json_loads : string -> option json) (cfg : Config) (lib : library)
    (db : Database) :
  reachable json_loads cfg lib (fun _ => True) db ->
  StronglySorted Z.lt (map row_id (processed_posts db)) /\
  List.Forall (fun r => (0 < row_id r <= last_rowid db)%Z) (processed_posts db) /\
  (0 <= last_rowid db)%Z.
Proof.
  intros Hdb. pattern db.
  eapply reachable_ind_writes; [ | | | exact Hdb]; clear db Hdb; cbv beta.
  - split; [constructor|]. split; [constructor | reflexivity].
  - intros db today processed sent upvotes errs IH _. exact IH.
  - intros db now a p sent upvoted commented (Hsorted & Hbound & Hlast).
    unfold record_processed_post. cbn [processed_posts last_rowid].
    assert (Hkept : List.Forall (fun r => (0 < row_id r <= last_rowid db)%Z)
              (List.filter (fun r => negb (row_is a p r)) (processed_posts db))).
    { rewrite List.Forall_forall in *. intros r Hr.
      apply filter_In in Hr as [Hr _]. auto. }
    split; [|split; [|lia]].
    + apply sorted_ids_snoc; [apply sorted_ids_filter, Hsorted|].
      eapply List.Forall_impl; [|exact Hkept]. cbn. intros r Hr. lia.
    + rewrite List.Forall_app. split.
      * eapply List.Forall_impl; [|exact Hkept]. cbn. intros r Hr. lia.
      * repeat constructor; cbn; lia.
Qed.

Lemma row_ids_increase_witness :
  StronglySorted Z.lt
    (map row_id
       (processed_posts
          (run toy_loads toy_strptime (ecuador_config true 10) Lighthive
             [sample_cycle ["hola"; "adios"; "hola"]]))).
Proof.
  apply (row_ids_increase toy_loads (ecuador_config true 10) Lighthive).
  apply run_reachable. intros c _ i. exact I.
Defined.

(** ** The gate over time *)

Lemma current_count_grows (json_loads : string -> option json) (cfg : Config)
    (lib : library) (env : Env) (post : Post) (db : Database) (day : string) :
  (current_count day db <=
   current_count day (db_after (process_post json_loads cfg lib env post db)))%Z.
Proof.
  assert (Hupdate : forall today processed sent upvotes errs db0,
            (current_count day db0 <=
             current_count day (update_daily_stats today processed sent upvotes errs db0))%Z).
  { intros today processed sent upvotes errs db0. rewrite current_count_update.
    destruct (decide (today = day)) as [->|_]; [|lia].
    destruct (Qlt_bool 0 sent); lia. }
  destruct (process_post_db_cases json_loads cfg lib env post db)
    as [->|[->|(sent & upvoted & commented & _ & ->)]]; [lia|apply Hupdate|].
  etransitivity; [|apply Hupdate]. rewrite current_count_record. lia.
Qed.

Lemma current_count_grows_cycle (json_loads : string -> option json)
    (strptime : string -> option Z) (cfg : Config) (lib : library)
    (db : Database) (c : Cycle) (day : string) :
  (current_count day db <=
   current_count day (run_cycle json_loads strptime cfg lib db c))%Z.
Proof.
  unfold run_cycle, monitor_community.
  assert (Hposts : forall posts i db0,
            (current_count day db0 <=
             current_count day (process_posts json_loads cfg lib (env_of c) i posts db0))%Z).
  { induction posts as [|post rest IH]; intros i db0; simpl; [lia|].
    etransitivity; [|apply IH]. apply current_count_grows. }
  destruct (feed c) as [response|]; [|simpl; lia].
  destruct (select_posts strptime (clock c) db response) as [posts|]; [apply Hposts|].
  simpl. rewrite current_count_update. change (Qlt_bool 0 0) with false. cbv iota.
  destruct (decide (today_fetch_error c = day)) as [->|_]; lia.
Qed.

(** X12.  The [transfer_count] of a date never goes down, so once
    [can_send_transfer_today] has answered no for a date it answers no for
    that date after every later cycle. *)
Theorem gate_stays_closed
    (json_loads : string -> option json) (strptime : string -> option Z)
    (cfg : Config) (lib : library) (db : Database) (day : string) (cap : Z)
    (cycles : list Cycle) :
  let later := run_on json_loads strptime cfg lib db cycles in
  (current_count day db <= current_count day later)%Z /\
  (can_send_transfer_today day cap db = false ->
   can_send_transfer_today day cap later = false).
Proof.
  intros later.
  assert (Hgrows : (current_count day db <= current_count day later)%Z).
  { subst later. unfold run_on. revert db.
    induction cycles as [|c cycles IH]; intros db; simpl; [lia|].
    etransitivity; [apply (current_count_grows_cycle json_loads strptime cfg lib db c)|].
    apply IH. }
  split; [exact Hgrows|].
  unfold can_send_transfer_today. rewrite !Z.ltb_ge. lia.
Qed.

Lemma gate_stays_closed_witness :
  can_send_transfer_today "2025-01-01" 1
    (run_on toy_loads toy_strptime (ecuador_config false 1) Lighthive one_transfer_today
       [sample_cycle ["hola"]; sample_cycle ["adios"]]) = false.
Proof.
  apply (gate_stays_closed toy_loads toy_strptime (ecuador_config false 1) Lighthive
           one_transfer_today "2025-01-01" 1).
  reflexivity.
Defined.

(** ** Dry run *)

(** X13.  In dry run [process_post] asks nothing of the world but the clock:
    the library, the balance, the date of the gate and the outcome of the
    three broadcasts do not change what it returns, calls and writes, and a
    post that passes validation is recorded with a comment, the configured
    amount and an upvote. *)
Theorem dry_run_ignores_world
    (json_loads : string -> option json) (cfg : Config) (post : Post)
    (db : Database) :
  dry_run cfg = true ->
  (forall lib1 lib2 env1 env2,
     env_now env1 = env_now env2 ->
     env_today_stats env1 = env_today_stats env2 ->
     process_post json_loads cfg lib1 env1 post db =
     process_post json_loads cfg lib2 env2 post db) /\
  (forall lib env,
     returned (process_post json_loads cfg lib env post db) = true ->
     map row_outcome
       (List.filter (row_is (author post) (permlink post))
          (processed_posts (db_after (process_post json_loads cfg lib env post db)))) =
     [(true, transfer_amount cfg, true)]).
Proof.
  intros Hdry.
  assert (Hc : forall lib env, send_welcome_comment cfg lib env = true)
    by (intros; unfold send_welcome_comment; rewrite Hdry; reflexivity).
  assert (Ht : forall lib env, send_hbd_transfer cfg lib env db = true)
    by (intros; unfold send_hbd_transfer; rewrite Hdry; reflexivity).
  assert (Hu : forall lib env, upvote_post cfg lib env = true)
    by (intros; unfold upvote_post; rewrite Hdry; reflexivity).
  split.
  - intros lib1 lib2 env1 env2 Hnow Hday. unfold process_post.
    rewrite !Hc, !Ht, !Hu, Hnow, Hday. reflexivity.
  - intros lib env. unfold process_post. rewrite Hc, Ht, Hu.
    destruct (validate_post json_loads cfg post) as [post' [v|e]];
      cbn [returned]; [|discriminate].
    destruct (is_valid v); cbn [negb returned db_after]; [|discriminate].
    intros _. rewrite processed_posts_update, record_replaces. reflexivity.
Qed.

Lemma dry_run_ignores_world_witness :
  let post := sample_post "hola" (checkin_metadata [hiveecuador_8000]) (JArr []) (JArr []) in
  let hostile := {| env_comment := Failed; env_today_gate := "2025-01-01";
                    env_balance := 0; env_transfer := Failed; env_vote := Failed;
                    env_now := "2025-01-01 00:00:05";
                    env_today_stats := "2025-01-01" |} in
  process_post toy_loads (ecuador_config true 0) Lighthive hostile post init_database =
  process_post toy_loads (ecuador_config true 0) NoLibrary (sample_env Accepted 50) post
    init_database.
Proof.
  intros post hostile.
  apply (dry_run_ignores_world toy_loads (ecuador_config true 0) post init_database);
    reflexivity.
Defined.

(** ** The balance *)

Lemma take_token_word (word rest : string) (c : Ascii.ascii) :
  spaceless word = true -> is_space c = true ->
  take_token (word ++ String c rest) = word.
Proof.
  intros Hword Hc. induction word as [|c0 word IH]; simpl in *.
  - rewrite Hc. reflexivity.
  - apply andb_true_iff in Hword as [Hc0 Hword].
    apply negb_true_iff in Hc0. rewrite Hc0, (IH Hword). reflexivity.
Qed.

Lemma first_token_word (word rest : string) (c : Ascii.ascii) :
  spaceless word = true -> word <> EmptyString -> is_space c = true ->
  first_token (word ++ String c rest) = Some word.
Proof.
  intros Hword Hne Hc. unfold first_token.
  destruct word as [|c0 word]; [contradiction|].
  pose proof Hword as Hw. simpl in Hw.
  apply andb_true_iff in Hw as [Hc0 _]. apply negb_true_iff in Hc0.
  change (String c0 word ++ String c rest)%string
    with (String c0 (word ++ String c rest)).
  cbn [skip_spaces]. rewrite Hc0.
  change (String c0 (word ++ String c rest))
    with (String c0 word ++ String c rest)%string.
  rewrite (take_token_word _ _ _ Hword Hc). reflexivity.
Qed.

(** X14.  [get_account_balance] reads the first word of the balance text of
    the first account: for a text made of a word, a blank and anything else
    it is [float] of the word, and 0.0 when the word is no number.  An
    account without the key counts as "0.000 HBD". *)
Theorem balance_is_first_word (py_float : string -> option Q)
    (fields : list (string * json)) (others : list json) (word rest : string) :
  spaceless word = true -> word <> EmptyString ->
  (dict_get fields "hbd_balance" = Some (JStr (word ++ " " ++ rest)) ->
   get_account_balance py_float (Some (JArr (JObj fields :: others))) =
     default 0%Q (py_float word)) /\
  (dict_get fields "hbd_balance" = None ->
   get_account_balance py_float (Some (JArr (JObj fields :: others))) =
     default 0%Q (py_float "0.000")).
Proof.
  intros Hword Hne. split; intros Hkey; unfold get_account_balance; rewrite Hkey.
  - cbn [default from_option id].
    change (word ++ " " ++ rest)%string with (word ++ String Ascii.Space rest)%string.
    rewrite (first_token_word word rest Ascii.Space Hword Hne eq_refl). reflexivity.
  - reflexivity.
Qed.

Lemma balance_is_first_word_witness :
  get_account_balance toy_float
    (Some (JArr [JObj [("name", JStr "hiveecuador"); ("hbd_balance", JStr "12.500 HBD")]])) =
  (25 # 2)%Q.
Proof.
  destruct (balance_is_first_word toy_float
              [("name", JStr "hiveecuador"); ("hbd_balance", JStr "12.500 HBD")] []
              "12.500" "HBD" eq_refl) as [Hread _]; [discriminate|].
  rewrite (Hread eq_refl). reflexivity.
Defined.

(** X15.  A balance that cannot be looked up reads as 0.0: no answer, an
    answer that is not a list or has no account, a first account that is no
    mapping, a balance that is no text or has no word.  Outside dry run,
    with a positive [min_account_balance], such a lookup refuses the
    transfer whatever the library would have answered. *)
Theorem failed_lookup_refuses_transfer (py_float : string -> option Q)
    (cfg : Config) (lib : library) (env : Env) (db : Database)
    (accounts : option json) :
  accounts = None \/
  (exists v, accounts = Some v /\ as_list v = []) \/
  (exists account others,
     accounts = Some (JArr (account :: others)) /\
     (is_dict account = false \/
      exists fields balance,
        account = JObj fields /\ dict_get fields "hbd_balance" = Some balance /\
        (is_str balance = false \/
         exists text, balance = JStr text /\ first_token text = None))) ->
  get_account_balance py_float accounts = 0%Q /\
  (dry_run cfg = false -> (0 < min_account_balance cfg)%Q ->
   send_hbd_transfer cfg lib
     (with_balance (get_account_balance py_float accounts) env) db = false).
Proof.
  intros Hfailed.
  assert (Hzero : get_account_balance py_float accounts = 0%Q).
  { destruct Hfailed as [->|[(v & -> & Hv)|(account & others & -> & Haccount)]].
    - reflexivity.
    - destruct v as [| | | |[|x xs]|]; try reflexivity. discriminate Hv.
    - destruct Haccount as [Hdict|(fields & balance & -> & Hkey & Hbalance)].
      + destruct account; try reflexivity. discriminate Hdict.
      + unfold get_account_balance. rewrite Hkey. cbn [default from_option id].
        destruct Hbalance as [Hstr|(text & -> & Hword)].
        * destruct balance; try reflexivity. discriminate Hstr.
        * rewrite Hword. reflexivity. }
  split; [exact Hzero|].
  intros Hreal Hmin. rewrite Hzero.
  unfold send_hbd_transfer, with_balance. cbn [env_balance env_today_gate env_transfer].
  rewrite Hreal.
  destruct (negb (can_send_transfer_today _ _ _)); [reflexivity|].
  apply Qlt_bool_iff in Hmin. rewrite Hmin. reflexivity.
Qed.

Lemma failed_lookup_refuses_transfer_witness :
  send_hbd_transfer (ecuador_config false 10) Lighthive
    (with_balance (get_account_balance toy_float (Some (JArr []))) (sample_env Accepted 50))
    init_database = false.
Proof.
  destruct (failed_lookup_refuses_transfer toy_float (ecuador_config false 10) Lighthive
              (sample_env Accepted 50) init_database (Some (JArr [])))
    as [_ Hrefused].
  - right. left. exists (JArr []). split; reflexivity.
  - apply Hrefused; reflexivity.
Defined.

(** ** Tags given as one text *)

Lemma prefix_app (t b : string) : String.prefix t (t ++ b) = true.
Proof.
  induction t as [|c t IH]; simpl; [destruct b; reflexivity|].
  destruct (Ascii.ascii_dec c c); [exact IH | contradiction].
Qed.

Lemma str_contains_prefix (t s : string) :
  String.prefix t s = true -> str_contains t s = true.
Proof. intros H. destruct s; cbn [str_contains]; rewrite H; reflexivity. Qed.

Lemma str_contains_app (a t b : string) : str_contains t (a ++ t ++ b) = true.
Proof.
  induction a as [|c a IH].
  - change ("" ++ t ++ b)%string with (t ++ b)%string.
    apply str_contains_prefix, prefix_app.
  - change (String c a ++ t ++ b)%string with (String c (a ++ t ++ b)).
    cbn [str_contains]. rewrite IH. apply orb_true_r.
Qed.

Lemma missing_from_text (s : string) (words : list string) :
  missing_from (JStr s) (map JStr words) =
    Ok (map JStr (List.filter (fun t => negb (str_contains t s)) words)).
Proof.
  induction words as [|t rest IH]; simpl; [reflexivity|].
  rewrite IH. simpl. destruct (str_contains t s); reflexivity.
Qed.

Lemma missing_from_text_raises (s : string) (tags : list json) :
  existsb (fun tag => negb (is_str tag)) tags = true ->
  missing_from (JStr s) tags = Raise TypeError.
Proof.
  induction tags as [|tag rest IH]; simpl; [discriminate|].
  destruct tag as [| | |t| |]; simpl; try reflexivity.
  intros Hrest. rewrite (IH Hrest). reflexivity.
Qed.

(** X16.  When the metadata gives its tags as one text instead of a list,
    the tag check is a search for each required tag inside that text: a
    required tag that occurs anywhere in it, also inside a longer word, is
    taken as present.  A required tag that is no text makes the check raise
    on such metadata. *)
Theorem tags_as_text_match_by_substring (cfg : Config)
    (fields : list (string * json)) (s : string) :
  dict_get fields "tags" = Some (JStr s) ->
  (forall words,
     required cfg "tags" (JArr []) = JArr (map JStr words) ->
     check_tags cfg (JObj fields) =
       Ok (match List.filter (fun t => negb (str_contains t s)) words with
           | [] => []
           | missing => [MissingRequiredTags (map JStr missing)]
           end) /\
     ((forall t, In t words -> exists a b, s = (a ++ t ++ b)%string) ->
      check_tags cfg (JObj fields) = Ok [])) /\
  (forall tags,
     required cfg "tags" (JArr []) = JArr tags ->
     existsb (fun tag => negb (is_str tag)) tags = true ->
     check_tags cfg (JObj fields) = Raise TypeError).
Proof.
  intros Htags.
  assert (Hget : py_get (JObj fields) "tags" (JArr []) = Ok (JStr s))
    by (cbn [py_get]; rewrite Htags; reflexivity).
  split.
  - intros words Hreq.
    assert (Hcheck : check_tags cfg (JObj fields) =
              Ok (match List.filter (fun t => negb (str_contains t s)) words with
                  | [] => []
                  | missing => [MissingRequiredTags (map JStr missing)]
                  end)).
    { unfold check_tags. rewrite Hget, Hreq. cbn [bind py_iter].
      rewrite missing_from_text. cbn [bind].
      destruct (List.filter _ words); reflexivity. }
    split; [exact Hcheck|].
    intros Hall. rewrite Hcheck.
    replace (List.filter (fun t => negb (str_contains t s)) words) with (@nil string);
      [reflexivity|].
    symmetry. clear Hcheck Hreq.
    induction words as [|t rest IH]; [reflexivity|]. cbn [List.filter].
    destruct (Hall t (or_introl eq_refl)) as (a & b & Hs).
    rewrite Hs at 1. rewrite str_contains_app. cbn [negb].
    apply IH. intros t' Ht'. apply Hall. right. exact Ht'.
  - intros tags Hreq Hbad. unfold check_tags. rewrite Hget, Hreq. cbn [bind py_iter].
    rewrite (missing_from_text_raises _ _ Hbad). reflexivity.
Qed.

Lemma tags_as_text_match_by_substring_witness :
  check_tags (ecuador_config false 10)
    (JObj [("tags", JStr "introduceyourselfhere checkinecuador")]) = Ok [].
Proof.
  destruct (tags_as_text_match_by_substring (ecuador_config false 10)
              [("tags", JStr "introduceyourselfhere checkinecuador")]
              "introduceyourselfhere checkinecuador" eq_refl) as [Hwords _].
  destruct (Hwords ["introduceyourself"; "checkin"] eq_refl) as [_ Hall].
  apply Hall. intros t [<-|[<-|[]]].
  - exists "", "here checkinecuador". reflexivity.
  - exists "introduceyourselfhere ", "ecuador". reflexivity.
Defined.

(** ** The body length *)

Lemma not_in_other_check (c : check) (rs : list reason) (r : reason) :
  only c rs -> check_of r <> c -> ~ In r rs.
Proof.
  unfold only. rewrite List.Forall_forall. intros Honly Hne Hin.
  apply Hne, Honly, Hin.
Qed.

Lemma body_reason_in_checks (cfg : Config) (metadata late merged : json) (post : Post)
    (app developer tags bens country fields : list reason) :
  check_app cfg metadata = Ok app ->
  check_developer cfg metadata = Ok developer ->
  check_tags cfg metadata = Ok tags ->
  check_beneficiaries cfg merged = Ok bens ->
  check_country cfg late = Ok country ->
  check_required_fields cfg late = Ok fields ->
  (In BodyTooShort (app ++ developer ++ tags ++ bens ++ country ++ fields ++ check_body post)
   <-> (String.length (body post) < 100)%nat).
Proof.
  intros Happ Hdev Htags Hbens Hcountry Hfields.
  rewrite !in_app_iff.
  pose proof (not_in_other_check _ _ BodyTooShort
    (proj1 (check_field_only AppMismatch CheckApp _ _ _ _ (fun _ _ => eq_refl) Happ))).
  pose proof (not_in_other_check _ _ BodyTooShort
    (proj1 (check_field_only DeveloperMismatch CheckDeveloper _ _ _ _
              (fun _ _ => eq_refl) Hdev))).
  pose proof (not_in_other_check _ _ BodyTooShort (proj1 (check_tags_only _ _ _ Htags))).
  pose proof (not_in_other_check _ _ BodyTooShort (check_beneficiaries_only _ _ _ Hbens)).
  pose proof (not_in_other_check _ _ BodyTooShort
    (proj1 (check_field_only CountryMismatch CheckCountry _ _ _ _
              (fun _ _ => eq_refl) Hcountry))).
  pose proof (not_in_other_check _ _ BodyTooShort
    (check_required_fields_only _ _ _ Hfields)).
  assert (Hbody : In BodyTooShort (check_body post) <-> (String.length (body post) < 100)%nat).
  { unfold check_body. destruct (String.length (body post) <? 100)%nat eqn:E.
    - apply Nat.ltb_lt in E. split; [auto | intros _; left; reflexivity].
    - apply Nat.ltb_ge in E. split; [intros [] | lia]. }
  rewrite <- Hbody. cbn in *. intuition congruence.
Qed.

(** X17.  Whenever validation returns on decoded metadata, in either variant,
    the reason "Post body too short for introduction" is among the reasons
    exactly when the body has fewer than 100 characters: a body of 100
    characters passes, whatever the requirements are. *)
Theorem body_reason_iff_short
    (json_loads : string -> option json) (cfg : Config) (post : Post)
    (metadata : json) :
  load_metadata json_loads (json_metadata post) = Some metadata ->
  (forall post' v,
     validate_post json_loads cfg post = (post', Ok v) ->
     (In BodyTooShort (reasons v) <-> (String.length (body post) < 100)%nat)) /\
  (forall v,
     advanced_validate_post json_loads cfg post = Ok v ->
     (In BodyTooShort (reasons v) <-> (String.length (body post) < 100)%nat)).
Proof.
  intros Hload. split.
  - intros post' v Hv.
    destruct (validate_post_returns _ _ _ _ _ _ Hload Hv)
      as (app & developer & tags & merged & bens & country & fields &
          Happ & Hdev & Htags & Hbens & Hcountry & Hfields & -> & _).
    exact (body_reason_in_checks _ _ _ _ _ _ _ _ _ _ _
             Happ Hdev Htags Hbens Hcountry Hfields).
  - intros v Hv.
    destruct (advanced_validate_post_returns _ _ _ _ _ Hload Hv)
      as (app & developer & tags & pb & bens & country & fields &
          Happ & Hdev & Htags & Hbens & Hcountry & Hfields & -> & _).
    exact (body_reason_in_checks _ _ _ _ _ _ _ _ _ _ _
             Happ Hdev Htags Hbens Hcountry Hfields).
Qed.

Lemma body_reason_iff_short_witness :
  exists post' v,
    validate_post toy_loads (ecuador_config false 10) wrong_post = (post', Ok v) /\
    In BodyTooShort (reasons v).
Proof.
  destruct (body_reason_iff_short toy_loads (ecuador_config false 10) wrong_post
              (json_metadata wrong_post) eq_refl) as [Hmain _].
  eexists _, _. split; [reflexivity|].
  apply (Hmain _ _ eq_refl). cbn. lia.
Defined.

(** ** The two variants side by side *)

Lemma merge_extensions_nothing (exts : list json) (post_beneficiaries : json) :
  forallb carries_nothing exts = true ->
  merge_extensions exts post_beneficiaries = (post_beneficiaries, Ok tt).
Proof.
  induction exts as [|ext rest IH]; cbn [forallb merge_extensions]; [reflexivity|].
  rewrite andb_true_iff. intros [Hext Hrest]. unfold carries_nothing in Hext.
  destruct (extension_beneficiaries ext); [discriminate Hext | exact (IH Hrest)].
Qed.

Lemma store_beneficiaries_same (post : Post) (metadata : json) :
  json_metadata post = metadata ->
  store_beneficiaries post (metadata_field metadata "beneficiaries" (JArr [])) = post.
Proof.
  intros <-. unfold store_beneficiaries, metadata_field.
  destruct post as [i a p t b c m e d]. cbn [json_metadata].
  destruct m as [| | | | |fields]; try reflexivity.
  destruct (dict_get fields "beneficiaries") as [v|] eqn:E; [|reflexivity].
  cbn. rewrite (dict_set_same _ _ _ E). reflexivity.
Qed.

Lemma validate_post_without_merge
    (json_loads : string -> option json) (cfg : Config) (post : Post)
    (exts : list json) :
  py_truthy (beneficiaries post) = false ->
  py_iter (extensions post) = Ok exts ->
  forallb carries_nothing exts = true ->
  verdict (snd (validate_post json_loads cfg post)) =
    verdict (advanced_validate_post json_loads cfg post) /\
  fst (validate_post json_loads cfg post) = post.
Proof.
  intros Hdirect Hiter Hexts.
  unfold validate_post, advanced_validate_post.
  destruct (load_metadata json_loads (json_metadata post)) as [metadata|] eqn:Hload;
    [|split; reflexivity].
  destruct (check_app cfg metadata) as [app|e]; cbn [bind]; [|split; reflexivity].
  destruct (check_developer cfg metadata) as [developer|e]; cbn [bind];
    [|split; reflexivity].
  destruct (check_tags cfg metadata) as [tags|e]; cbn [bind]; [|split; reflexivity].
  destruct metadata as [| | | | |fields]; cbn [py_get bind]; try (split; reflexivity).
  unfold merge_beneficiaries. rewrite Hdirect, Hiter, (merge_extensions_nothing _ _ Hexts).
  cbn [bind fst snd].
  change (match dict_get fields "beneficiaries" with Some v => v | None => JArr [] end)
    with (metadata_field (JObj fields) "beneficiaries" (JArr [])).
  rewrite refresh_metadata_same.
  split.
  - destruct (check_beneficiaries cfg _) as [bens|e]; cbn [bind]; [|reflexivity].
    destruct (check_country cfg (JObj fields)) as [country|e]; cbn [bind]; [|reflexivity].
    destruct (check_required_fields cfg (JObj fields)) as [flds|e]; cbn [bind];
      [|reflexivity].
    cbn [verdict is_valid reasons]. rewrite <- !app_assoc. reflexivity.
  - unfold load_metadata in Hload.
    destruct (json_metadata post) as [| | |s| |fields0] eqn:Hraw; try discriminate Hload.
    + unfold store_beneficiaries. rewrite Hraw. reflexivity.
    + injection Hload as ->.
      apply (store_beneficiaries_same post (JObj fields) Hraw).
Qed.

(** X18.  On a post that brings no beneficiaries outside its metadata (the
    direct field is empty and no extension carries any), [validate_post] of
    [main.py] and of [main_advanced.py] return the same verdict and the same
    reasons, or raise alike, and [main.py] leaves the post as it was. *)
Theorem variants_agree_without_merge
    (json_loads : string -> option json) (cfg : Config) (post : Post)
    (exts : list json) :
  py_truthy (beneficiaries post) = false ->
  py_iter (extensions post) = Ok exts ->
  forallb carries_nothing exts = true ->
  verdict (snd (validate_post json_loads cfg post)) =
    verdict (advanced_validate_post json_loads cfg post) /\
  fst (validate_post json_loads cfg post) = post.
Proof.
  intros Hdirect Hiter Hexts.
  destruct (validate_post_without_merge json_loads cfg post exts Hdirect Hiter Hexts)
    as [Hverdict Hpost].
  split; assumption.
Qed.

Lemma variants_agree_without_merge_witness :
  verdict (snd (validate_post toy_loads (ecuador_config false 10) wrong_post)) =
    verdict (advanced_validate_post toy_loads (ecuador_config false 10) wrong_post) /\
  fst (validate_post toy_loads (ecuador_config false 10) wrong_post) = wrong_post.
Proof.
  apply (variants_agree_without_merge toy_loads (ecuador_config false 10) wrong_post []);
    reflexivity.
Defined.

(** ** The late checks and the merged list *)

Lemma py_extend_truthy (target arg extended : json) :
  py_truthy target = true -> py_extend target arg = Ok extended ->
  py_truthy extended = true.
Proof.
  destruct target as [| | | |items|]; try discriminate 2.
  intros Htruthy H. cbn [py_extend] in H. apply bind_Ok in H as (xs & _ & [= <-]).
  destruct items; [discriminate Htruthy | reflexivity].
Qed.

Lemma merge_extensions_truthy (exts : list json) (post_beneficiaries : json) :
  py_truthy post_beneficiaries = true ->
  py_truthy (fst (merge_extensions exts post_beneficiaries)) = true.
Proof.
  revert post_beneficiaries.
  induction exts as [|ext rest IH]; intros pb Hpb; cbn [merge_extensions]; [exact Hpb|].
  destruct (extension_beneficiaries ext) as [more|]; [|apply IH, Hpb].
  destruct (py_extend pb more) as [extended|e] eqn:E; [|exact Hpb].
  apply IH. exact (py_extend_truthy _ _ _ Hpb E).
Qed.

Lemma merge_beneficiaries_truthy (post : Post) (post_beneficiaries : json) :
  py_truthy post_beneficiaries = true ->
  py_truthy (fst (merge_beneficiaries post post_beneficiaries)) = true.
Proof.
  intros Hpb. unfold merge_beneficiaries.
  assert (Hfirst : forall extended,
            (if py_truthy (beneficiaries post)
             then py_extend post_beneficiaries (beneficiaries post)
             else Ok post_beneficiaries) = Ok extended ->
            py_truthy extended = true).
  { intros extended. destruct (py_truthy (beneficiaries post)).
    - apply py_extend_truthy, Hpb.
    - intros [= <-]. exact Hpb. }
  destruct (if py_truthy (beneficiaries post) then _ else _) as [extended|e];
    [|exact Hpb].
  specialize (Hfirst extended eq_refl).
  destruct (py_iter (extensions post)) as [exts|e]; [|exact Hfirst].
  apply merge_extensions_truthy, Hfirst.
Qed.

(** X19.  In [main.py] the checks that follow the merge read the metadata
    mapping with the merged list in it, because the list under
    'beneficiaries' is the list the merge extends.  This changes nothing when
    the metadata has no such key or its value is already truthy: evaluating
    the country and required-field checks on the mapping after the merge
    ([validate_post]) or on the metadata as decoded
    ([validate_post_as_decoded]) is then the same.  It shows when the value
    is an empty list and beneficiaries are merged in: a requirement that the
    field 'beneficiaries' be filled in is then met by the merge. *)
Theorem late_checks_read_merged_list
    (json_loads : string -> option json) (cfg : Config) (post : Post) :
  ((forall metadata,
      load_metadata json_loads (json_metadata post) = Some metadata ->
      py_truthy (metadata_field metadata "beneficiaries" (JBool true)) = true) ->
   validate_post json_loads cfg post = validate_post_as_decoded json_loads cfg post) /\
  (let empty_list :=
     sample_post "hola" (JObj [("beneficiaries", JArr [])]) (JArr [])
       (JArr [hiveecuador_8000]) in
   verdict (snd (validate_post toy_loads beneficiaries_required empty_list)) =
     Ok (true, []) /\
   verdict (snd (validate_post_as_decoded toy_loads beneficiaries_required empty_list)) =
     Ok (false, [MissingRequiredField (JStr "beneficiaries")])).
Proof.
  split; [|split; reflexivity].
  intros Htruthy. unfold validate_post, validate_post_as_decoded.
  destruct (load_metadata json_loads (json_metadata post)) as [metadata|];
    [|reflexivity].
  specialize (Htruthy metadata eq_refl).
  destruct (app <- check_app cfg metadata ;; _) as [[rs pb]|e] eqn:Hfirst; [|reflexivity].
  apply bind_Ok in Hfirst as (app & _ & Hfirst).
  apply bind_Ok in Hfirst as (developer & _ & Hfirst).
  apply bind_Ok in Hfirst as (tags & _ & Hfirst).
  apply bind_Ok in Hfirst as (pb0 & Hpb & Hfirst).
  injection Hfirst as _ <-.
  pose proof (merge_beneficiaries_truthy post pb0) as Hmerged.
  destruct (merge_beneficiaries post pb0) as [merged outcome]. cbn [fst] in Hmerged.
  destruct metadata as [| | | | |fields]; try discriminate Hpb.
  cbn [py_get] in Hpb. cbn [metadata_field] in Htruthy. unfold refresh_metadata.
  destruct (dict_get fields "beneficiaries") as [orig|] eqn:Hkey; [|reflexivity].
  injection Hpb as <-.
  destruct (late_checks_refresh cfg fields merged orig Hkey) as [-> ->];
    [rewrite Htruthy, (Hmerged Htruthy); reflexivity | reflexivity].
Qed.

Lemma late_checks_read_merged_list_witness :
  validate_post toy_loads (ecuador_config false 10) aliased_post =
  validate_post_as_decoded toy_loads (ecuador_config false 10) aliased_post.
Proof.
  apply (late_checks_read_merged_list toy_loads (ecuador_config false 10) aliased_post).
  intros metadata [= <-]. reflexivity.
Defined.

(** ** [main.py] without a library *)

(** X20.  When neither blockchain library is installed, [main.py] simulates
    its three actions as [main_advanced.py] does: on a post that brings no
    beneficiaries outside its metadata the two [process_post] return the
    same answer, make the same calls and leave the same database. *)
Theorem simulated_main_is_advanced
    (json_loads : string -> option json) (cfg : Config) (env : Env) (post : Post)
    (db : Database) (exts : list json) :
  py_truthy (beneficiaries post) = false ->
  py_iter (extensions post) = Ok exts ->
  forallb carries_nothing exts = true ->
  process_post json_loads cfg NoLibrary env post db =
  advanced_process_post json_loads cfg env post db.
Proof.
  intros Hdirect Hiter Hexts.
  destruct (validate_post_without_merge json_loads cfg post exts Hdirect Hiter Hexts)
    as [Hverdict Hpost].
  unfold process_post, advanced_process_post.
  destruct (validate_post json_loads cfg post) as [post' [v|e]];
    destruct (advanced_validate_post json_loads cfg post) as [w|e'];
    cbn [fst snd verdict] in *; try discriminate Hverdict; subst post'.
  - injection Hverdict as Hvalid _. rewrite Hvalid.
    destruct (is_valid w); cbn [negb]; [|reflexivity].
    unfold advanced_perform_actions, advanced_send_welcome_comment,
      send_welcome_comment, upvote_post, advanced_upvote_post,
      send_hbd_transfer, advanced_send_hbd_transfer.
    cbn [broadcast_ok].
    destruct (dry_run cfg); reflexivity.
  - reflexivity.
Qed.

Lemma simulated_main_is_advanced_witness :
  let post := sample_post "hola" (checkin_metadata [hiveecuador_8000]) (JArr []) (JArr []) in
  process_post toy_loads (ecuador_config false 1) NoLibrary (sample_env Failed 50) post
    one_transfer_today =
  advanced_process_post toy_loads (ecuador_config false 1) (sample_env Failed 50) post
    one_transfer_today.
Proof.
  intros post.
  apply (simulated_main_is_advanced toy_loads (ecuador_config false 1)
           (sample_env Failed 50) post one_transfer_today []); reflexivity.
Defined.

(** ** The totals of the dashboard *)

Lemma sum_over_insert (column : DailyStats -> Z) (table : gmap string DailyStats)
    (k : string) (row : DailyStats) :
  sum_over column (<[k := row]> table) =
    (sum_over column table - coalesce column (table !! k) 0 + column row)%Z.
Proof.
  assert (Hfresh : forall (m : gmap string DailyStats) r,
            m !! k = None ->
            sum_over column (<[k := r]> m) = (column r + sum_over column m)%Z).
  { intros m r Hnone. unfold sum_over.
    apply (map_fold_insert_L (fun _ row acc => (column row + acc)%Z)); [|exact Hnone].
    intros. lia. }
  destruct (table !! k) as [old|] eqn:Hk; cbn [coalesce].
  - rewrite <- (insert_delete_eq table k row).
    rewrite <- (insert_delete_id table k old Hk) at 2.
    rewrite !Hfresh by apply lookup_delete_eq. lia.
  - rewrite (Hfresh _ _ Hk). lia.
Qed.

Lemma sum_over_update (today : string) (processed : Z) (sent : Q) (upvotes errs : Z)
    (db : Database) :
  let table := daily_stats (update_daily_stats today processed sent upvotes errs db) in
  sum_over posts_processed table =
    (sum_over posts_processed (daily_stats db) + processed)%Z /\
  sum_over upvotes_given table = (sum_over upvotes_given (daily_stats db) + upvotes)%Z /\
  sum_over errors table = (sum_over errors (daily_stats db) + errs)%Z.
Proof.
  unfold update_daily_stats. cbn [daily_stats].
  rewrite !sum_over_insert. cbn [posts_processed upvotes_given errors].
  repeat split; lia.
Qed.

Lemma filter_length_le {A : Type} (f : A -> bool) (l : list A) :
  (length (List.filter f l) <= length l)%nat.
Proof.
  induction l as [|x l IH]; simpl; [lia|]. destruct (f x); simpl; lia.
Qed.

Lemma filter_filter_length_le {A : Type} (f g : A -> bool) (l : list A) :
  (length (List.filter f (List.filter g l)) <= length (List.filter f l))%nat.
Proof.
  induction l as [|x l IH]; simpl; [lia|].
  destruct (g x); simpl; destruct (f x); simpl; lia.
Qed.

(** X21.  The totals [get_total_stats] reads off [processed_posts] never
    exceed what the bot counted per day: in every reachable database the
    number of rows is at most the sum of [posts_processed] and the number of
    upvoted rows at most the sum of [upvotes_given] over all dates (a post
    processed twice is counted twice but has one row); the error total is
    not negative; and once there is a row there is an active day, so the
    averages divide by the number of days. *)
Theorem dashboard_totals_bounded
    (json_loads : string -> option json) (cfg : Config) (lib : library)
    (db : Database) :
  reachable json_loads cfg lib (fun _ => True) db ->
  let t := get_total_stats db in
  (total_posts t <= sum_over posts_processed (daily_stats db))%Z /\
  (total_upvotes t <= sum_over upvotes_given (daily_stats db))%Z /\
  (0 <= total_errors t)%Z /\
  ((0 < total_posts t)%Z ->
   (1 <= days_active t)%Z /\
   avg_posts_per_day t = (inject_Z (total_posts t) / inject_Z (days_active t))%Q).
Proof.
  intros Hdb. cbv zeta. unfold get_total_stats.
  cbn [total_posts total_upvotes total_errors days_active avg_posts_per_day].
  assert (Hinv :
    (Z.of_nat (length (processed_posts db)) <= sum_over posts_processed (daily_stats db))%Z /\
    (Z.of_nat (length (List.filter row_upvoted (processed_posts db)))
       <= sum_over upvotes_given (daily_stats db))%Z /\
    (0 <= sum_over errors (daily_stats db))%Z /\
    (processed_posts db <> [] -> size (daily_stats db) <> 0%nat)).
  { induction Hdb as [|db env post _ IH _|db today _ IH].
    - unfold init_database, sum_over. cbn [processed_posts daily_stats].
      rewrite !map_fold_empty. cbn. repeat split; try lia. congruence.
    - destruct IH as (Hposts & Hup & Herr & Hdays).
      destruct (process_post_db_cases json_loads cfg lib env post db)
        as [->|[->|(sent & upvoted & commented & _ & ->)]]; [tauto| |].
      + destruct (sum_over_update (env_today_stats env) 0 0 0 1 db) as (-> & -> & ->).
        rewrite processed_posts_update.
        repeat split; try lia. intros _.
        unfold update_daily_stats. cbn [daily_stats].
        rewrite map_size_empty_iff. apply insert_non_empty.
      + set (db1 := record_processed_post (env_now env) (author post) (permlink post)
                      sent upvoted commented db).
        destruct (sum_over_update (env_today_stats env) 1 sent
                    (if upvoted then 1 else 0) 0 db1) as (-> & -> & ->).
        rewrite processed_posts_update. subst db1.
        unfold record_processed_post at 1 3. cbn [processed_posts].
        change (daily_stats (record_processed_post _ _ _ _ _ _ db)) with (daily_stats db).
        rewrite List.filter_app, !length_app. cbn [List.filter row_upvoted length].
        pose proof (filter_length_le (fun r => negb (row_is (author post) (permlink post) r))
                      (processed_posts db)).
        pose proof (filter_filter_length_le row_upvoted
                      (fun r => negb (row_is (author post) (permlink post) r))
                      (processed_posts db)).
        repeat split; try lia.
        * destruct upvoted; cbn [length]; lia.
        * intros _. unfold update_daily_stats. cbn [daily_stats].
          rewrite map_size_empty_iff. apply insert_non_empty.
    - destruct IH as (Hposts & Hup & Herr & Hdays).
      destruct (sum_over_update today 0 0 0 1 db) as (-> & -> & ->).
      rewrite processed_posts_update.
      repeat split; try lia. intros _.
      unfold update_daily_stats. cbn [daily_stats].
      rewrite map_size_empty_iff. apply insert_non_empty. }
  destruct Hinv as (Hposts & Hup & Herr & Hdays).
  repeat split; try assumption.
  - destruct (processed_posts db); [cbn in H; lia|].
    assert (size (daily_stats db) <> 0%nat) by (apply Hdays; discriminate). lia.
  - destruct (processed_posts db) as [|r rows] eqn:Hrows; [cbn in H; lia|].
    assert (size (daily_stats db) <> 0%nat) by (apply Hdays; discriminate).
    rewrite Z.max_l by lia. reflexivity.
Qed.

Lemma dashboard_totals_bounded_witness :
  let db := run toy_loads toy_strptime (ecuador_config true 10) Lighthive
              [sample_cycle ["hola"; "adios"; "hola"]] in
  (total_posts (get_total_stats db) <= sum_over posts_processed (daily_stats db))%Z.
Proof.
  intros db.
  apply (dashboard_totals_bounded toy_loads (ecuador_config true 10) Lighthive db).
  apply run_reachable. intros c _ i. exact I.
Defined.

Lemma record_then_lookup_witness :
  let db := record_processed_post "2025-01-01 00:00:05" "testuser" "hola" 1 true false
              one_transfer_today in
  is_post_processed "testuser" "hola" db = true /\
  is_post_processed "testuser" "adios" db =
    is_post_processed "testuser" "adios" one_transfer_today.
Proof.
  intros db.
  destruct (record_then_lookup "2025-01-01 00:00:05" "testuser" "hola" 1 true false
              one_transfer_today) as (Hfound & Hother & _).
  split; [exact Hfound|]. apply Hother. discriminate.
Defined.
